(** * HotelVault: the in-memory store and the dashboard metrics

    A shallow embedding of [server/storage.ts] (class [MemStorage]), of the
    [GET /api/dashboard/metrics] handler of [server/routes.ts] and of the
    record types of [@shared/schema].

    - Values have the types the TypeScript signatures give them: a record
      per entity, [option] for a nullable column, a [Partial<T>] as a record
      of optional fields (a field is [None] when the key is absent), [Json]
      for a [jsonb] column, integers for [integer] columns.  An [Insert]
      type carries every column its schema does not omit.  Keys and
      [undefined] values outside these types are not modelled.
    - JavaScript numbers that are computed with are IEEE-754 binary64
      values, modelled with the executable [spec_float] operations of the
      Standard Library; [Math.round], [parseFloat] and [toFixed(2)] follow
      ECMA-262.
    - A string is the sequence of bytes of its UTF-8 encoding, as the
      string literals of this file are.
    - A [Date] is its time value, an integer number of milliseconds since
      the epoch (only valid dates are modelled); the time zone of the host
      is the function [LocalTZA] of ECMA-262.
    - A [Map<string, T>] is the list of its entries in insertion order.
    - A method that writes is a function of the store that returns how the
      call ended (a value, or a thrown [Error]) together with the store it
      leaves behind; a method that only reads is a function of the store.
      The promises of the [async] methods are not modelled.
    - [randomUUID()] and [new Date()] are inputs of the methods that call
      them. *)

From Stdlib Require Import ZArith List Bool Lia.
From Stdlib Require Import Strings.String Strings.Ascii.
From Stdlib Require Import Floats.SpecFloat.
From Stdlib Require Floats.PrimFloat Floats.FloatOps Numbers.Cyclic.Int63.Uint63.
From Stdlib Require Import DecimalString.
Import ListNotations.

Local Open Scope string_scope.
Local Open Scope list_scope.
Local Open Scope Z_scope.

(* ================================================================== *)
(** ** JavaScript numbers *)

Module JsNumber.

Definition prec : Z := 53.
Definition emax : Z := 1024.

Definition number := spec_float.

Definition NaN : number := S754_nan.
Definition pos_zero : number := S754_zero false.

(** The number closest to the integer [n] (exact below 2^53). *)
Definition of_int (n : Z) : number := binary_normalize prec emax n 0 false.

Definition add : number -> number -> number := SFadd prec emax.
Definition mul : number -> number -> number := SFmul prec emax.
Definition div : number -> number -> number := SFdiv prec emax.

(** [x === y] on numbers: NaN differs from everything, the zeros are equal. *)
Definition strict_eq (x y : number) : bool := SFeqb x y.

(** [Math.round]: non-finite and integral numbers are returned as they
    are; otherwise the closest integer, the one towards +infinity on a
    tie.  A result of zero keeps the sign of the argument. *)
Definition Math_round (x : number) : number :=
  match x with
  | S754_finite s m e =>
      if 0 <=? e then x
      else
        let sm := if s then Z.neg m else Z.pos m in
        let n := (2 * sm + 2 ^ (- e)) / 2 ^ (1 - e) in
        binary_normalize prec emax n 0 s
  | _ => x
  end.

(** *** [parseFloat] *)

(** [StrWhiteSpaceChar]: the code points of [WhiteSpace] (TAB, VT, FF,
    ZWNBSP and the space separators of Unicode: SP, NBSP, U+1680, U+2000 to
    U+200A, U+202F, U+205F, U+3000) and of [LineTerminator] (LF, CR, LS,
    PS). *)
Definition StrWhiteSpaceChar : list Z :=
  [9; 11; 12; 65279;
   32; 160; 5760;
   8192; 8193; 8194; 8195; 8196; 8197; 8198; 8199; 8200; 8201; 8202;
   8239; 8287; 12288;
   10; 13; 8232; 8233].

Definition byte (c : ascii) : Z := Z.of_N (N_of_ascii c).

Definition continuation (b : Z) : bool := (128 <=? b) && (b <=? 191).

(** The code point that a UTF-8 sequence of one, two or three bytes
    encodes; a sequence of four bytes encodes a code point from U+10000 on,
    none of which is white space. *)
Definition code1 (b1 : Z) : option Z :=
  if b1 <? 128 then Some b1 else None.

Definition code2 (b1 b2 : Z) : option Z :=
  if (194 <=? b1) && (b1 <=? 223) && continuation b2
  then Some ((b1 - 192) * 64 + (b2 - 128))
  else None.

Definition code3 (b1 b2 b3 : Z) : option Z :=
  if (224 <=? b1) && (b1 <=? 239) && continuation b2 && continuation b3
  then
    let cp := (b1 - 224) * 4096 + (b2 - 128) * 64 + (b3 - 128) in
    if 2048 <=? cp then Some cp else None
  else None.

Definition is_white (cp : option Z) : bool :=
  match cp with
  | Some n => existsb (Z.eqb n) StrWhiteSpaceChar
  | None => false
  end.

(** The UTF-8 encoding of a code point below U+10000. *)
Definition utf8 (cp : Z) : string :=
  let chr n := ascii_of_N (Z.to_N n) in
  if cp <? 128 then String (chr cp) EmptyString
  else if cp <? 2048 then
    String (chr (192 + cp / 64)) (String (chr (128 + cp mod 64)) EmptyString)
  else
    String (chr (224 + cp / 4096))
      (String (chr (128 + cp / 64 mod 64))
         (String (chr (128 + cp mod 64)) EmptyString)).

Definition digit_of (c : ascii) : option Z :=
  let n := nat_of_ascii c in
  if ((48 <=? n) && (n <=? 57))%nat then Some (Z.of_nat n - 48) else None.

(** [TrimString(s, start)]: the string without the white space in front
    of it. *)
Fixpoint skip_white (s : string) : string :=
  match s with
  | String c1 r1 =>
      if is_white (code1 (byte c1)) then skip_white r1
      else
        match r1 with
        | String c2 r2 =>
            if is_white (code2 (byte c1) (byte c2)) then skip_white r2
            else
              match r2 with
              | String c3 r3 =>
                  if is_white (code3 (byte c1) (byte c2) (byte c3))
                  then skip_white r3
                  else s
              | EmptyString => s
              end
        | EmptyString => s
        end
  | EmptyString => s
  end.

(** The longest run of decimal digits in front of [s]: its value read
    after [acc], how many digits it has, and the rest of [s]. *)
Fixpoint read_digits (s : string) (acc : Z) (len : Z) : Z * Z * string :=
  match s with
  | String c r =>
      match digit_of c with
      | Some d => read_digits r (10 * acc + d) (len + 1)
      | None => (acc, len, s)
      end
  | EmptyString => (acc, len, s)
  end.

(** [ExponentPart]: [e] or [E], an optional sign, at least one digit.
    Without the digits no exponent is read. *)
Definition read_exponent (s : string) : Z :=
  match s with
  | String c r =>
      if (c =? "e")%char || (c =? "E")%char then
        match r with
        | String sg r' =>
            if (sg =? "-")%char then
              let '(v, n, _) := read_digits r' 0 0 in
              if 0 <? n then - v else 0
            else if (sg =? "+")%char then
              let '(v, n, _) := read_digits r' 0 0 in
              if 0 <? n then v else 0
            else
              let '(v, n, _) := read_digits r 0 0 in
              if 0 <? n then v else 0
        | EmptyString => 0
        end
      else 0
  | EmptyString => 0
  end.

(** The number closest to [(-1)^neg * m * 10^e10], ties to even. *)
Definition of_decimal (neg : bool) (m : Z) (e10 : Z) : number :=
  match m with
  | Zpos p =>
      if 0 <=? e10 then
        binary_normalize prec emax
          (if neg then - (m * 10 ^ e10) else m * 10 ^ e10) 0 false
      else
        match 10 ^ (- e10) with
        | Zpos q => div (S754_finite neg p 0) (S754_finite false q 0)
        | _ => NaN
        end
  | _ => S754_zero neg
  end.

Definition parse_unsigned (neg : bool) (s : string) : number :=
  if prefix "Infinity" s then S754_infinity neg
  else
    let '(ip, il, r1) := read_digits s 0 0 in
    match r1 with
    | String "." r2 =>
        let '(m, fl, r3) := read_digits r2 ip 0 in
        if (il + fl =? 0) then NaN
        else of_decimal neg m (read_exponent r3 - fl)
    | _ =>
        if il =? 0 then NaN
        else of_decimal neg ip (read_exponent r1)
    end.

(** [parseFloat(s)]: the white space in front ([StrWhiteSpaceChar]) is
    skipped, then the longest prefix that is a [StrDecimalLiteral] is
    converted; NaN when there is none. *)
Definition parseFloat (s : string) : number :=
  match skip_white s with
  | String "-" r => parse_unsigned true r
  | String "+" r => parse_unsigned false r
  | t => parse_unsigned false t
  end.

(** *** [Number.prototype.toFixed] and [Number::toString] *)

Definition digits_of (n : Z) : string :=
  NilZero.string_of_uint (N.to_uint (Z.to_N n)).

Definition num_digits (n : Z) : Z := Z.of_nat (String.length (digits_of n)).

(** The value of a finite number with a non-negative exponent. *)
Definition int_value (m : positive) (e : Z) : Z := Z.pos m * 2 ^ e.

(** [Number::toString] for a positive number that is at least 10^21 (an
    integer [X] of [n] digits).  The digits are those of the integer [s] of
    the least number [k] of digits for which [s * 10^(n - k)] converts back
    to the number; of two such integers the one closer to [X], the even one
    on a tie.  [shortest_digits] looks for [s] below [10^k], from [k] on. *)
Fixpoint shortest_digits (fuel : nat) (x : number) (X : Z) (n k : Z) : Z :=
  match fuel with
  | O => X
  | S fuel' =>
      let scale := 10 ^ (n - k) in
      let lo := X / scale in
      let hi := lo + 1 in
      let ok s :=
        (10 ^ (k - 1) <=? s) && (s <? 10 ^ k)
        && strict_eq (of_int (s * scale)) x in
      let below := X - lo * scale in
      let above := hi * scale - X in
      if ok lo && ok hi then
        if below <? above then lo
        else if above <? below then hi
        else if Z.even lo then lo else hi
      else if ok lo then lo
      else if ok hi then hi
      else shortest_digits fuel' x X n (k + 1)
  end.

(** Exponential notation: one digit, the others after a point, and the
    exponent.  When [10^n] itself converts back to the number the digits
    are the single digit 1 and the exponent is [n]. *)
Definition to_string_large (x : number) (X : Z) : string :=
  let n := num_digits X in
  if strict_eq (of_int (10 ^ n)) x then ("1e+" ++ digits_of n)%string
  else
    match digits_of (shortest_digits 17 x X n 1) with
    | String d EmptyString =>
        (String d EmptyString ++ "e+" ++ digits_of (n - 1))%string
    | String d r => (String d ("." ++ r) ++ "e+" ++ digits_of (n - 1))%string
    | EmptyString => EmptyString
    end.

Fixpoint zeros (n : nat) : string :=
  match n with O => "" | S k => ("0" ++ zeros k)%string end.

(** The digits of [n] with a decimal point before the last two. *)
Definition two_places (n : Z) : string :=
  let m := digits_of n in
  let m := (zeros (3 - String.length m)%nat ++ m)%string in
  let k := String.length m in
  (substring 0 (k - 2)%nat m ++ "." ++ substring (k - 2)%nat 2 m)%string.

(** [x.toFixed(2)]. *)
Definition toFixed2 (x : number) : string :=
  match x with
  | S754_nan => "NaN"
  | S754_infinity s => if s then "-Infinity" else "Infinity"
  | S754_zero _ => "0.00"
  | S754_finite s m e =>
      let sign := if s then "-" else "" in
      if 0 <=? e then
        let X := int_value m e in
        if 10 ^ 21 <=? X then (sign ++ to_string_large (S754_finite false m
            e) X)%string
        else (sign ++ two_places (100 * X))%string
      else
        (* the integer n closest to 100 * m * 2^e, the larger one on a tie *)
        let n := (200 * Z.pos m + 2 ^ (- e)) / 2 ^ (1 - e) in
        (sign ++ two_places n)%string
  end.

End JsNumber.

(* ================================================================== *)
(** ** Dates *)

Module JsDate.

(** The time value of a [Date]: milliseconds since the epoch. *)
Definition Date := Z.

Definition msPerDay : Z := 86400000.

Definition Day (t : Z) : Z := t / msPerDay.
Definition TimeWithinDay (t : Z) : Z := t mod msPerDay.

Section TimeZone.

(** The offset of local time from UTC, in milliseconds, at the time
    value [t]: [t] is a UTC time value when the flag is [true] and a
    local one otherwise.  It belongs to the host. *)
Variable LocalTZA : Z -> bool -> Z.

Definition LocalTime (t : Z) : Z := t + LocalTZA t true.
Definition UTC (t : Z) : Z := t - LocalTZA t false.

(** [d.setHours(0, 0, 0, 0)]: the start of the local day of [d]. *)
Definition setHours0 (d : Date) : Date :=
  UTC (Day (LocalTime d) * msPerDay).

(** [d.setDate(d.getDate() + 1)]: the same local time on the next
    calendar day. *)
Definition setDateNext (d : Date) : Date :=
  let t := LocalTime d in
  UTC ((Day t + 1) * msPerDay + TimeWithinDay t).

(** The local time [tl] is a time of the clock of the host: the instant
    that [UTC] gives for it reads [tl].  A local time that a change of the
    clock skips is not. *)
Definition onTheClock (tl : Z) : Prop := LocalTime (UTC tl) = tl.

End TimeZone.

(** A host whose local time is always [offset] milliseconds ahead of UTC. *)
Definition fixed_zone (offset : Z) : Z -> bool -> Z := fun _ _ => offset.

End JsDate.

(* ================================================================== *)
(** ** [Map<string, T>] *)

Module JsMap.

(** The entries in insertion order; every key occurs once. *)
Definition t (V : Type) := list (string * V).

Definition empty {V} : t V := [].

Fixpoint get {V} (k : string) (m : t V) : option V :=
  match m with
  | [] => None
  | (k', v) :: r => if String.eqb k k' then Some v else get k r
  end.

(** [set] keeps the position of a key that is present and appends a new
    one. *)
Fixpoint set {V} (k : string) (v : V) (m : t V) : t V :=
  match m with
  | [] => [(k, v)]
  | (k', v') :: r =>
      if String.eqb k k' then (k', v) :: r else (k', v') :: set k v r
  end.

Definition keys {V} (m : t V) : list string := map fst m.

(** [Array.from(m.values())] *)
Definition values {V} (m : t V) : list V := map snd m.

Definition has {V} (k : string) (m : t V) : bool :=
  match get k m with Some _ => true | None => false end.

End JsMap.

(* ================================================================== *)
(** ** The entities of [@shared/schema] *)

Import JsDate.

(** A [jsonb] column. *)
#[warnings="-register-all"]
Inductive Json : Type :=
| JNull
| JBool (b : bool)
| JNum (n : JsNumber.number)
| JStr (s : string)
| JArr (items : list Json)
| JObj (members : list (string * Json)).

Module User.
Record t := mk {
  id : string; username : string; password : string; email : option string;
  role : string; name : string; stripeCustomerId : option string;
  stripeSubscriptionId : option string }.
End User.

(** [InsertUser]: the picked columns of a user. *)
Module InsertUser.
Record t := mk {
  username : string; password : string; email : option string;
  role : string; name : string }.
End InsertUser.

Module Room.
Record t := mk {
  id : string; number : string; type : string; status : string; floor : Z;
  maxOccupancy : Z; basePrice : string; amenities : Json;
  lastCleaned : option Date; notes : option string }.
End Room.

(** [InsertRoom]: a room without [id] and [lastCleaned]. *)
Module InsertRoom.
Record t := mk {
  number : string; type : string; status : string; floor : Z;
  maxOccupancy : Z; basePrice : string; amenities : Json;
  notes : option string }.
End InsertRoom.

(** [Partial<Room>]: a field is [None] when the key is absent. *)
Module PartialRoom.
Record t := mk {
  id : option string; number : option string; type : option string;
  status : option string; floor : option Z; maxOccupancy : option Z;
  basePrice : option string; amenities : option Json;
  lastCleaned : option (option Date); notes : option (option string) }.

(** The partial without keys. *)
Definition none : t :=
  mk None None None None None None None None None None.
End PartialRoom.

Module Guest.
Record t := mk {
  id : string; firstName : string; lastName : string; email : string;
  phone : option string; idNumber : option string;
  nationality : option string; preferences : Json; vipStatus : option bool;
  createdAt : option Date }.
End Guest.

(** [InsertGuest]: a guest without [id] and [createdAt]. *)
Module InsertGuest.
Record t := mk {
  firstName : string; lastName : string; email : string;
  phone : option string; idNumber : option string;
  nationality : option string; preferences : Json; vipStatus : option bool }.
End InsertGuest.

(** [Partial<Guest>]: a field is [None] when the key is absent. *)
Module PartialGuest.
Record t := mk {
  id : option string; firstName : option string; lastName : option string;
  email : option string; phone : option (option string);
  idNumber : option (option string); nationality : option (option string);
  preferences : option Json; vipStatus : option (option bool);
  createdAt : option (option Date) }.

(** The partial without keys. *)
Definition none : t :=
  mk None None None None None None None None None None.
End PartialGuest.

Module Booking.
Record t := mk {
  id : string; roomId : string; guestId : string; checkIn : Date;
  checkOut : Date; adults : Z; children : option Z; totalAmount : string;
  status : string; channel : string; specialRequests : option string;
  createdAt : option Date; cloudbedsSyncId : option string }.
End Booking.

(** [InsertBooking]: a booking without [id], [createdAt] and
  [cloudbedsSyncId]. *)
Module InsertBooking.
Record t := mk {
  roomId : string; guestId : string; checkIn : Date; checkOut : Date;
  adults : Z; children : option Z; totalAmount : string; status : string;
  channel : string; specialRequests : option string }.
End InsertBooking.

(** [Partial<Booking>]: a field is [None] when the key is absent. *)
Module PartialBooking.
Record t := mk {
  id : option string; roomId : option string; guestId : option string;
  checkIn : option Date; checkOut : option Date; adults : option Z;
  children : option (option Z); totalAmount : option string;
  status : option string; channel : option string;
  specialRequests : option (option string);
  createdAt : option (option Date);
  cloudbedsSyncId : option (option string) }.

(** The partial without keys. *)
Definition none : t :=
  mk None None None None None None None None None None None None None.
End PartialBooking.

Module Staff.
Record t := mk {
  id : string; employeeId : string; firstName : string; lastName : string;
  email : string; phone : option string; department : string;
  position : string; shift : option string; isActive : option bool;
  startDate : Date }.
End Staff.

(** [InsertStaff]: a staff member without [id]. *)
Module InsertStaff.
Record t := mk {
  employeeId : string; firstName : string; lastName : string;
  email : string; phone : option string; department : string;
  position : string; shift : option string; isActive : option bool;
  startDate : Date }.
End InsertStaff.

(** [Partial<Staff>]: a field is [None] when the key is absent. *)
Module PartialStaff.
Record t := mk {
  id : option string; employeeId : option string;
  firstName : option string; lastName : option string;
  email : option string; phone : option (option string);
  department : option string; position : option string;
  shift : option (option string); isActive : option (option bool);
  startDate : option Date }.

(** The partial without keys. *)
Definition none : t :=
  mk None None None None None None None None None None None.
End PartialStaff.

Module MaintenanceRequest.
Record t := mk {
  id : string; roomId : string; staffId : option string; type : string;
  priority : string; description : string; status : string;
  createdAt : option Date; completedAt : option Date; notes : option string }.
End MaintenanceRequest.

(** [InsertMaintenanceRequest]: a request without [id], [createdAt] and
  [completedAt]. *)
Module InsertMaintenanceRequest.
Record t := mk {
  roomId : string; staffId : option string; type : string;
  priority : string; description : string; status : string;
  notes : option string }.
End InsertMaintenanceRequest.

(** [Partial<MaintenanceRequest>]: a field is [None] when the key is absent. *)
Module PartialMaintenanceRequest.
Record t := mk {
  id : option string; roomId : option string;
  staffId : option (option string); type : option string;
  priority : option string; description : option string;
  status : option string; createdAt : option (option Date);
  completedAt : option (option Date); notes : option (option string) }.

(** The partial without keys. *)
Definition none : t :=
  mk None None None None None None None None None None.
End PartialMaintenanceRequest.

Module Payment.
Record t := mk {
  id : string; bookingId : string; amount : string; method : string;
  status : string; stripePaymentId : option string;
  createdAt : option Date; processedAt : option Date }.
End Payment.

(** [InsertPayment]: a payment without [id], [createdAt], [processedAt] and
  [stripePaymentId]. *)
Module InsertPayment.
Record t := mk {
  bookingId : string; amount : string; method : string; status : string }.
End InsertPayment.

(** [Partial<Payment>]: a field is [None] when the key is absent. *)
Module PartialPayment.
Record t := mk {
  id : option string; bookingId : option string; amount : option string;
  method : option string; status : option string;
  stripePaymentId : option (option string);
  createdAt : option (option Date); processedAt : option (option Date) }.

(** The partial without keys. *)
Definition none : t :=
  mk None None None None None None None None.
End PartialPayment.

Module GuestCommunication.
Record t := mk {
  id : string; guestId : string; bookingId : option string; type : string;
  subject : option string; message : string; direction : string;
  status : string; createdAt : option Date }.
End GuestCommunication.

(** [InsertGuestCommunication]: a communication without [id] and [createdAt].
  *)
Module InsertGuestCommunication.
Record t := mk {
  guestId : string; bookingId : option string; type : string;
  subject : option string; message : string; direction : string;
  status : string }.
End InsertGuestCommunication.

Module HotelSetting.
Record t := mk {
  id : string; key : string; value : Json; updatedAt : option Date }.
End HotelSetting.

(* ================================================================== *)
(** ** [MemStorage] *)

Record MemStorage := mkStorage {
  users : JsMap.t User.t;
  rooms : JsMap.t Room.t;
  guests : JsMap.t Guest.t;
  bookings : JsMap.t Booking.t;
  staff : JsMap.t Staff.t;
  maintenanceRequests : JsMap.t MaintenanceRequest.t;
  payments : JsMap.t Payment.t;
  guestCommunications : JsMap.t GuestCommunication.t;
  hotelSettings : JsMap.t HotelSetting.t }.

Definition with_users (s : MemStorage) (m : JsMap.t User.t) : MemStorage :=
  mkStorage m (rooms s) (guests s) (bookings s) (staff s)
    (maintenanceRequests s) (payments s) (guestCommunications s)
    (hotelSettings s).

Definition with_rooms (s : MemStorage) (m : JsMap.t Room.t) : MemStorage :=
  mkStorage (users s) m (guests s) (bookings s) (staff s)
    (maintenanceRequests s) (payments s) (guestCommunications s)
    (hotelSettings s).

Definition with_guests (s : MemStorage) (m : JsMap.t Guest.t) : MemStorage :=
  mkStorage (users s) (rooms s) m (bookings s) (staff s)
    (maintenanceRequests s) (payments s) (guestCommunications s)
    (hotelSettings s).

Definition with_bookings (s : MemStorage) (m : JsMap.t Booking.t)
  : MemStorage :=
  mkStorage (users s) (rooms s) (guests s) m (staff s) (maintenanceRequests
    s) (payments s) (guestCommunications s) (hotelSettings s).

Definition with_staff (s : MemStorage) (m : JsMap.t Staff.t) : MemStorage :=
  mkStorage (users s) (rooms s) (guests s) (bookings s) m
    (maintenanceRequests s) (payments s) (guestCommunications s)
    (hotelSettings s).

Definition with_maintenanceRequests (s : MemStorage)
    (m : JsMap.t MaintenanceRequest.t)
  : MemStorage :=
  mkStorage (users s) (rooms s) (guests s) (bookings s) (staff s) m
    (payments s) (guestCommunications s) (hotelSettings s).

Definition with_payments (s : MemStorage) (m : JsMap.t Payment.t)
  : MemStorage :=
  mkStorage (users s) (rooms s) (guests s) (bookings s) (staff s)
    (maintenanceRequests s) m (guestCommunications s) (hotelSettings s).

Definition with_guestCommunications (s : MemStorage)
    (m : JsMap.t GuestCommunication.t)
  : MemStorage :=
  mkStorage (users s) (rooms s) (guests s) (bookings s) (staff s)
    (maintenanceRequests s) (payments s) m (hotelSettings s).

Definition with_hotelSettings (s : MemStorage) (m : JsMap.t HotelSetting.t)
  : MemStorage :=
  mkStorage (users s) (rooms s) (guests s) (bookings s) (staff s)
    (maintenanceRequests s) (payments s) (guestCommunications s) m.

(** How a call ends: with a value, or with [throw new Error(message)]. *)
Inductive Outcome (A : Type) : Type :=
| Returned (a : A)
| Thrown (message : string).
Arguments Returned {A} a.
Arguments Thrown {A} message.

(** A method that writes: its outcome and the store after the call. *)
Definition Method (A : Type) : Type := MemStorage -> Outcome A * MemStorage.

(** One key of [{ ...entity, ...updates }]: the supplied value when the key
    is in [updates], the prior one otherwise. *)
Definition overwrite {A} (prior : A) (supplied : option A) : A :=
  match supplied with
  | Some v => v
  | None => prior
  end.

(** *** The constructor *)

Definition emptyStorage : MemStorage :=
  mkStorage JsMap.empty JsMap.empty JsMap.empty JsMap.empty JsMap.empty
    JsMap.empty JsMap.empty JsMap.empty JsMap.empty.

Definition wifi_tv_ac : list Json :=
  [JStr "WiFi"; JStr "TV"; JStr "Air Conditioning"].

(** [sampleRooms]; [u1] .. [u5] are the results of [randomUUID()] and
    [d1] .. [d5] those of [new Date()]. *)
Definition sampleRooms (u1 u2 u3 u4 u5 : string) (d1 d2 d3 d4 d5 : Date)
  : list Room.t :=
  [ Room.mk u1 "101" "Standard King" "available" 1 2 "285.00"
      (JArr wifi_tv_ac) (Some d1) None;
    Room.mk u2 "102" "Standard Twin" "occupied" 1 2 "275.00"
      (JArr wifi_tv_ac) (Some d2) None;
    Room.mk u3 "103" "Deluxe King" "pending" 1 2 "350.00"
      (JArr (wifi_tv_ac ++ [JStr "Harbor View"])) (Some d3) None;
    Room.mk u4 "203" "Deluxe King" "available" 2 2 "350.00"
      (JArr (wifi_tv_ac ++ [JStr "Harbor View"])) (Some d4) None;
    Room.mk u5 "501" "Suite" "available" 5 4 "550.00"
      (JArr (wifi_tv_ac ++ [JStr "Harbor View"; JStr "Balcony"; JStr "Kitchenette"]))
      (Some d5) None ].

Definition initializeData (sample : list Room.t)
    (s : MemStorage) : MemStorage :=
  fold_left (fun s room => with_rooms s (JsMap.set (Room.id room) room (rooms
      s)))
    sample s.

Definition newMemStorage (sample : list Room.t) : MemStorage :=
  initializeData sample emptyStorage.

(** *** User methods *)

Definition getUser (id : string) (s : MemStorage) : option User.t :=
  JsMap.get id (users s).

Definition getUserByUsername (username : string) (s : MemStorage)
  : option User.t :=
  find (fun user => String.eqb (User.username user) username)
    (JsMap.values (users s)).

(** [{ ...insertUser, id, stripeCustomerId: null,
       stripeSubscriptionId: null }] *)
Definition createUser (insertUser : InsertUser.t) (id : string)
  : Method User.t :=
  fun s =>
    let user :=
      User.mk id (InsertUser.username insertUser)
        (InsertUser.password insertUser) (InsertUser.email insertUser)
        (InsertUser.role insertUser) (InsertUser.name insertUser) None None in
    (Returned user, with_users s (JsMap.set id user (users s))).

(** [{ ...user, stripeCustomerId: customerId,
       stripeSubscriptionId: subscriptionId }] *)
Definition updateUserStripeInfo (userId customerId subscriptionId : string)
  : Method User.t :=
  fun s =>
    match JsMap.get userId (users s) with
    | None => (Thrown "User not found", s)
    | Some user =>
        let updatedUser :=
          User.mk (User.id user) (User.username user) (User.password user)
            (User.email user) (User.role user) (User.name user)
            (Some customerId) (Some subscriptionId) in
        (Returned updatedUser,
         with_users s (JsMap.set userId updatedUser (users s)))
    end.

(** *** Room methods *)

Definition getRooms (s : MemStorage) : list Room.t :=
  JsMap.values (rooms s).

Definition getRoom (id : string) (s : MemStorage) : option Room.t :=
  JsMap.get id (rooms s).

Definition getRoomByNumber (number : string) (s : MemStorage) : option Room.t :=
  find (fun room => String.eqb (Room.number room) number)
    (JsMap.values (rooms s)).

(** [{ ...insertRoom, id, lastCleaned: null }]; [id] is the result of
    [randomUUID()], here and in the other [create] methods, and [now] that
    of [new Date()]. *)
Definition createRoom (insertRoom : InsertRoom.t) (id : string)
  : Method Room.t :=
  fun s =>
    let room :=
      Room.mk id (InsertRoom.number insertRoom) (InsertRoom.type insertRoom)
        (InsertRoom.status insertRoom) (InsertRoom.floor insertRoom)
        (InsertRoom.maxOccupancy insertRoom)
        (InsertRoom.basePrice insertRoom) (InsertRoom.amenities insertRoom)
        None (InsertRoom.notes insertRoom) in
    (Returned room, with_rooms s (JsMap.set id room (rooms s))).

(** [{ ...room, ...updates }] *)
Definition spreadRoom (room : Room.t) (updates : PartialRoom.t) : Room.t :=
  Room.mk
    (overwrite (Room.id room) (PartialRoom.id updates))
    (overwrite (Room.number room) (PartialRoom.number updates))
    (overwrite (Room.type room) (PartialRoom.type updates))
    (overwrite (Room.status room) (PartialRoom.status updates))
    (overwrite (Room.floor room) (PartialRoom.floor updates))
    (overwrite (Room.maxOccupancy room) (PartialRoom.maxOccupancy updates))
    (overwrite (Room.basePrice room) (PartialRoom.basePrice updates))
    (overwrite (Room.amenities room) (PartialRoom.amenities updates))
    (overwrite (Room.lastCleaned room) (PartialRoom.lastCleaned updates))
    (overwrite (Room.notes room) (PartialRoom.notes updates)).

Definition updateRoom (id : string) (updates : PartialRoom.t)
  : Method Room.t :=
  fun s =>
    match JsMap.get id (rooms s) with
    | None => (Thrown "Room not found", s)
    | Some room =>
        let updatedRoom := spreadRoom room updates in
        (Returned updatedRoom,
         with_rooms s (JsMap.set id updatedRoom (rooms s)))
    end.

(** [{ status }] *)
Definition statusOnly (status : string) : PartialRoom.t :=
  PartialRoom.mk None None None (Some status) None None None None None None.

Definition updateRoomStatus (id : string) (status : string) : Method Room.t :=
  updateRoom id (statusOnly status).

(** *** Guest methods *)

Definition getGuests (s : MemStorage) : list Guest.t :=
  JsMap.values (guests s).

Definition getGuest (id : string) (s : MemStorage) : option Guest.t :=
  JsMap.get id (guests s).

Definition getGuestByEmail (email : string) (s : MemStorage) : option Guest.t :=
  find (fun guest => String.eqb (Guest.email guest) email)
    (JsMap.values (guests s)).

(** [{ ...insertGuest, id, createdAt: new Date() }] *)
Definition createGuest (insertGuest : InsertGuest.t) (id : string) (now : Date)
  : Method Guest.t :=
  fun s =>
    let guest :=
      Guest.mk id (InsertGuest.firstName insertGuest)
        (InsertGuest.lastName insertGuest) (InsertGuest.email insertGuest)
        (InsertGuest.phone insertGuest) (InsertGuest.idNumber insertGuest)
        (InsertGuest.nationality insertGuest)
        (InsertGuest.preferences insertGuest)
        (InsertGuest.vipStatus insertGuest) (Some now) in
    (Returned guest, with_guests s (JsMap.set id guest (guests s))).

(** [{ ...guest, ...updates }] *)
Definition spreadGuest (guest : Guest.t) (updates : PartialGuest.t)
  : Guest.t :=
  Guest.mk
    (overwrite (Guest.id guest) (PartialGuest.id updates))
    (overwrite (Guest.firstName guest) (PartialGuest.firstName updates))
    (overwrite (Guest.lastName guest) (PartialGuest.lastName updates))
    (overwrite (Guest.email guest) (PartialGuest.email updates))
    (overwrite (Guest.phone guest) (PartialGuest.phone updates))
    (overwrite (Guest.idNumber guest) (PartialGuest.idNumber updates))
    (overwrite (Guest.nationality guest) (PartialGuest.nationality updates))
    (overwrite (Guest.preferences guest) (PartialGuest.preferences updates))
    (overwrite (Guest.vipStatus guest) (PartialGuest.vipStatus updates))
    (overwrite (Guest.createdAt guest) (PartialGuest.createdAt updates)).

Definition updateGuest (id : string) (updates : PartialGuest.t)
  : Method Guest.t :=
  fun s =>
    match JsMap.get id (guests s) with
    | None => (Thrown "Guest not found", s)
    | Some guest =>
        let updatedGuest := spreadGuest guest updates in
        (Returned updatedGuest,
         with_guests s (JsMap.set id updatedGuest (guests s)))
    end.

(** *** Booking methods *)

Definition getBookings (s : MemStorage) : list Booking.t :=
  JsMap.values (bookings s).

Definition getBooking (id : string) (s : MemStorage) : option Booking.t :=
  JsMap.get id (bookings s).

Definition getBookingsByDateRange (checkIn checkOut : Date) (s : MemStorage)
  : list Booking.t :=
  filter (fun booking =>
            (checkIn <=? Booking.checkIn booking)
            && (Booking.checkOut booking <=? checkOut))
    (JsMap.values (bookings s)).

Definition getBookingsByGuest (guestId : string) (s : MemStorage)
  : list Booking.t :=
  filter (fun booking => String.eqb (Booking.guestId booking) guestId)
    (JsMap.values (bookings s)).

Definition getBookingsByRoom (roomId : string) (s : MemStorage)
  : list Booking.t :=
  filter (fun booking => String.eqb (Booking.roomId booking) roomId)
    (JsMap.values (bookings s)).

(** [{ ...insertBooking, id, createdAt: new Date(),
       cloudbedsSyncId: null }] *)
Definition createBooking (insertBooking : InsertBooking.t) (id : string) (now : Date)
  : Method Booking.t :=
  fun s =>
    let booking :=
      Booking.mk id (InsertBooking.roomId insertBooking)
        (InsertBooking.guestId insertBooking)
        (InsertBooking.checkIn insertBooking)
        (InsertBooking.checkOut insertBooking)
        (InsertBooking.adults insertBooking)
        (InsertBooking.children insertBooking)
        (InsertBooking.totalAmount insertBooking)
        (InsertBooking.status insertBooking)
        (InsertBooking.channel insertBooking)
        (InsertBooking.specialRequests insertBooking) (Some now) None in
    (Returned booking, with_bookings s (JsMap.set id booking (bookings s))).

(** [{ ...booking, ...updates }] *)
Definition spreadBooking (booking : Booking.t) (updates : PartialBooking.t)
  : Booking.t :=
  Booking.mk
    (overwrite (Booking.id booking) (PartialBooking.id updates))
    (overwrite (Booking.roomId booking) (PartialBooking.roomId updates))
    (overwrite (Booking.guestId booking) (PartialBooking.guestId updates))
    (overwrite (Booking.checkIn booking) (PartialBooking.checkIn updates))
    (overwrite (Booking.checkOut booking) (PartialBooking.checkOut updates))
    (overwrite (Booking.adults booking) (PartialBooking.adults updates))
    (overwrite (Booking.children booking) (PartialBooking.children updates))
    (overwrite (Booking.totalAmount booking)
       (PartialBooking.totalAmount updates))
    (overwrite (Booking.status booking) (PartialBooking.status updates))
    (overwrite (Booking.channel booking) (PartialBooking.channel updates))
    (overwrite (Booking.specialRequests booking)
       (PartialBooking.specialRequests updates))
    (overwrite (Booking.createdAt booking) (PartialBooking.createdAt updates))
    (overwrite (Booking.cloudbedsSyncId booking)
       (PartialBooking.cloudbedsSyncId updates)).

Definition updateBooking (id : string) (updates : PartialBooking.t)
  : Method Booking.t :=
  fun s =>
    match JsMap.get id (bookings s) with
    | None => (Thrown "Booking not found", s)
    | Some booking =>
        let updatedBooking := spreadBooking booking updates in
        (Returned updatedBooking,
         with_bookings s (JsMap.set id updatedBooking (bookings s)))
    end.

(** *** Staff methods *)

Definition getStaff (s : MemStorage) : list Staff.t :=
  JsMap.values (staff s).

Definition getStaffMember (id : string) (s : MemStorage) : option Staff.t :=
  JsMap.get id (staff s).

(** [member.isActive] is truthy when it is [true]. *)
Definition getActiveStaff (s : MemStorage) : list Staff.t :=
  filter (fun member =>
            match Staff.isActive member with
            | Some true => true
            | _ => false
            end)
    (JsMap.values (staff s)).

(** [{ ...insertStaff, id }] *)
Definition createStaffMember (insertStaff : InsertStaff.t) (id : string)
  : Method Staff.t :=
  fun s =>
    let staffMember :=
      Staff.mk id (InsertStaff.employeeId insertStaff)
        (InsertStaff.firstName insertStaff)
        (InsertStaff.lastName insertStaff) (InsertStaff.email insertStaff)
        (InsertStaff.phone insertStaff) (InsertStaff.department insertStaff)
        (InsertStaff.position insertStaff) (InsertStaff.shift insertStaff)
        (InsertStaff.isActive insertStaff)
        (InsertStaff.startDate insertStaff) in
    (Returned staffMember, with_staff s (JsMap.set id staffMember (staff s))).

(** [{ ...staffMember, ...updates }] *)
Definition spreadStaff (staffMember : Staff.t) (updates : PartialStaff.t)
  : Staff.t :=
  Staff.mk
    (overwrite (Staff.id staffMember) (PartialStaff.id updates))
    (overwrite (Staff.employeeId staffMember)
       (PartialStaff.employeeId updates))
    (overwrite (Staff.firstName staffMember) (PartialStaff.firstName updates))
    (overwrite (Staff.lastName staffMember) (PartialStaff.lastName updates))
    (overwrite (Staff.email staffMember) (PartialStaff.email updates))
    (overwrite (Staff.phone staffMember) (PartialStaff.phone updates))
    (overwrite (Staff.department staffMember)
       (PartialStaff.department updates))
    (overwrite (Staff.position staffMember) (PartialStaff.position updates))
    (overwrite (Staff.shift staffMember) (PartialStaff.shift updates))
    (overwrite (Staff.isActive staffMember) (PartialStaff.isActive updates))
    (overwrite (Staff.startDate staffMember) (PartialStaff.startDate updates)).

Definition updateStaffMember (id : string) (updates : PartialStaff.t)
  : Method Staff.t :=
  fun s =>
    match JsMap.get id (staff s) with
    | None => (Thrown "Staff member not found", s)
    | Some staffMember =>
        let updatedStaffMember := spreadStaff staffMember updates in
        (Returned updatedStaffMember,
         with_staff s (JsMap.set id updatedStaffMember (staff s)))
    end.

(** *** Maintenance methods *)

Definition getMaintenanceRequests (s : MemStorage) : list
    MaintenanceRequest.t :=
  JsMap.values (maintenanceRequests s).

Definition getMaintenanceRequest (id : string)
    (s : MemStorage) : option MaintenanceRequest.t :=
  JsMap.get id (maintenanceRequests s).

Definition getPendingMaintenanceRequests (s : MemStorage)
  : list MaintenanceRequest.t :=
  filter (fun request => String.eqb (MaintenanceRequest.status request) "pending")
    (JsMap.values (maintenanceRequests s)).

(** [{ ...insertRequest, id, createdAt: new Date(), completedAt: null }] *)
Definition createMaintenanceRequest (insertRequest : InsertMaintenanceRequest.t) (id : string) (now : Date)
  : Method MaintenanceRequest.t :=
  fun s =>
    let request :=
      MaintenanceRequest.mk id
        (InsertMaintenanceRequest.roomId insertRequest)
        (InsertMaintenanceRequest.staffId insertRequest)
        (InsertMaintenanceRequest.type insertRequest)
        (InsertMaintenanceRequest.priority insertRequest)
        (InsertMaintenanceRequest.description insertRequest)
        (InsertMaintenanceRequest.status insertRequest) (Some now) None
        (InsertMaintenanceRequest.notes insertRequest) in
    (Returned request,
     with_maintenanceRequests s (JsMap.set id request (maintenanceRequests s))).

(** [{ ...request, ...updates }] *)
Definition spreadMaintenanceRequest (request : MaintenanceRequest.t)
    (updates : PartialMaintenanceRequest.t)
  : MaintenanceRequest.t :=
  MaintenanceRequest.mk
    (overwrite (MaintenanceRequest.id request)
       (PartialMaintenanceRequest.id updates))
    (overwrite (MaintenanceRequest.roomId request)
       (PartialMaintenanceRequest.roomId updates))
    (overwrite (MaintenanceRequest.staffId request)
       (PartialMaintenanceRequest.staffId updates))
    (overwrite (MaintenanceRequest.type request)
       (PartialMaintenanceRequest.type updates))
    (overwrite (MaintenanceRequest.priority request)
       (PartialMaintenanceRequest.priority updates))
    (overwrite (MaintenanceRequest.description request)
       (PartialMaintenanceRequest.description updates))
    (overwrite (MaintenanceRequest.status request)
       (PartialMaintenanceRequest.status updates))
    (overwrite (MaintenanceRequest.createdAt request)
       (PartialMaintenanceRequest.createdAt updates))
    (overwrite (MaintenanceRequest.completedAt request)
       (PartialMaintenanceRequest.completedAt updates))
    (overwrite (MaintenanceRequest.notes request)
       (PartialMaintenanceRequest.notes updates)).

Definition updateMaintenanceRequest (id : string)
    (updates : PartialMaintenanceRequest.t)
  : Method MaintenanceRequest.t :=
  fun s =>
    match JsMap.get id (maintenanceRequests s) with
    | None => (Thrown "Maintenance request not found", s)
    | Some request =>
        let updatedRequest := spreadMaintenanceRequest request updates in
        (Returned updatedRequest,
         with_maintenanceRequests s (JsMap.set id updatedRequest
             (maintenanceRequests s)))
    end.

(** *** Payment methods *)

Definition getPayments (s : MemStorage) : list Payment.t :=
  JsMap.values (payments s).

Definition getPayment (id : string) (s : MemStorage) : option Payment.t :=
  JsMap.get id (payments s).

Definition getPaymentsByBooking (bookingId : string) (s : MemStorage)
  : list Payment.t :=
  filter (fun payment => String.eqb (Payment.bookingId payment) bookingId)
    (JsMap.values (payments s)).

(** [{ ...insertPayment, id, createdAt: new Date(), processedAt: null,
       stripePaymentId: null }] *)
Definition createPayment (insertPayment : InsertPayment.t) (id : string) (now : Date)
  : Method Payment.t :=
  fun s =>
    let payment :=
      Payment.mk id (InsertPayment.bookingId insertPayment)
        (InsertPayment.amount insertPayment)
        (InsertPayment.method insertPayment)
        (InsertPayment.status insertPayment) None (Some now) None in
    (Returned payment, with_payments s (JsMap.set id payment (payments s))).

(** [{ ...payment, ...updates }] *)
Definition spreadPayment (payment : Payment.t) (updates : PartialPayment.t)
  : Payment.t :=
  Payment.mk
    (overwrite (Payment.id payment) (PartialPayment.id updates))
    (overwrite (Payment.bookingId payment) (PartialPayment.bookingId updates))
    (overwrite (Payment.amount payment) (PartialPayment.amount updates))
    (overwrite (Payment.method payment) (PartialPayment.method updates))
    (overwrite (Payment.status payment) (PartialPayment.status updates))
    (overwrite (Payment.stripePaymentId payment)
       (PartialPayment.stripePaymentId updates))
    (overwrite (Payment.createdAt payment) (PartialPayment.createdAt updates))
    (overwrite (Payment.processedAt payment)
       (PartialPayment.processedAt updates)).

Definition updatePayment (id : string) (updates : PartialPayment.t)
  : Method Payment.t :=
  fun s =>
    match JsMap.get id (payments s) with
    | None => (Thrown "Payment not found", s)
    | Some payment =>
        let updatedPayment := spreadPayment payment updates in
        (Returned updatedPayment,
         with_payments s (JsMap.set id updatedPayment (payments s)))
    end.

(** *** Guest communication methods *)

Definition getGuestCommunications (s : MemStorage) : list
    GuestCommunication.t :=
  JsMap.values (guestCommunications s).

Definition getGuestCommunication (id : string) (s : MemStorage)
  : option GuestCommunication.t :=
  JsMap.get id (guestCommunications s).

Definition getCommunicationsByGuest (guestId : string) (s : MemStorage)
  : list GuestCommunication.t :=
  filter (fun comm => String.eqb (GuestCommunication.guestId comm) guestId)
    (JsMap.values (guestCommunications s)).

(** [{ ...insertCommunication, id, createdAt: new Date() }] *)
Definition createGuestCommunication (insertCommunication : InsertGuestCommunication.t) (id : string) (now : Date)
  : Method GuestCommunication.t :=
  fun s =>
    let communication :=
      GuestCommunication.mk id
        (InsertGuestCommunication.guestId insertCommunication)
        (InsertGuestCommunication.bookingId insertCommunication)
        (InsertGuestCommunication.type insertCommunication)
        (InsertGuestCommunication.subject insertCommunication)
        (InsertGuestCommunication.message insertCommunication)
        (InsertGuestCommunication.direction insertCommunication)
        (InsertGuestCommunication.status insertCommunication) (Some now) in
    (Returned communication,
     with_guestCommunications s (JsMap.set id communication (guestCommunications s))).

(** *** Hotel settings methods *)

Definition getHotelSettings (s : MemStorage) : list HotelSetting.t :=
  JsMap.values (hotelSettings s).

Definition getHotelSetting (key : string) (s : MemStorage)
  : option HotelSetting.t :=
  find (fun setting => String.eqb (HotelSetting.key setting) key)
    (JsMap.values (hotelSettings s)).

(** [id] is the result of [randomUUID()] and [now] of [new Date()]; each is
    used by one branch only. *)
Definition updateHotelSetting (key : string) (value : Json) (id : string)
  (now : Date) : Method HotelSetting.t :=
  fun s =>
    match getHotelSetting key s with
    | Some existing =>
        let updated :=
          HotelSetting.mk (HotelSetting.id existing) (HotelSetting.key existing)
            value (Some now) in
        (Returned updated,
         with_hotelSettings s
           (JsMap.set (HotelSetting.id existing) updated (hotelSettings s)))
    | None =>
        let setting := HotelSetting.mk id key value (Some now) in
        (Returned setting,
         with_hotelSettings s (JsMap.set id setting (hotelSettings s)))
    end.

(** *** Methods that read the clock, and the dashboard *)

(** The metrics object; [pendingMaintenance] is its [maintenanceRequests]
    member. *)
Record DashboardMetrics := mkMetrics {
  occupancyRate : JsNumber.number;
  revenue : string;
  pendingCheckins : Z;
  pendingMaintenance : Z;
  totalRooms : Z;
  occupiedRooms : Z;
  availableRooms : Z;
  maintenanceRooms : Z }.

Definition count {A} (l : list A) : Z := Z.of_nat (List.length l).

Definition roomsWithStatus (status : string) (l : list Room.t) : list Room.t :=
  filter (fun room => String.eqb (Room.status room) status) l.

Section Host.

Variable LocalTZA : Z -> bool -> Z.

(** [now] is the result of [new Date()]. *)
Definition getTodaysArrivals (now : Date) (s : MemStorage) : list Booking.t :=
  let today := setHours0 LocalTZA now in
  let tomorrow := setDateNext LocalTZA today in
  filter (fun booking =>
            (today <=? Booking.checkIn booking)
            && (Booking.checkIn booking <? tomorrow))
    (JsMap.values (bookings s)).


(** The bookings the handler sums: those whose check-in, moved to the
    start of its local day, is the start of today. *)
Definition todaysBookings (now : Date) (l : list Booking.t) : list Booking.t :=
  let today := setHours0 LocalTZA now in
  filter (fun booking =>
            let checkIn := setHours0 LocalTZA (Booking.checkIn booking) in
            checkIn =? today)
    l.

(** [todaysBookings.reduce((sum, booking) =>
      sum + parseFloat(booking.totalAmount), 0)] *)
Definition sumRevenue (l : list Booking.t) : JsNumber.number :=
  fold_left
    (fun sum booking =>
       JsNumber.add sum (JsNumber.parseFloat (Booking.totalAmount booking)))
    l JsNumber.pos_zero.

(** The object the handler of [GET /api/dashboard/metrics] passes to
    [res.json]; [now1] is the clock read by [getTodaysArrivals] and [now]
    the one read by the handler.  None of the calls throws. *)
Definition dashboardMetrics (now1 now : Date) (s : MemStorage)
  : DashboardMetrics :=
  let rooms := getRooms s in
  let bookings := getBookings s in
  let todaysArrivals := getTodaysArrivals now1 s in
  let maintenanceRequests := getPendingMaintenanceRequests s in
  let totalRooms := count rooms in
  let occupiedRooms := count (roomsWithStatus "occupied" rooms) in
  let occupancyRate :=
    JsNumber.Math_round
      (JsNumber.mul
         (JsNumber.div (JsNumber.of_int occupiedRooms)
            (JsNumber.of_int totalRooms))
         (JsNumber.of_int 100)) in
  let revenue := sumRevenue (todaysBookings now bookings) in
  mkMetrics occupancyRate (JsNumber.toFixed2 revenue)
    (count todaysArrivals) (count maintenanceRequests)
    totalRooms occupiedRooms
    (count (roomsWithStatus "available" rooms))
    (count (roomsWithStatus "maintenance" rooms)).

End Host.

(* ================================================================== *)
(** ** Sample stores *)

Module Sample.

Definition room101 : Room.t :=
  Room.mk "r-101" "101" "Standard King" "available" 1 2 "285.00"
    (JArr wifi_tv_ac) (Some 1700000000000) None.

Definition room102 : Room.t :=
  Room.mk "r-102" "102" "Standard Twin" "occupied" 1 2 "275.00"
    (JArr wifi_tv_ac) (Some 1700000000000) (Some "late check-out").

(** Midnight, 1 March 2024, UTC, and the days around it. *)
Definition midnight : Date := 1709251200000.

Definition booking1 : Booking.t :=
  Booking.mk "b-1" "r-101" "g-1" midnight (midnight + 2 * msPerDay)
    2 (Some 0) "99.99" "confirmed" "direct" None (Some 1709000000000) None.

Definition booking2 : Booking.t :=
  Booking.mk "b-2" "r-102" "g-2" (midnight + 3600000) (midnight + 5 * msPerDay)
    1 None "0.01" "confirmed" "booking.com" None (Some 1709000000000) None.

(** Checks in the second before today starts. *)
Definition booking3 : Booking.t :=
  Booking.mk "b-3" "r-101" "g-3" (midnight - 1000) (midnight + msPerDay)
    2 None "150.00" "checked_in" "direct" None (Some 1709000000000) None.

(** Checks in when tomorrow starts. *)
Definition booking4 : Booking.t :=
  Booking.mk "b-4" "r-102" "g-1" (midnight + msPerDay) (midnight + 2 * msPerDay)
    2 None "80.00" "confirmed" "expedia" None (Some 1709000000000) None.

Definition setting1 : HotelSetting.t :=
  HotelSetting.mk "s-1" "currency" (JStr "AUD") (Some 1700000000000).

Definition store : MemStorage :=
  mkStorage JsMap.empty
    [("r-101", room101); ("r-102", room102)]
    JsMap.empty
    [("b-1", booking1); ("b-2", booking2); ("b-3", booking3); ("b-4", booking4)]
    JsMap.empty JsMap.empty JsMap.empty JsMap.empty
    [("s-1", setting1)].

Definition utc : Z -> bool -> Z := fixed_zone 0.

(** A host in the time zone America/Santiago, around 8 September 2024:
    local time is 4 hours behind UTC until 04:00 UTC of that day, local
    midnight, when the clock is put forward to 01:00, and 3 hours behind
    from then on.  The local times from 00:00 to 01:00 of that day are
    skipped; they are read with the offset before the change. *)
Definition santiago : Z -> bool -> Z :=
  fun t isUTC =>
    if isUTC then if t <? 1725768000000 then - 14400000 else - 10800000
    else if t <? 1725768000000 - 10800000 then - 14400000 else - 10800000.

(** 8 September 2024, 15:00 UTC: noon in Santiago on the day of the
    change. *)
Definition changeDay : Date := 1725807600000.

(** Checks in on 9 September 2024 at 00:00:00 in Santiago (03:00 UTC). *)
Definition lateBooking : Booking.t :=
  Booking.mk "b-9" "r-101" "g-1" 1725850800000 (1725850800000 + msPerDay)
    2 None "120.00" "confirmed" "direct" None (Some 1725000000000) None.

Definition santiagoStore : MemStorage :=
  mkStorage JsMap.empty
    [("r-101", room101); ("r-102", room102)]
    JsMap.empty
    [("b-9", lateBooking)]
    JsMap.empty JsMap.empty JsMap.empty JsMap.empty JsMap.empty.

(** A host in the time zone Australia/Sydney, around 6 October 2024: local
    time is 10 hours ahead of UTC until 16:00 UTC of 5 October, 02:00 local
    time, when the clock is put forward to 03:00, and 11 hours ahead from
    then on. *)
Definition sydney : Z -> bool -> Z :=
  fun t isUTC =>
    if isUTC then if t <? 1728144000000 then 36000000 else 39600000
    else if t <? 1728144000000 + 39600000 then 36000000 else 39600000.

(** 6 October 2024, 01:00 UTC: noon in Sydney on the day of the change. *)
Definition sydneyChangeDay : Date := 1728176400000.

End Sample.

(* ================================================================== *)
(** ** Specification vocabulary: merges *)

(** The value of one field after [{ ...entity, ...updates }]. *)
Definition merged {A} (prior : A) (supplied : option A) (result : A) : Prop :=
  match supplied with
  | Some v => result = v
  | None => result = prior
  end.

(** Field by field: the entity returned is the stored one with the keys of
    [updates] overwritten. *)
Definition roomMerged (room : Room.t) (updates : PartialRoom.t) (r' : Room.t)
  : Prop :=
  merged (Room.id room) (PartialRoom.id updates) (Room.id r')
  /\ merged (Room.number room) (PartialRoom.number updates) (Room.number r')
  /\ merged (Room.type room) (PartialRoom.type updates) (Room.type r')
  /\ merged (Room.status room) (PartialRoom.status updates) (Room.status r')
  /\ merged (Room.floor room) (PartialRoom.floor updates) (Room.floor r')
  /\ merged (Room.maxOccupancy room) (PartialRoom.maxOccupancy updates)
       (Room.maxOccupancy r')
  /\ merged (Room.basePrice room) (PartialRoom.basePrice updates)
       (Room.basePrice r')
  /\ merged (Room.amenities room) (PartialRoom.amenities updates)
       (Room.amenities r')
  /\ merged (Room.lastCleaned room) (PartialRoom.lastCleaned updates)
       (Room.lastCleaned r')
  /\ merged (Room.notes room) (PartialRoom.notes updates) (Room.notes r').

Definition guestMerged (guest : Guest.t) (updates : PartialGuest.t)
  (g' : Guest.t) : Prop :=
  merged (Guest.id guest) (PartialGuest.id updates) (Guest.id g')
  /\ merged (Guest.firstName guest) (PartialGuest.firstName updates)
       (Guest.firstName g')
  /\ merged (Guest.lastName guest) (PartialGuest.lastName updates)
       (Guest.lastName g')
  /\ merged (Guest.email guest) (PartialGuest.email updates) (Guest.email g')
  /\ merged (Guest.phone guest) (PartialGuest.phone updates) (Guest.phone g')
  /\ merged (Guest.idNumber guest) (PartialGuest.idNumber updates)
       (Guest.idNumber g')
  /\ merged (Guest.nationality guest) (PartialGuest.nationality updates)
       (Guest.nationality g')
  /\ merged (Guest.preferences guest) (PartialGuest.preferences updates)
       (Guest.preferences g')
  /\ merged (Guest.vipStatus guest) (PartialGuest.vipStatus updates)
       (Guest.vipStatus g')
  /\ merged (Guest.createdAt guest) (PartialGuest.createdAt updates)
       (Guest.createdAt g').

Definition bookingMerged (booking : Booking.t) (updates : PartialBooking.t)
  (b' : Booking.t) : Prop :=
  merged (Booking.id booking) (PartialBooking.id updates) (Booking.id b')
  /\ merged (Booking.roomId booking) (PartialBooking.roomId updates)
       (Booking.roomId b')
  /\ merged (Booking.guestId booking) (PartialBooking.guestId updates)
       (Booking.guestId b')
  /\ merged (Booking.checkIn booking) (PartialBooking.checkIn updates)
       (Booking.checkIn b')
  /\ merged (Booking.checkOut booking) (PartialBooking.checkOut updates)
       (Booking.checkOut b')
  /\ merged (Booking.adults booking) (PartialBooking.adults updates)
       (Booking.adults b')
  /\ merged (Booking.children booking) (PartialBooking.children updates)
       (Booking.children b')
  /\ merged (Booking.totalAmount booking) (PartialBooking.totalAmount updates)
       (Booking.totalAmount b')
  /\ merged (Booking.status booking) (PartialBooking.status updates)
       (Booking.status b')
  /\ merged (Booking.channel booking) (PartialBooking.channel updates)
       (Booking.channel b')
  /\ merged (Booking.specialRequests booking)
       (PartialBooking.specialRequests updates)
       (Booking.specialRequests b')
  /\ merged (Booking.createdAt booking) (PartialBooking.createdAt updates)
       (Booking.createdAt b')
  /\ merged (Booking.cloudbedsSyncId booking)
       (PartialBooking.cloudbedsSyncId updates)
       (Booking.cloudbedsSyncId b').

Definition staffMerged (staffMember : Staff.t) (updates : PartialStaff.t)
  (m' : Staff.t) : Prop :=
  merged (Staff.id staffMember) (PartialStaff.id updates) (Staff.id m')
  /\ merged (Staff.employeeId staffMember) (PartialStaff.employeeId updates)
       (Staff.employeeId m')
  /\ merged (Staff.firstName staffMember) (PartialStaff.firstName updates)
       (Staff.firstName m')
  /\ merged (Staff.lastName staffMember) (PartialStaff.lastName updates)
       (Staff.lastName m')
  /\ merged (Staff.email staffMember) (PartialStaff.email updates)
       (Staff.email m')
  /\ merged (Staff.phone staffMember) (PartialStaff.phone updates)
       (Staff.phone m')
  /\ merged (Staff.department staffMember) (PartialStaff.department updates)
       (Staff.department m')
  /\ merged (Staff.position staffMember) (PartialStaff.position updates)
       (Staff.position m')
  /\ merged (Staff.shift staffMember) (PartialStaff.shift updates)
       (Staff.shift m')
  /\ merged (Staff.isActive staffMember) (PartialStaff.isActive updates)
       (Staff.isActive m')
  /\ merged (Staff.startDate staffMember) (PartialStaff.startDate updates)
       (Staff.startDate m').

Definition maintenanceRequestMerged (request : MaintenanceRequest.t)
  (updates : PartialMaintenanceRequest.t) (q' : MaintenanceRequest.t) : Prop :=
  merged (MaintenanceRequest.id request) (PartialMaintenanceRequest.id updates)
       (MaintenanceRequest.id q')
  /\ merged (MaintenanceRequest.roomId request)
       (PartialMaintenanceRequest.roomId updates)
       (MaintenanceRequest.roomId q')
  /\ merged (MaintenanceRequest.staffId request)
       (PartialMaintenanceRequest.staffId updates)
       (MaintenanceRequest.staffId q')
  /\ merged (MaintenanceRequest.type request)
       (PartialMaintenanceRequest.type updates)
       (MaintenanceRequest.type q')
  /\ merged (MaintenanceRequest.priority request)
       (PartialMaintenanceRequest.priority updates)
       (MaintenanceRequest.priority q')
  /\ merged (MaintenanceRequest.description request)
       (PartialMaintenanceRequest.description updates)
       (MaintenanceRequest.description q')
  /\ merged (MaintenanceRequest.status request)
       (PartialMaintenanceRequest.status updates)
       (MaintenanceRequest.status q')
  /\ merged (MaintenanceRequest.createdAt request)
       (PartialMaintenanceRequest.createdAt updates)
       (MaintenanceRequest.createdAt q')
  /\ merged (MaintenanceRequest.completedAt request)
       (PartialMaintenanceRequest.completedAt updates)
       (MaintenanceRequest.completedAt q')
  /\ merged (MaintenanceRequest.notes request)
       (PartialMaintenanceRequest.notes updates)
       (MaintenanceRequest.notes q').

Definition paymentMerged (payment : Payment.t) (updates : PartialPayment.t)
  (p' : Payment.t) : Prop :=
  merged (Payment.id payment) (PartialPayment.id updates) (Payment.id p')
  /\ merged (Payment.bookingId payment) (PartialPayment.bookingId updates)
       (Payment.bookingId p')
  /\ merged (Payment.amount payment) (PartialPayment.amount updates)
       (Payment.amount p')
  /\ merged (Payment.method payment) (PartialPayment.method updates)
       (Payment.method p')
  /\ merged (Payment.status payment) (PartialPayment.status updates)
       (Payment.status p')
  /\ merged (Payment.stripePaymentId payment)
       (PartialPayment.stripePaymentId updates)
       (Payment.stripePaymentId p')
  /\ merged (Payment.createdAt payment) (PartialPayment.createdAt updates)
       (Payment.createdAt p')
  /\ merged (Payment.processedAt payment) (PartialPayment.processedAt updates)
       (Payment.processedAt p').

(** The collections of the store. *)
Inductive CollectionName : Type :=
| Users | Rooms | Guests | Bookings | StaffMembers | MaintenanceRequests
| Payments | GuestCommunications | HotelSettings.

(** Every collection other than [c] is the same in [s'] as in [s]. *)
Definition unchangedExcept (c : CollectionName) (s s' : MemStorage) : Prop :=
  (c <> Users -> users s' = users s)
  /\ (c <> Rooms -> rooms s' = rooms s)
  /\ (c <> Guests -> guests s' = guests s)
  /\ (c <> Bookings -> bookings s' = bookings s)
  /\ (c <> StaffMembers -> staff s' = staff s)
  /\ (c <> MaintenanceRequests -> maintenanceRequests s' =
      maintenanceRequests s)
  /\ (c <> Payments -> payments s' = payments s)
  /\ (c <> GuestCommunications -> guestCommunications s' =
      guestCommunications s)
  /\ (c <> HotelSettings -> hotelSettings s' = hotelSettings s).

(* ================================================================== *)
(** ** Specification vocabulary: settings and ids *)

(** Every entity of the collection is stored under its own id. *)
Definition keyedById {T} (idOf : T -> string) (m : JsMap.t T) : Prop :=
  forall k e, In (k, e) m -> idOf e = k.

(** Every setting is stored under its own id.  The empty collection has the
    property and [updateHotelSetting] keeps it. *)
Definition settingsKeyedById (s : MemStorage) : Prop :=
  keyedById HotelSetting.id (hotelSettings s).

Definition hasKey (key : string) (setting : HotelSetting.t) : bool :=
  String.eqb (HotelSetting.key setting) key.

(** The shape the six [update] methods share: a collection, the message of
    its error, the spread of its entities. *)
Definition updateIn {T P} (coll : MemStorage -> JsMap.t T)
  (withColl : MemStorage -> JsMap.t T -> MemStorage) (spreadOf : T -> P -> T)
  (message : string) (id : string) (updates : P) : Method T :=
  fun s =>
    match JsMap.get id (coll s) with
    | None => (Thrown message, s)
    | Some e =>
        (Returned (spreadOf e updates),
         withColl s (JsMap.set id (spreadOf e updates) (coll s)))
    end.

(** An update of a stored entity is a shallow merge: it returns an entity
    that has the fields of the partial overwritten and the others as before,
    stores it under the id, and changes nothing else: not the keys of the
    collection, not the entities under other ids, not another collection. *)
Definition shallowMerge {T P} (name : CollectionName)
  (keysOf : MemStorage -> list string)
  (get : string -> MemStorage -> option T) (update : string -> P -> Method T)
  (fieldsMerged : T -> P -> T -> Prop) : Prop :=
  forall id updates s e,
    get id s = Some e ->
    exists e',
      fst (update id updates s) = Returned e'
      /\ fieldsMerged e updates e'
      /\ get id (snd (update id updates s)) = Some e'
      /\ (forall id', id' <> id ->
                      get id' (snd (update id updates s)) = get id' s)
      /\ keysOf (snd (update id updates s)) = keysOf s
      /\ unchangedExcept name s (snd (update id updates s)).

(** An update under an id that is not stored throws [message] and leaves
    the store as it was. *)
Definition failsWithoutMutation {T P}
  (get : string -> MemStorage -> option T) (update : string -> P -> Method T)
  (message : string) : Prop :=
  forall id updates s,
    get id s = None -> update id updates s = (Thrown message, s).

(** The creations and updates of the six kinds of entity that have an
    [update] method. *)
Inductive Call : Type :=
| CallCreateRoom (insertRoom : InsertRoom.t) (uuid : string)
| CallUpdateRoom (id : string) (updates : PartialRoom.t)
| CallCreateGuest (insertGuest : InsertGuest.t) (uuid : string) (now : Date)
| CallUpdateGuest (id : string) (updates : PartialGuest.t)
| CallCreateBooking (insertBooking : InsertBooking.t) (uuid : string)
    (now : Date)
| CallUpdateBooking (id : string) (updates : PartialBooking.t)
| CallCreateStaffMember (insertStaff : InsertStaff.t) (uuid : string)
| CallUpdateStaffMember (id : string) (updates : PartialStaff.t)
| CallCreateMaintenanceRequest (insertRequest : InsertMaintenanceRequest.t)
    (uuid : string) (now : Date)
| CallUpdateMaintenanceRequest (id : string)
    (updates : PartialMaintenanceRequest.t)
| CallCreatePayment (insertPayment : InsertPayment.t) (uuid : string)
    (now : Date)
| CallUpdatePayment (id : string) (updates : PartialPayment.t).

(** The store after a call, whether it returned or threw. *)
Definition perform (c : Call) (s : MemStorage) : MemStorage :=
  match c with
  | CallCreateRoom insertRoom uuid => snd (createRoom insertRoom uuid s)
  | CallUpdateRoom id updates => snd (updateRoom id updates s)
  | CallCreateGuest insertGuest uuid now => snd (createGuest insertGuest uuid
      now s)
  | CallUpdateGuest id updates => snd (updateGuest id updates s)
  | CallCreateBooking insertBooking uuid now =>
      snd (createBooking insertBooking uuid now s)
  | CallUpdateBooking id updates => snd (updateBooking id updates s)
  | CallCreateStaffMember insertStaff uuid =>
      snd (createStaffMember insertStaff uuid s)
  | CallUpdateStaffMember id updates => snd (updateStaffMember id updates s)
  | CallCreateMaintenanceRequest insertRequest uuid now =>
      snd (createMaintenanceRequest insertRequest uuid now s)
  | CallUpdateMaintenanceRequest id updates =>
      snd (updateMaintenanceRequest id updates s)
  | CallCreatePayment insertPayment uuid now =>
      snd (createPayment insertPayment uuid now s)
  | CallUpdatePayment id updates => snd (updatePayment id updates s)
  end.

Definition performAll (cs : list Call) (s : MemStorage) : MemStorage :=
  fold_left (fun s c => perform c s) cs s.

(** The partial of an update has no [id] key. *)
Definition keepsId (c : Call) : Prop :=
  match c with
  | CallUpdateRoom _ updates => PartialRoom.id updates = None
  | CallUpdateGuest _ updates => PartialGuest.id updates = None
  | CallUpdateBooking _ updates => PartialBooking.id updates = None
  | CallUpdateStaffMember _ updates => PartialStaff.id updates = None
  | CallUpdateMaintenanceRequest _ updates =>
      PartialMaintenanceRequest.id updates = None
  | CallUpdatePayment _ updates => PartialPayment.id updates = None
  | _ => True
  end.

(** Every entity of the six collections is stored under its own id. *)
Definition idsAgree (s : MemStorage) : Prop :=
  keyedById Room.id (rooms s)
  /\ keyedById Guest.id (guests s)
  /\ keyedById Booking.id (bookings s)
  /\ keyedById Staff.id (staff s)
  /\ keyedById MaintenanceRequest.id (maintenanceRequests s)
  /\ keyedById Payment.id (payments s).

(** No id of the six collections of [s] is missing from [s']. *)
Definition idsKept (s s' : MemStorage) : Prop :=
  (forall k, JsMap.has k (rooms s) = true -> JsMap.has k (rooms s') = true)
  /\ (forall k, JsMap.has k (guests s) = true -> JsMap.has k (guests s') = true)
  /\ (forall k, JsMap.has k (bookings s) = true ->
                JsMap.has k (bookings s') = true)
  /\ (forall k, JsMap.has k (staff s) = true -> JsMap.has k (staff s') = true)
  /\ (forall k, JsMap.has k (maintenanceRequests s) = true ->
                JsMap.has k (maintenanceRequests s') = true)
  /\ (forall k, JsMap.has k (payments s) = true ->
                JsMap.has k (payments s') = true).

(** In the store [s], an update whose partial has no [id] key returns, and
    stores under the id, an entity whose [id] field is that id. *)
Definition updateKeepsId {T P} (get : string -> MemStorage -> option T)
  (update : string -> P -> Method T) (idOf : T -> string)
  (idKey : P -> option string) (s : MemStorage) : Prop :=
  forall id updates e,
    idKey updates = None ->
    get id s = Some e ->
    exists e',
      fst (update id updates s) = Returned e'
      /\ get id (snd (update id updates s)) = Some e'
      /\ idOf e' = id.

(** In the store [s], a creation under an id that is new to the collection
    leaves every stored entity under its id, which is another id. *)
Definition createKeepsOthers {T I} (get : string -> MemStorage -> option T)
  (create : I -> string -> Method T) (s : MemStorage) : Prop :=
  forall insert uuid k e,
    get uuid s = None ->
    get k s = Some e ->
    k <> uuid /\ get k (snd (create insert uuid s)) = Some e.

(* ================================================================== *)
(** ** Specification vocabulary: the dashboard *)

(** [round(num / den)] in exact arithmetic, halves upwards, for [0 < den]. *)
Definition roundHalfUp (num den : Z) : Z := (2 * num + den) / (2 * den).

(** The rate computed from the two counts. *)
Definition rateOf (occupied total : Z) : JsNumber.number :=
  JsNumber.Math_round
    (JsNumber.mul (JsNumber.div (JsNumber.of_int occupied)
        (JsNumber.of_int total))
       (JsNumber.of_int 100)).

(** Equality of representations. *)
Definition sameNumber (x y : JsNumber.number) : bool :=
  match x, y with
  | S754_zero a, S754_zero b => Bool.eqb a b
  | S754_infinity a, S754_infinity b => Bool.eqb a b
  | S754_nan, S754_nan => true
  | S754_finite s m e, S754_finite s' m' e' =>
      Bool.eqb s s' && Pos.eqb m m' && (e =? e')
  | _, _ => false
  end.

(** For every total from 1 to [n] and every count of occupied rooms up to
    the total, the rate computed in doubles is the exactly rounded one. *)
Definition rateExactUpTo (n : nat) : bool :=
  forallb
    (fun t =>
       forallb
         (fun o =>
            sameNumber (rateOf (Z.of_nat o) (Z.of_nat t))
              (JsNumber.of_int (roundHalfUp (100 * Z.of_nat o) (Z.of_nat t))))
         (seq 0 (S t)))
    (seq 1 n).

(** A store the API reaches: the five sample rooms of the constructor, then
    rooms 6 to 27 created occupied and rooms 28 to 40 created available. *)
Definition extraRoom (status : string) (n : nat) : Call :=
  CallCreateRoom
    (InsertRoom.mk (JsNumber.digits_of (Z.of_nat n + 600)) "Standard King" status
       6 2 "285.00" (JArr wifi_tv_ac) None)
    ("uuid-" ++ JsNumber.digits_of (Z.of_nat n))%string.

Definition fortyRooms : MemStorage :=
  performAll
    (map (extraRoom "occupied") (seq 6 22) ++ map (extraRoom "available") (seq 28 13))
    (newMemStorage
       (sampleRooms "uuid-1" "uuid-2" "uuid-3" "uuid-4" "uuid-5"
          1709251200000 1709251200000 1709251200000 1709251200000
          1709251200000)).

(** The amount of a booking read as a decimal with at most two places, in
    cents; the reading of the specification, not of the handler. *)
Definition centsOf (amount : string) : option Z :=
  let '(ip, il, r1) := JsNumber.read_digits amount 0 0 in
  if il =? 0 then None
  else
    match r1 with
    | EmptyString => Some (100 * ip)
    | String "." r2 =>
        let '(fp, fl, r3) := JsNumber.read_digits r2 0 0 in
        match r3 with
        | EmptyString =>
            if fl =? 2 then Some (100 * ip + fp)
            else if fl =? 1 then Some (100 * ip + 10 * fp)
            else if fl =? 0 then Some (100 * ip)
            else None
        | _ => None
        end
    | _ => None
    end.

Fixpoint sumCents (l : list Booking.t) : option Z :=
  match l with
  | [] => Some 0
  | b :: r =>
      match centsOf (Booking.totalAmount b), sumCents r with
      | Some c, Some t => Some (c + t)
      | _, _ => None
      end
  end.

(** The decimal-exact sum of the amounts, with two places. *)
Definition decimalExactRevenue (l : list Booking.t) : option string :=
  option_map JsNumber.two_places (sumCents l).

(** One pass over all bookings that adds, in double precision, the amount
    of each booking whose check-in has the start of day of [now]. *)
Fixpoint floatSumToday (LocalTZA : Z -> bool -> Z) (now : Date)
  (l : list Booking.t) (acc : JsNumber.number) : JsNumber.number :=
  match l with
  | [] => acc
  | b :: r =>
      if setHours0 LocalTZA (Booking.checkIn b) =? setHours0 LocalTZA now
      then floatSumToday LocalTZA now r
             (JsNumber.add acc (JsNumber.parseFloat (Booking.totalAmount b)))
      else floatSumToday LocalTZA now r acc
  end.

(** Two bookings that check in today, of 9007199254740992.00 and 1.00. *)
Definition largeBooking : Booking.t :=
  Booking.mk "b-8" "r-101" "g-1" Sample.midnight (Sample.midnight + msPerDay)
    2 None "9007199254740992.00" "confirmed" "direct" None None None.

Definition smallBooking : Booking.t :=
  Booking.mk "b-9" "r-102" "g-2" Sample.midnight (Sample.midnight + msPerDay)
    2 None "1.00" "confirmed" "direct" None None None.

Definition largeStore : MemStorage :=
  with_bookings Sample.store [("b-8", largeBooking); ("b-9", smallBooking)].

(* ================================================================== *)
(** ** Partials in sequence *)

(** One key of [{ ...first, ...second }] for two partials: the value of
    [second] when it has the key, that of [first] otherwise. *)
Definition orElse {A} (later earlier : option A) : option A :=
  match later with
  | Some v => Some v
  | None => earlier
  end.

(** [{ ...first, ...second }], the partial that has the keys of both and
    the value of [second] where both have a key. *)
Definition thenRoom (first second : PartialRoom.t) : PartialRoom.t :=
  PartialRoom.mk
    (orElse (PartialRoom.id second) (PartialRoom.id first))
    (orElse (PartialRoom.number second) (PartialRoom.number first))
    (orElse (PartialRoom.type second) (PartialRoom.type first))
    (orElse (PartialRoom.status second) (PartialRoom.status first))
    (orElse (PartialRoom.floor second) (PartialRoom.floor first))
    (orElse (PartialRoom.maxOccupancy second)
       (PartialRoom.maxOccupancy first))
    (orElse (PartialRoom.basePrice second) (PartialRoom.basePrice first))
    (orElse (PartialRoom.amenities second) (PartialRoom.amenities first))
    (orElse (PartialRoom.lastCleaned second) (PartialRoom.lastCleaned first))
    (orElse (PartialRoom.notes second) (PartialRoom.notes first)).

Definition thenGuest (first second : PartialGuest.t) : PartialGuest.t :=
  PartialGuest.mk
    (orElse (PartialGuest.id second) (PartialGuest.id first))
    (orElse (PartialGuest.firstName second) (PartialGuest.firstName first))
    (orElse (PartialGuest.lastName second) (PartialGuest.lastName first))
    (orElse (PartialGuest.email second) (PartialGuest.email first))
    (orElse (PartialGuest.phone second) (PartialGuest.phone first))
    (orElse (PartialGuest.idNumber second) (PartialGuest.idNumber first))
    (orElse (PartialGuest.nationality second)
       (PartialGuest.nationality first))
    (orElse (PartialGuest.preferences second)
       (PartialGuest.preferences first))
    (orElse (PartialGuest.vipStatus second) (PartialGuest.vipStatus first))
    (orElse (PartialGuest.createdAt second) (PartialGuest.createdAt first)).

Definition thenBooking (first second : PartialBooking.t) : PartialBooking.t :=
  PartialBooking.mk
    (orElse (PartialBooking.id second) (PartialBooking.id first))
    (orElse (PartialBooking.roomId second) (PartialBooking.roomId first))
    (orElse (PartialBooking.guestId second) (PartialBooking.guestId first))
    (orElse (PartialBooking.checkIn second) (PartialBooking.checkIn first))
    (orElse (PartialBooking.checkOut second) (PartialBooking.checkOut first))
    (orElse (PartialBooking.adults second) (PartialBooking.adults first))
    (orElse (PartialBooking.children second) (PartialBooking.children first))
    (orElse (PartialBooking.totalAmount second)
       (PartialBooking.totalAmount first))
    (orElse (PartialBooking.status second) (PartialBooking.status first))
    (orElse (PartialBooking.channel second) (PartialBooking.channel first))
    (orElse (PartialBooking.specialRequests second)
       (PartialBooking.specialRequests first))
    (orElse (PartialBooking.createdAt second)
       (PartialBooking.createdAt first))
    (orElse (PartialBooking.cloudbedsSyncId second)
       (PartialBooking.cloudbedsSyncId first)).

Definition thenStaff (first second : PartialStaff.t) : PartialStaff.t :=
  PartialStaff.mk
    (orElse (PartialStaff.id second) (PartialStaff.id first))
    (orElse (PartialStaff.employeeId second) (PartialStaff.employeeId first))
    (orElse (PartialStaff.firstName second) (PartialStaff.firstName first))
    (orElse (PartialStaff.lastName second) (PartialStaff.lastName first))
    (orElse (PartialStaff.email second) (PartialStaff.email first))
    (orElse (PartialStaff.phone second) (PartialStaff.phone first))
    (orElse (PartialStaff.department second) (PartialStaff.department first))
    (orElse (PartialStaff.position second) (PartialStaff.position first))
    (orElse (PartialStaff.shift second) (PartialStaff.shift first))
    (orElse (PartialStaff.isActive second) (PartialStaff.isActive first))
    (orElse (PartialStaff.startDate second) (PartialStaff.startDate first)).

Definition thenMaintenanceRequest (first second : PartialMaintenanceRequest.t)
  : PartialMaintenanceRequest.t :=
  PartialMaintenanceRequest.mk
    (orElse (PartialMaintenanceRequest.id second)
       (PartialMaintenanceRequest.id first))
    (orElse (PartialMaintenanceRequest.roomId second)
       (PartialMaintenanceRequest.roomId first))
    (orElse (PartialMaintenanceRequest.staffId second)
       (PartialMaintenanceRequest.staffId first))
    (orElse (PartialMaintenanceRequest.type second)
       (PartialMaintenanceRequest.type first))
    (orElse (PartialMaintenanceRequest.priority second)
       (PartialMaintenanceRequest.priority first))
    (orElse (PartialMaintenanceRequest.description second)
       (PartialMaintenanceRequest.description first))
    (orElse (PartialMaintenanceRequest.status second)
       (PartialMaintenanceRequest.status first))
    (orElse (PartialMaintenanceRequest.createdAt second)
       (PartialMaintenanceRequest.createdAt first))
    (orElse (PartialMaintenanceRequest.completedAt second)
       (PartialMaintenanceRequest.completedAt first))
    (orElse (PartialMaintenanceRequest.notes second)
       (PartialMaintenanceRequest.notes first)).

Definition thenPayment (first second : PartialPayment.t) : PartialPayment.t :=
  PartialPayment.mk
    (orElse (PartialPayment.id second) (PartialPayment.id first))
    (orElse (PartialPayment.bookingId second)
       (PartialPayment.bookingId first))
    (orElse (PartialPayment.amount second) (PartialPayment.amount first))
    (orElse (PartialPayment.method second) (PartialPayment.method first))
    (orElse (PartialPayment.status second) (PartialPayment.status first))
    (orElse (PartialPayment.stripePaymentId second)
       (PartialPayment.stripePaymentId first))
    (orElse (PartialPayment.createdAt second)
       (PartialPayment.createdAt first))
    (orElse (PartialPayment.processedAt second)
       (PartialPayment.processedAt first)).

(* ================================================================== *)
(** ** The routes of [server/routes.ts] that read or patch one entity *)

(** What a handler sends: [res.status(status).json(body)], with status 200
    when the handler sets none, or [res.status(status).json({ message })]. *)
Inductive Response (A : Type) : Type :=
| Body (status : Z) (body : A)
| Message (status : Z) (message : string).
Arguments Body {A} status body.
Arguments Message {A} status message.

(** The [try]/[catch] of a handler that writes: the value of the storage
    call is sent with status 200, the message of a thrown error with the
    status of the [catch] block. *)
Definition respond {A} (caught : Z) (result : Outcome A * MemStorage)
  : Response A * MemStorage :=
  match result with
  | (Returned a, s) => (Body 200 a, s)
  | (Thrown message, s) => (Message caught message, s)
  end.

(** [GET /api/rooms/:id] *)
Definition routeGetRoom (id : string) (s : MemStorage) : Response Room.t :=
  match getRoom id s with
  | None => Message 404 "Room not found"
  | Some room => Body 200 room
  end.

(** [PATCH /api/rooms/:id]; [body] is [req.body]. *)
Definition routePatchRoom (id : string) (body : PartialRoom.t) (s : MemStorage)
  : Response Room.t * MemStorage :=
  respond 500 (updateRoom id body s).

(** [PATCH /api/rooms/:id/status]; [status] is [req.body.status]. *)
Definition routePatchRoomStatus (id : string) (status : string) (s : MemStorage)
  : Response Room.t * MemStorage :=
  respond 500 (updateRoomStatus id status s).

(** [GET /api/guests/:id] *)
Definition routeGetGuest (id : string) (s : MemStorage) : Response Guest.t :=
  match getGuest id s with
  | None => Message 404 "Guest not found"
  | Some guest => Body 200 guest
  end.

(** [PATCH /api/guests/:id] *)
Definition routePatchGuest (id : string) (body : PartialGuest.t) (s : MemStorage)
  : Response Guest.t * MemStorage :=
  respond 500 (updateGuest id body s).

(** [GET /api/bookings/:id] *)
Definition routeGetBooking (id : string) (s : MemStorage) : Response Booking.t :=
  match getBooking id s with
  | None => Message 404 "Booking not found"
  | Some booking => Body 200 booking
  end.

(** [PATCH /api/bookings/:id] *)
Definition routePatchBooking (id : string) (body : PartialBooking.t)
  (s : MemStorage) : Response Booking.t * MemStorage :=
  respond 500 (updateBooking id body s).

(** [PATCH /api/staff/:id] *)
Definition routePatchStaff (id : string) (body : PartialStaff.t) (s : MemStorage)
  : Response Staff.t * MemStorage :=
  respond 500 (updateStaffMember id body s).

(** [PATCH /api/maintenance/:id] *)
Definition routePatchMaintenance (id : string)
  (body : PartialMaintenanceRequest.t) (s : MemStorage)
  : Response MaintenanceRequest.t * MemStorage :=
  respond 500 (updateMaintenanceRequest id body s).

(** [GET /api/settings/:key] *)
Definition routeGetSetting (key : string) (s : MemStorage)
  : Response HotelSetting.t :=
  match getHotelSetting key s with
  | None => Message 404 "Setting not found"
  | Some setting => Body 200 setting
  end.

(** [PUT /api/settings/:key]; [value] is [req.body.value], [id] and [now]
    are the inputs of [updateHotelSetting]. *)
Definition routePutSetting (key : string) (value : Json) (id : string)
  (now : Date) (s : MemStorage) : Response HotelSetting.t * MemStorage :=
  respond 500 (updateHotelSetting key value id now s).

(* ================================================================== *)
(** ** The analytics of the client ([useHotelData]) *)

(** The counters of [getRoomStatusCounts].  They count up by one from 0 and
    are kept as integers.  A status that names none of them makes another
    property of the object NaN and leaves the five as they are. *)
Record RoomStatusCounts := mkCounts {
  countAvailable : Z;
  countOccupied : Z;
  countPending : Z;
  countMaintenance : Z;
  countTotal : Z }.

(** [counts[room.status]++] *)
Definition bumpStatus (status : string) (c : RoomStatusCounts)
  : RoomStatusCounts :=
  if String.eqb status "available" then
    mkCounts (countAvailable c + 1) (countOccupied c) (countPending c)
      (countMaintenance c) (countTotal c)
  else if String.eqb status "occupied" then
    mkCounts (countAvailable c) (countOccupied c + 1) (countPending c)
      (countMaintenance c) (countTotal c)
  else if String.eqb status "pending" then
    mkCounts (countAvailable c) (countOccupied c) (countPending c + 1)
      (countMaintenance c) (countTotal c)
  else if String.eqb status "maintenance" then
    mkCounts (countAvailable c) (countOccupied c) (countPending c)
      (countMaintenance c + 1) (countTotal c)
  else if String.eqb status "total" then
    mkCounts (countAvailable c) (countOccupied c) (countPending c)
      (countMaintenance c) (countTotal c + 1)
  else c.

(** [counts.total++] *)
Definition bumpTotal (c : RoomStatusCounts) : RoomStatusCounts :=
  mkCounts (countAvailable c) (countOccupied c) (countPending c)
    (countMaintenance c) (countTotal c + 1).

(** [rooms] is the [data] of the rooms query, [None] while it is
    undefined. *)
Definition getRoomStatusCounts (rooms : option (list Room.t))
  : RoomStatusCounts :=
  match rooms with
  | None => mkCounts 0 0 0 0 0
  | Some l =>
      fold_left (fun counts room => bumpTotal (bumpStatus (Room.status room) counts))
        l (mkCounts 0 0 0 0 0)
  end.

Definition calculateOccupancyRate (rooms : option (list Room.t))
  : JsNumber.number :=
  let roomCounts := getRoomStatusCounts rooms in
  if countTotal roomCounts =? 0 then JsNumber.of_int 0
  else
    JsNumber.Math_round
      (JsNumber.mul
         (JsNumber.div (JsNumber.of_int (countOccupied roomCounts))
            (JsNumber.of_int (countTotal roomCounts)))
         (JsNumber.of_int 100)).

(** [bookings] is the [data] of the bookings query. *)
Definition calculateADR (bookings : option (list Booking.t)) : JsNumber.number :=
  match bookings with
  | None => JsNumber.of_int 0
  | Some l =>
      if count l =? 0 then JsNumber.of_int 0
      else
        let completedBookings :=
          filter (fun booking => String.eqb (Booking.status booking) "completed")
            l in
        if count completedBookings =? 0 then JsNumber.of_int 0
        else
          let totalRevenue :=
            fold_left
              (fun sum booking =>
                 JsNumber.add sum
                   (JsNumber.parseFloat (Booking.totalAmount booking)))
              completedBookings (JsNumber.of_int 0) in
          JsNumber.div totalRevenue (JsNumber.of_int (count completedBookings))
  end.

(* ================================================================== *)
(** ** Further vocabulary *)

(** A collection is a [Map]: no key occurs twice. *)
Definition isMap {T} (m : JsMap.t T) : Prop := NoDup (JsMap.keys m).

(** The settings form a map, each under its own id, and no two of them have
    the same key. *)
Definition settingsWellFormed (s : MemStorage) : Prop :=
  isMap (hotelSettings s)
  /\ keyedById HotelSetting.id (hotelSettings s)
  /\ NoDup (map HotelSetting.key (getHotelSettings s)).

(** The statuses of a booking that the schema lists. *)
Definition listedBookingStatus (status : string) : Prop :=
  status = "confirmed" \/ status = "checked_in" \/ status = "checked_out"
  \/ status = "cancelled".

(** The statuses of a room that the dashboard counts. *)
Definition countedRoomStatus (status : string) : Prop :=
  status = "occupied" \/ status = "available" \/ status = "maintenance".

(** A creation returns the entity it stores under the generated id. *)
Definition createRoundTrip {T I} (get : string -> MemStorage -> option T)
  (list : MemStorage -> list T) (create : I -> string -> Method T)
  (idOf : T -> string) : Prop :=
  forall insert uuid s,
  exists e,
    fst (create insert uuid s) = Returned e
    /\ idOf e = uuid
    /\ get uuid (snd (create insert uuid s)) = Some e
    /\ In e (list (snd (create insert uuid s))).

(** Under an id that is new to the collection a creation puts the entity
    after all the others; under an id that is in use it replaces the entity
    of that id, without an error, and the collection keeps its size. *)
Definition createAppends {T I} (get : string -> MemStorage -> option T)
  (list : MemStorage -> list T) (create : I -> string -> Method T) : Prop :=
  forall insert uuid s e,
    fst (create insert uuid s) = Returned e ->
    (get uuid s = None -> list (snd (create insert uuid s)) = list s ++ [e])
    /\ (get uuid s <> None ->
        List.length (list (snd (create insert uuid s))) = List.length (list s)
        /\ get uuid (snd (create insert uuid s)) = Some e).

(** A lookup by a field returns the first entity of the list, in insertion
    order, that has the value in the field, and nothing exactly when no
    entity has it. *)
Definition firstMatch {T} (list : MemStorage -> list T) (field : T -> string)
  (lookup : string -> MemStorage -> option T) : Prop :=
  forall value s,
    (lookup value s = None <-> forall e, In e (list s) -> field e <> value)
    /\ (forall e,
           lookup value s = Some e ->
           field e = value
           /\ exists before after,
               list s = before ++ e :: after
               /\ forall x, In x before -> field x <> value).

(** Two updates of an id in a row are the one update with
    [{ ...first, ...second }]: the same outcome and the same store. *)
Definition updatesFuse {T P} (update : string -> P -> Method T)
  (combine : P -> P -> P) : Prop :=
  forall id first second s,
    update id second (snd (update id first s))
    = update id (combine first second) s.

(** An update with the partial [{}] returns the stored entity and leaves the
    store as it is. *)
Definition emptyPartialIsNoOp {T P} (get : string -> MemStorage -> option T)
  (update : string -> P -> Method T) (none : P) : Prop :=
  forall id s e, get id s = Some e -> update id none s = (Returned e, s).

(** Updates under two different ids of a collection give the same store in
    either order, and the outcome of each does not depend on the other. *)
Definition updatesCommute {T P} (update : string -> P -> Method T) : Prop :=
  forall id1 id2 p1 p2 s,
    id1 <> id2 ->
    snd (update id1 p1 (snd (update id2 p2 s)))
    = snd (update id2 p2 (snd (update id1 p1 s)))
    /\ fst (update id1 p1 (snd (update id2 p2 s))) = fst (update id1 p1 s).

(** [{ status }] for a booking, the body of the check-in and check-out
    requests of the client. *)
Definition bookingStatusOnly (status : string) : PartialBooking.t :=
  PartialBooking.mk None None None None None None None None (Some status) None
    None None None.

(** A store with a user. *)
Definition sampleUser : User.t :=
  User.mk "u-1" "reception" "secret" None "staff" "Front Desk" None None.

Definition storeWithUser : MemStorage :=
  with_users Sample.store [("u-1", sampleUser)].

(** No entity of the six collections is removed: none of the lists gets
    shorter from [s] to [s']. *)
Definition noneRemoved (s s' : MemStorage) : Prop :=
  count (getRooms s) <= count (getRooms s')
  /\ count (getGuests s) <= count (getGuests s')
  /\ count (getBookings s) <= count (getBookings s')
  /\ count (getStaff s) <= count (getStaff s')
  /\ count (getMaintenanceRequests s) <= count (getMaintenanceRequests s')
  /\ count (getPayments s) <= count (getPayments s').

(** A store whose only booking of the day has an amount that is no number. *)
Definition unpricedBooking : Booking.t :=
  Booking.mk "b-7" "r-101" "g-1" Sample.midnight (Sample.midnight + msPerDay)
    2 None "n/a" "confirmed" "direct" None None None.

Definition unpricedStore : MemStorage :=
  with_bookings Sample.store
    [("b-1", Sample.booking1); ("b-7", unpricedBooking)].

(** A store with one pending maintenance request, and the partial
    [{ status: "completed" }]. *)
Definition pendingRequest : MaintenanceRequest.t :=
  MaintenanceRequest.mk "m-1" "r-101" None "plumbing" "high" "Leaking tap"
    "pending" (Some Sample.midnight) None None.

Definition pendingStore : MemStorage :=
  with_maintenanceRequests Sample.store [("m-1", pendingRequest)].

Definition completedOnly : PartialMaintenanceRequest.t :=
  PartialMaintenanceRequest.mk None None None None None None
    (Some "completed") None None None.

(* ================================================================== *)
(** ** Facts about [Map<string, T>] *)

Module JsMapFacts.
Import JsMap.

Lemma get_set_eq {V} (k : string) (v : V) (m : t V) :
  get k (set k v m) = Some v.
Proof.
  induction m as [|[k' v'] r IH]; simpl.
  - now rewrite String.eqb_refl.
  - destruct (String.eqb k k') eqn:E; simpl; rewrite E; auto.
Qed.

Lemma get_set_ne {V} (k k' : string) (v : V) (m : t V) :
  k <> k' -> get k' (set k v m) = get k' m.
Proof.
  intros Hne. induction m as [|[k0 v0] r IH]; simpl.
  - destruct (String.eqb_spec k' k); congruence.
  - destruct (String.eqb_spec k k0) as [->|Hk]; simpl.
    + destruct (String.eqb_spec k' k0); congruence.
    + now rewrite IH.
Qed.

Lemma keys_set_present {V} (k : string) (v : V) (m : t V) :
  get k m <> None -> keys (set k v m) = keys m.
Proof.
  unfold keys. induction m as [|[k' v'] r IH]; simpl; intros H.
  - congruence.
  - destruct (String.eqb k k'); simpl; [reflexivity|].
    now rewrite IH.
Qed.

Lemma set_absent {V} (k : string) (v : V) (m : t V) :
  get k m = None -> set k v m = m ++ [(k, v)].
Proof.
  induction m as [|[k' v'] r IH]; simpl; intros H.
  - reflexivity.
  - destruct (String.eqb k k'); [discriminate|].
    now rewrite IH.
Qed.

Lemma get_In {V} (k : string) (v : V) (m : t V) :
  get k m = Some v -> In (k, v) m.
Proof.
  induction m as [|[k' v'] r IH]; simpl; intros H.
  - discriminate.
  - destruct (String.eqb_spec k k') as [->|Hk].
    + left. congruence.
    + right. auto.
Qed.

Lemma get_values {V} (k : string) (v : V) (m : t V) :
  get k m = Some v -> In v (values m).
Proof.
  intros H. apply get_In in H. unfold values.
  change v with (snd (k, v)). now apply in_map.
Qed.

Lemma In_set {V} (k k0 : string) (v v0 : V) (m : t V) :
  In (k0, v0) (set k v m) -> (k0, v0) = (k, v) \/ In (k0, v0) m.
Proof.
  induction m as [|[k' v'] r IH]; simpl.
  - intros [H|[]]. left. congruence.
  - destruct (String.eqb_spec k k') as [->|Hk]; simpl.
    + intros [H|H]; auto.
    + intros [H|H]; auto. destruct (IH H); auto.
Qed.

End JsMapFacts.

(* ================================================================== *)
(** ** The store: updates, creation, queries *)

Lemma merged_overwrite {A} (prior : A) (supplied : option A) :
  merged prior supplied (overwrite prior supplied).
Proof. destruct supplied; reflexivity. Qed.

Lemma spreadRoom_merged (room : Room.t) (updates : PartialRoom.t) :
  roomMerged room updates (spreadRoom room updates).
Proof. unfold roomMerged, spreadRoom; simpl. repeat split; apply
    merged_overwrite. Qed.

Lemma spreadGuest_merged (guest : Guest.t) (updates : PartialGuest.t) :
  guestMerged guest updates (spreadGuest guest updates).
Proof. unfold guestMerged, spreadGuest; simpl. repeat split; apply
    merged_overwrite. Qed.

Lemma spreadBooking_merged (booking : Booking.t) (updates : PartialBooking.t) :
  bookingMerged booking updates (spreadBooking booking updates).
Proof. unfold bookingMerged, spreadBooking; simpl. repeat split; apply
    merged_overwrite. Qed.

Lemma spreadStaff_merged (staffMember : Staff.t) (updates : PartialStaff.t) :
  staffMerged staffMember updates (spreadStaff staffMember updates).
Proof. unfold staffMerged, spreadStaff; simpl. repeat split; apply
    merged_overwrite. Qed.

Lemma spreadMaintenanceRequest_merged (request : MaintenanceRequest.t)
    (updates : PartialMaintenanceRequest.t) :
  maintenanceRequestMerged request updates (spreadMaintenanceRequest request
      updates).
Proof. unfold maintenanceRequestMerged, spreadMaintenanceRequest; simpl.
    repeat split; apply merged_overwrite. Qed.

Lemma spreadPayment_merged (payment : Payment.t) (updates : PartialPayment.t) :
  paymentMerged payment updates (spreadPayment payment updates).
Proof. unfold paymentMerged, spreadPayment; simpl. repeat split; apply
    merged_overwrite. Qed.

Lemma unchangedExcept_refl (c : CollectionName) (s : MemStorage) :
  unchangedExcept c s s.
Proof. unfold unchangedExcept. repeat split. Qed.

Ltac frame :=
  intros; unfold unchangedExcept; simpl;
  repeat split; intros Hc; solve [reflexivity | exfalso; apply Hc; reflexivity].

Lemma with_rooms_frame (s : MemStorage) (m : JsMap.t Room.t) :
  unchangedExcept Rooms s (with_rooms s m).
Proof. frame. Qed.

Lemma with_guests_frame (s : MemStorage) (m : JsMap.t Guest.t) :
  unchangedExcept Guests s (with_guests s m).
Proof. frame. Qed.

Lemma with_bookings_frame (s : MemStorage) (m : JsMap.t Booking.t) :
  unchangedExcept Bookings s (with_bookings s m).
Proof. frame. Qed.

Lemma with_staff_frame (s : MemStorage) (m : JsMap.t Staff.t) :
  unchangedExcept StaffMembers s (with_staff s m).
Proof. frame. Qed.

Lemma with_maintenanceRequests_frame (s : MemStorage)
    (m : JsMap.t MaintenanceRequest.t) :
  unchangedExcept MaintenanceRequests s (with_maintenanceRequests s m).
Proof. frame. Qed.

Lemma with_payments_frame (s : MemStorage) (m : JsMap.t Payment.t) :
  unchangedExcept Payments s (with_payments s m).
Proof. frame. Qed.

Section UpdateShape.

Context {T P : Type}.
Variable name : CollectionName.
Variable coll : MemStorage -> JsMap.t T.
Variable withColl : MemStorage -> JsMap.t T -> MemStorage.
Variable spreadOf : T -> P -> T.
Variable message : string.
Hypothesis coll_withColl : forall s m, coll (withColl s m) = m.
Hypothesis withColl_frame : forall s m, unchangedExcept name s (withColl s m).

Lemma updateIn_present (id : string) (updates : P) (s : MemStorage) (e : T) :
  JsMap.get id (coll s) = Some e ->
  updateIn coll withColl spreadOf message id updates s
  = (Returned (spreadOf e updates),
     withColl s (JsMap.set id (spreadOf e updates) (coll s))).
Proof. unfold updateIn. now intros ->. Qed.

Lemma updateIn_shallowMerge (fieldsMerged : T -> P -> T -> Prop) :
  (forall e updates, fieldsMerged e updates (spreadOf e updates)) ->
  shallowMerge name (fun s => JsMap.keys (coll s))
    (fun id s => JsMap.get id (coll s))
    (updateIn coll withColl spreadOf message) fieldsMerged.
Proof.
  intros Hmerged id updates s e Hget.
  exists (spreadOf e updates).
  rewrite (updateIn_present id updates s e Hget); simpl.
  rewrite coll_withColl.
  split; [reflexivity|].
  split; [apply Hmerged|].
  split; [apply JsMapFacts.get_set_eq|].
  split; [intros id' Hne; apply JsMapFacts.get_set_ne; congruence|].
  split; [apply JsMapFacts.keys_set_present; congruence|].
  apply withColl_frame.
Qed.

Lemma updateIn_failsWithoutMutation :
  failsWithoutMutation (fun id s => JsMap.get id (coll s))
    (updateIn coll withColl spreadOf message) message.
Proof. intros id updates s Hget. unfold updateIn. now rewrite Hget. Qed.

End UpdateShape.

(** C3.  An update of an entity that is in the store is a shallow merge:
    the entity returned, which is also the one stored under the id
    afterwards, has every field named in the partial set to the partial's
    value (a [jsonb] value such as [amenities] or [preferences] is replaced
    as a whole) and every other field as before; the keys of the
    collection, the entities under other ids and the other collections are
    as before.  For each of the six [update] methods. *)
Theorem update_is_shallow_merge :
  shallowMerge Rooms (fun s => JsMap.keys (rooms s)) getRoom updateRoom
    roomMerged
  /\ shallowMerge Guests (fun s => JsMap.keys (guests s)) getGuest updateGuest
       guestMerged
  /\ shallowMerge Bookings (fun s => JsMap.keys (bookings s)) getBooking
       updateBooking bookingMerged
  /\ shallowMerge StaffMembers (fun s => JsMap.keys (staff s)) getStaffMember
       updateStaffMember staffMerged
  /\ shallowMerge MaintenanceRequests
       (fun s => JsMap.keys (maintenanceRequests s)) getMaintenanceRequest
       updateMaintenanceRequest maintenanceRequestMerged
  /\ shallowMerge Payments (fun s => JsMap.keys (payments s)) getPayment
       updatePayment paymentMerged.
Proof.
  split; [|split; [|split; [|split; [|split]]]].
  - exact (updateIn_shallowMerge Rooms rooms with_rooms spreadRoom
             "Room not found" (fun _ _ => eq_refl) with_rooms_frame
             roomMerged spreadRoom_merged).
  - exact (updateIn_shallowMerge Guests guests with_guests spreadGuest
             "Guest not found" (fun _ _ => eq_refl) with_guests_frame
             guestMerged spreadGuest_merged).
  - exact (updateIn_shallowMerge Bookings bookings with_bookings spreadBooking
             "Booking not found" (fun _ _ => eq_refl) with_bookings_frame
             bookingMerged spreadBooking_merged).
  - exact (updateIn_shallowMerge StaffMembers staff with_staff spreadStaff
             "Staff member not found" (fun _ _ => eq_refl) with_staff_frame
             staffMerged spreadStaff_merged).
  - exact (updateIn_shallowMerge MaintenanceRequests maintenanceRequests
             with_maintenanceRequests spreadMaintenanceRequest
             "Maintenance request not found" (fun _ _ => eq_refl)
             with_maintenanceRequests_frame maintenanceRequestMerged
             spreadMaintenanceRequest_merged).
  - exact (updateIn_shallowMerge Payments payments with_payments spreadPayment
             "Payment not found" (fun _ _ => eq_refl) with_payments_frame
             paymentMerged spreadPayment_merged).
Qed.

Lemma update_is_shallow_merge_witness :
  getRoom "r-102" Sample.store = Some Sample.room102
  /\ exists r',
      fst (updateRoom "r-102" (statusOnly "available") Sample.store)
      = Returned r'
      /\ roomMerged Sample.room102 (statusOnly "available") r'
      /\ getRoom "r-102"
           (snd (updateRoom "r-102" (statusOnly "available") Sample.store))
         = Some r'
      /\ (forall id', id' <> "r-102" ->
            getRoom id'
              (snd (updateRoom "r-102" (statusOnly "available") Sample.store))
            = getRoom id' Sample.store)
      /\ JsMap.keys
           (rooms (snd (updateRoom "r-102" (statusOnly "available") Sample.store)))
         = JsMap.keys (rooms Sample.store)
      /\ unchangedExcept Rooms Sample.store
           (snd (updateRoom "r-102" (statusOnly "available") Sample.store)).
Proof.
  split.
  - reflexivity.
  - apply (proj1 update_is_shallow_merge "r-102" (statusOnly "available")
             Sample.store Sample.room102).
    reflexivity.
Defined.

(** C4.  An update under an id that is not in the collection throws the
    collection's not-found error and leaves the whole store as it was.  For
    each of the six [update] methods. *)
Theorem update_unknown_id_no_mutation :
  failsWithoutMutation getRoom updateRoom "Room not found"
  /\ failsWithoutMutation getGuest updateGuest "Guest not found"
  /\ failsWithoutMutation getBooking updateBooking "Booking not found"
  /\ failsWithoutMutation getStaffMember updateStaffMember
       "Staff member not found"
  /\ failsWithoutMutation getMaintenanceRequest updateMaintenanceRequest
       "Maintenance request not found"
  /\ failsWithoutMutation getPayment updatePayment "Payment not found".
Proof.
  split; [|split; [|split; [|split; [|split]]]].
  - exact (updateIn_failsWithoutMutation rooms with_rooms spreadRoom
             "Room not found").
  - exact (updateIn_failsWithoutMutation guests with_guests spreadGuest
             "Guest not found").
  - exact (updateIn_failsWithoutMutation bookings with_bookings spreadBooking
             "Booking not found").
  - exact (updateIn_failsWithoutMutation staff with_staff spreadStaff
             "Staff member not found").
  - exact (updateIn_failsWithoutMutation maintenanceRequests
             with_maintenanceRequests spreadMaintenanceRequest
             "Maintenance request not found").
  - exact (updateIn_failsWithoutMutation payments with_payments spreadPayment
             "Payment not found").
Qed.

Lemma update_unknown_id_no_mutation_witness :
  getRoom "r-999" Sample.store = None
  /\ updateRoom "r-999" (statusOnly "occupied") Sample.store
     = (Thrown "Room not found", Sample.store).
Proof.
  split.
  - reflexivity.
  - apply (proj1 update_unknown_id_no_mutation "r-999" (statusOnly "occupied")
             Sample.store).
    reflexivity.
Defined.

(** C9.  [updateRoomStatus(id, s)] is [updateRoom(id, { status: s })]: the
    same outcome and the same store afterwards.  With the room present that
    is the room with its status set to [s] and nothing else changed; with
    the room absent it is the error "Room not found" and the store as it
    was. *)
Theorem updateRoomStatus_is_updateRoom :
  forall id status s,
    updateRoomStatus id status s
    = updateRoom id
        (PartialRoom.mk None None None (Some status) None None None None None
            None)
        s
    /\ match getRoom id s with
       | Some room =>
           updateRoomStatus id status s
           = (Returned
                (Room.mk (Room.id room) (Room.number room) (Room.type room)
                   status (Room.floor room) (Room.maxOccupancy room)
                   (Room.basePrice room) (Room.amenities room)
                   (Room.lastCleaned room) (Room.notes room)),
              with_rooms s
                (JsMap.set id
                   (Room.mk (Room.id room) (Room.number room) (Room.type room)
                      status (Room.floor room) (Room.maxOccupancy room)
                      (Room.basePrice room) (Room.amenities room)
                      (Room.lastCleaned room) (Room.notes room))
                   (rooms s)))
       | None => updateRoomStatus id status s = (Thrown "Room not found", s)
       end.
Proof.
  intros id status s. split; [reflexivity|].
  unfold updateRoomStatus, updateRoom, getRoom.
  destruct (JsMap.get id (rooms s)) as [room|]; reflexivity.
Qed.

(** C10.  [createRoom] returns a room whose [lastCleaned] is null, with the
    generated id and the fields of the input, and stores that room under
    the id.  ([InsertRoom] has no [lastCleaned] field to supply.) *)
Theorem createRoom_lastCleaned_null :
  forall insertRoom id s,
  exists room,
    createRoom insertRoom id s
    = (Returned room, with_rooms s (JsMap.set id room (rooms s)))
    /\ Room.lastCleaned room = None
    /\ Room.id room = id
    /\ getRoom id (snd (createRoom insertRoom id s)) = Some room
    /\ In room (getRooms (snd (createRoom insertRoom id s))).
Proof.
  intros insertRoom id s. eexists. split; [reflexivity|].
  simpl. unfold getRoom, getRooms; simpl.
  repeat split.
  - apply JsMapFacts.get_set_eq.
  - eapply JsMapFacts.get_values. apply JsMapFacts.get_set_eq.
Qed.

(** C2.  [getBookingsByDateRange(start, end)] holds a booking exactly when
    the booking is in the store, checks in at or after [start] and checks
    out at or before [end]; so a booking that checks in within the range
    and checks out after [end] is left out. *)
Theorem getBookingsByDateRange_containment :
  forall (rangeStart rangeEnd : Date) (s : MemStorage) (b : Booking.t),
    (In b (getBookingsByDateRange rangeStart rangeEnd s)
     <-> In b (getBookings s)
         /\ rangeStart <= Booking.checkIn b
         /\ Booking.checkOut b <= rangeEnd)
    /\ (rangeStart <= Booking.checkIn b <= rangeEnd ->
        rangeEnd < Booking.checkOut b ->
        ~ In b (getBookingsByDateRange rangeStart rangeEnd s)).
Proof.
  intros rangeStart rangeEnd s b.
  assert (Hiff : In b (getBookingsByDateRange rangeStart rangeEnd s)
                 <-> In b (getBookings s)
                     /\ rangeStart <= Booking.checkIn b
                     /\ Booking.checkOut b <= rangeEnd).
  { unfold getBookingsByDateRange, getBookings.
    rewrite filter_In, andb_true_iff, !Z.leb_le. tauto. }
  split; [exact Hiff|].
  intros _ Hout Hin. apply Hiff in Hin. lia.
Qed.

Lemma getBookingsByDateRange_containment_witness :
  (Sample.midnight <= Booking.checkIn Sample.booking2
   <= Sample.midnight + 4 * msPerDay)
  /\ Sample.midnight + 4 * msPerDay < Booking.checkOut Sample.booking2
  /\ ~ In Sample.booking2
       (getBookingsByDateRange Sample.midnight (Sample.midnight + 4 * msPerDay)
          Sample.store).
Proof.
  assert (H1 : Sample.midnight <= Booking.checkIn Sample.booking2
               <= Sample.midnight + 4 * msPerDay) by (vm_compute; intuition
                   discriminate).
  assert (H2 : Sample.midnight + 4 * msPerDay < Booking.checkOut
      Sample.booking2)
    by reflexivity.
  split; [exact H1|]. split; [exact H2|].
  exact (proj2 (getBookingsByDateRange_containment Sample.midnight
                  (Sample.midnight + 4 * msPerDay) Sample.store Sample.booking2)
           H1 H2).
Defined.

(* ================================================================== *)
(** ** Local days *)

Lemma msPerDay_pos : 0 < msPerDay.
Proof. reflexivity. Qed.

Section FixedZone.

Variable offset : Z.
Variable LocalTZA : Z -> bool -> Z.
Hypothesis fixed : forall t u, LocalTZA t u = offset.

Lemma setHours0_fixed (d : Date) :
  setHours0 LocalTZA d = (d + offset) / msPerDay * msPerDay - offset.
Proof. unfold setHours0, UTC, LocalTime, Day. now rewrite !fixed. Qed.

(** The start of the local day is a local midnight, at most a day back. *)
Lemma setHours0_midnight (d : Date) :
  (setHours0 LocalTZA d + offset) mod msPerDay = 0
  /\ setHours0 LocalTZA d <= d < setHours0 LocalTZA d + msPerDay.
Proof.
  rewrite setHours0_fixed.
  pose proof (Z.div_mod (d + offset) msPerDay) as Hdm.
  pose proof (Z.mod_pos_bound (d + offset) msPerDay msPerDay_pos) as Hb.
  split.
  - replace ((d + offset) / msPerDay * msPerDay - offset + offset)
      with ((d + offset) / msPerDay * msPerDay) by lia.
    apply Z.mod_mul. discriminate.
  - assert (msPerDay <> 0) by discriminate. lia.
Qed.

(** From a local midnight, the next calendar day starts 24 hours later. *)
Lemma setDateNext_fixed (d : Date) :
  setDateNext LocalTZA (setHours0 LocalTZA d)
  = setHours0 LocalTZA d + msPerDay.
Proof.
  unfold setDateNext, UTC, LocalTime, Day, TimeWithinDay.
  rewrite !fixed, setHours0_fixed.
  replace ((d + offset) / msPerDay * msPerDay - offset + offset)
    with ((d + offset) / msPerDay * msPerDay) by lia.
  rewrite Z.div_mul by discriminate.
  rewrite Z.mod_mul by discriminate.
  lia.
Qed.

(** Two instants have the same start of day exactly when one lies in the
    day that the other starts. *)
Lemma same_day_iff (d now : Date) :
  setHours0 LocalTZA d = setHours0 LocalTZA now
  <-> setHours0 LocalTZA now <= d < setHours0 LocalTZA now + msPerDay.
Proof.
  pose proof (setHours0_midnight d) as [_ Hd].
  split.
  - intros <-. exact Hd.
  - intros Hr. rewrite !setHours0_fixed in *.
    assert (Hq : (d + offset) / msPerDay = (now + offset) / msPerDay).
    { symmetry. apply (Z.div_unique_pos (d + offset) msPerDay
                         ((now + offset) / msPerDay)
                         (d + offset - (now + offset) / msPerDay *
                             msPerDay)); lia. }
    now rewrite Hq.
Qed.

End FixedZone.

(** [getTodaysArrivals] holds a booking exactly when the booking is in the
    store and its check-in lies in the half-open interval from
    [setHours(0, 0, 0, 0)] of the clock to [setDate(getDate() + 1)] of
    that. *)
Lemma getTodaysArrivals_In (LocalTZA : Z -> bool -> Z) (now : Date)
  (s : MemStorage) (b : Booking.t) :
  In b (getTodaysArrivals LocalTZA now s)
  <-> In b (getBookings s)
      /\ setHours0 LocalTZA now <= Booking.checkIn b
         < setDateNext LocalTZA (setHours0 LocalTZA now).
Proof.
  unfold getTodaysArrivals, getBookings.
  rewrite filter_In, andb_true_iff, Z.leb_le, Z.ltb_lt. tauto.
Qed.

(** On every host on whose clock the midnights of today and of tomorrow
    are (a fixed offset from UTC, or a change of the clock that is not at
    midnight), the two ends of the interval are the instants at which the
    local clock reads 00:00:00 of today and 00:00:00 of tomorrow. *)
Lemma getTodaysArrivals_between_local_midnights
  (LocalTZA : Z -> bool -> Z) (now : Date) :
  onTheClock LocalTZA (Day (LocalTime LocalTZA now) * msPerDay) ->
  onTheClock LocalTZA ((Day (LocalTime LocalTZA now) + 1) * msPerDay) ->
  LocalTime LocalTZA (setHours0 LocalTZA now)
  = Day (LocalTime LocalTZA now) * msPerDay
  /\ LocalTime LocalTZA (setDateNext LocalTZA (setHours0 LocalTZA now))
     = (Day (LocalTime LocalTZA now) + 1) * msPerDay.
Proof.
  unfold onTheClock. intros Htoday Htomorrow.
  assert (H0 : LocalTime LocalTZA (setHours0 LocalTZA now)
               = Day (LocalTime LocalTZA now) * msPerDay) by exact Htoday.
  split; [exact H0|].
  unfold setDateNext. rewrite H0. unfold Day at 1, TimeWithinDay.
  rewrite Z.div_mul, Z.mod_mul by discriminate.
  rewrite Z.add_0_r. exact Htomorrow.
Qed.

Lemma fixed_zone_onTheClock (offset tl : Z) :
  onTheClock (fixed_zone offset) tl.
Proof. unfold onTheClock, LocalTime, UTC, fixed_zone. lia. Qed.

(** In Sydney on the day the clock is put forward at 02:00, the interval
    runs from midnight to midnight and is 23 hours long. *)
Lemma getTodaysArrivals_sydney_change_day :
  onTheClock Sample.sydney
    (Day (LocalTime Sample.sydney Sample.sydneyChangeDay) * msPerDay)
  /\ onTheClock Sample.sydney
       ((Day (LocalTime Sample.sydney Sample.sydneyChangeDay) + 1) * msPerDay)
  /\ setDateNext Sample.sydney
       (setHours0 Sample.sydney Sample.sydneyChangeDay)
     = setHours0 Sample.sydney Sample.sydneyChangeDay + 23 * 3600000.
Proof. repeat split. Qed.

(** C6.  The interval of [getTodaysArrivals] does not always end at the
    local midnight of tomorrow.  In Santiago the clock is put forward at
    midnight, from 00:00 to 01:00.  On that day [setHours(0, 0, 0, 0)] gives
    the instant of the change, at which the local clock reads 01:00, and
    [setDate(getDate() + 1)] keeps that reading: the interval ends at 01:00
    of the next day, an hour after its midnight.  A stored booking that
    checks in at exactly 00:00:00 of the next day is among today's
    arrivals. *)
Theorem getTodaysArrivals_holds_tomorrows_midnight :
  LocalTime Sample.santiago (Booking.checkIn Sample.lateBooking)
  = (Day (LocalTime Sample.santiago Sample.changeDay) + 1) * msPerDay
  /\ In Sample.lateBooking
       (getTodaysArrivals Sample.santiago Sample.changeDay
          Sample.santiagoStore)
  /\ LocalTime Sample.santiago
       (setHours0 Sample.santiago Sample.changeDay)
     = Day (LocalTime Sample.santiago Sample.changeDay) * msPerDay + 3600000
  /\ LocalTime Sample.santiago
       (setDateNext Sample.santiago
          (setHours0 Sample.santiago Sample.changeDay))
     = (Day (LocalTime Sample.santiago Sample.changeDay) + 1) * msPerDay
       + 3600000
  /\ ~ onTheClock Sample.santiago
         (Day (LocalTime Sample.santiago Sample.changeDay) * msPerDay).
Proof.
  split; [reflexivity|]. split.
  - apply getTodaysArrivals_In. split.
    + left. reflexivity.
    + split; vm_compute; [discriminate | reflexivity].
  - split; [reflexivity|]. split; [reflexivity|].
    unfold onTheClock. vm_compute. discriminate.
Qed.

(* ================================================================== *)
(** ** Settings *)

Lemma getHotelSetting_find (key : string) (s : MemStorage) :
  getHotelSetting key s = find (hasKey key) (JsMap.values (hotelSettings s)).
Proof. reflexivity. Qed.

Lemma In_get_some {V} (k : string) (v : V) (m : JsMap.t V) :
  In (k, v) m -> JsMap.get k m <> None.
Proof.
  induction m as [|[k' v'] r IH]; simpl.
  - tauto.
  - intros [H|H].
    + inversion H; subst. now rewrite String.eqb_refl.
    + destruct (String.eqb k k'); [discriminate|auto].
Qed.

Lemma values_In {V} (v : V) (m : JsMap.t V) :
  In v (JsMap.values m) -> exists k, In (k, v) m.
Proof.
  unfold JsMap.values. rewrite in_map_iff.
  intros [[k v'] [Hv Hin]]. simpl in Hv. subst. now exists k.
Qed.

(** After the write under the id of the first setting with the key, the
    first setting with the key is the one written. *)
Lemma find_after_update (key : string) (m : JsMap.t HotelSetting.t)
  (existing updated : HotelSetting.t) :
  (forall k e, In (k, e) m -> HotelSetting.id e = k) ->
  find (hasKey key) (JsMap.values m) = Some existing ->
  hasKey key updated = true ->
  find (hasKey key)
    (JsMap.values (JsMap.set (HotelSetting.id existing) updated m))
  = Some updated.
Proof.
  intros Hwf Hfind Hupd.
  induction m as [|[k0 x0] r IH]; simpl in *.
  - discriminate.
  - assert (Hk0 : HotelSetting.id x0 = k0) by (apply Hwf; now left).
    subst k0.
    destruct (hasKey key x0) eqn:Hx0.
    + inversion Hfind; subst existing.
      rewrite String.eqb_refl. simpl. now rewrite Hupd.
    + destruct (String.eqb (HotelSetting.id existing)
        (HotelSetting.id x0)); simpl.
      * now rewrite Hupd.
      * rewrite Hx0. apply IH; auto.
Qed.

(** After the write of a setting with the key into a collection that had
    none, the first setting with the key is the one written. *)
Lemma find_after_insert (key id : string) (m : JsMap.t HotelSetting.t)
  (setting : HotelSetting.t) :
  find (hasKey key) (JsMap.values m) = None ->
  hasKey key setting = true ->
  find (hasKey key) (JsMap.values (JsMap.set id setting m)) = Some setting.
Proof.
  intros Hfind Hset.
  induction m as [|[k0 x0] r IH]; simpl in *.
  - now rewrite Hset.
  - destruct (hasKey key x0) eqn:Hx0; [discriminate|].
    destruct (String.eqb id k0); simpl.
    + now rewrite Hset.
    + rewrite Hx0. now apply IH.
Qed.

Lemma settingsKeyedById_empty : settingsKeyedById emptyStorage.
Proof. intros k e []. Qed.

(** C8.  [updateHotelSetting(k, v)] upserts by key.  When a setting with
    key [k] exists, the first such setting keeps its id and key and gets
    value [v] and a new [updatedAt]; it is written under its own id, the
    keys of the collection stay the same and the settings under other ids
    are untouched.  When none exists and the generated id is new to the
    collection, a setting with that id, key [k] and value [v] is appended.
    In both cases the setting returned is the one [getHotelSetting(k)] finds
    afterwards, with value [v], and every setting is still stored under its
    own id. *)
Theorem updateHotelSetting_upserts_by_key :
  forall (key : string) (value : Json) (id : string) (now : Date)
         (s : MemStorage),
    settingsKeyedById s ->
    (forall existing,
        getHotelSetting key s = Some existing ->
        HotelSetting.key existing = key
        /\ updateHotelSetting key value id now s
           = (Returned (HotelSetting.mk (HotelSetting.id existing) key value
               (Some now)),
              with_hotelSettings s
                (JsMap.set (HotelSetting.id existing)
                   (HotelSetting.mk (HotelSetting.id existing) key value
                       (Some now))
                   (hotelSettings s)))
        /\ JsMap.keys (hotelSettings (snd (updateHotelSetting key value id
            now s)))
           = JsMap.keys (hotelSettings s)
        /\ (forall k, k <> HotelSetting.id existing ->
              JsMap.get k (hotelSettings (snd (updateHotelSetting key value
                  id now s)))
              = JsMap.get k (hotelSettings s)))
    /\ (getHotelSetting key s = None ->
        JsMap.get id (hotelSettings s) = None ->
        updateHotelSetting key value id now s
        = (Returned (HotelSetting.mk id key value (Some now)),
           with_hotelSettings s
             (hotelSettings s ++ [(id, HotelSetting.mk id key value (Some
                 now))])))
    /\ (exists r,
           fst (updateHotelSetting key value id now s) = Returned r
           /\ getHotelSetting key (snd (updateHotelSetting key value id now s))
              = Some r
           /\ HotelSetting.key r = key
           /\ HotelSetting.value r = value)
    /\ settingsKeyedById (snd (updateHotelSetting key value id now s)).
Proof.
  intros key value id now s Hwf.
  unfold updateHotelSetting.
  destruct (getHotelSetting key s) as [existing|] eqn:Hget.
  - assert (Hkey : HotelSetting.key existing = key).
    { rewrite getHotelSetting_find in Hget. apply find_some in Hget.
      destruct Hget as [_ Hk]. now apply String.eqb_eq in Hk. }
    assert (Hin : exists k, In (k, existing) (hotelSettings s)).
    { rewrite getHotelSetting_find in Hget. apply find_some in Hget.
      apply values_In. tauto. }
    destruct Hin as [k0 Hin].
    assert (Hid : HotelSetting.id existing = k0) by now apply Hwf.
    subst k0. rewrite Hkey. simpl.
    split; [|split; [|split]].
    + intros e He. inversion He; subst e.
      split; [assumption|]. split; [reflexivity|].
      split.
      * apply JsMapFacts.keys_set_present. eapply In_get_some; eauto.
      * intros k Hk. apply JsMapFacts.get_set_ne. congruence.
    + discriminate.
    + eexists. split; [reflexivity|].
      split; [|split; reflexivity].
      rewrite getHotelSetting_find; simpl.
      apply find_after_update; auto.
      unfold hasKey; simpl. apply String.eqb_refl.
    + intros k e Hke. simpl in Hke.
      apply JsMapFacts.In_set in Hke. destruct Hke as [Heq|Hold].
      * inversion Heq; subst. reflexivity.
      * now apply Hwf.
  - simpl. split; [|split; [|split]].
    + discriminate.
    + intros _ Hfresh. now rewrite (JsMapFacts.set_absent _ _ _ Hfresh).
    + eexists. split; [reflexivity|].
      split; [|split; reflexivity].
      rewrite getHotelSetting_find; simpl.
      apply find_after_insert; auto.
      unfold hasKey; simpl. apply String.eqb_refl.
    + intros k e Hke. simpl in Hke.
      apply JsMapFacts.In_set in Hke. destruct Hke as [Heq|Hold].
      * inversion Heq; subst. reflexivity.
      * now apply Hwf.
Qed.

Lemma sample_settingsKeyedById : settingsKeyedById Sample.store.
Proof.
  intros k e [H|[]]. inversion H. reflexivity.
Defined.

Lemma updateHotelSetting_upserts_by_key_witness :
  settingsKeyedById Sample.store
  /\ getHotelSetting "currency" Sample.store = Some Sample.setting1
  /\ (exists r,
         fst (updateHotelSetting "currency" (JStr "EUR") "s-2" 1709251200000
                Sample.store) = Returned r
         /\ getHotelSetting "currency"
              (snd (updateHotelSetting "currency" (JStr "EUR") "s-2"
                      1709251200000 Sample.store)) = Some r
         /\ HotelSetting.key r = "currency"
         /\ HotelSetting.value r = JStr "EUR")
  /\ JsMap.keys
       (hotelSettings
          (snd (updateHotelSetting "currency" (JStr "EUR") "s-2" 1709251200000
                  Sample.store)))
     = ["s-1"]
  /\ getHotelSetting "timezone" Sample.store = None
  /\ JsMap.get "s-2" (hotelSettings Sample.store) = None
  /\ updateHotelSetting "timezone" (JStr "Australia/Sydney") "s-2" 1709251200000
       Sample.store
     = (Returned
          (HotelSetting.mk "s-2" "timezone" (JStr "Australia/Sydney")
             (Some 1709251200000)),
        with_hotelSettings Sample.store
          [("s-1", Sample.setting1);
           ("s-2",
            HotelSetting.mk "s-2" "timezone" (JStr "Australia/Sydney")
              (Some 1709251200000))]).
Proof.
  pose proof (updateHotelSetting_upserts_by_key "currency" (JStr "EUR") "s-2"
                1709251200000 Sample.store sample_settingsKeyedById)
    as (Hupd & _ & Hget & _).
  pose proof (updateHotelSetting_upserts_by_key "timezone"
                (JStr "Australia/Sydney") "s-2" 1709251200000 Sample.store
                sample_settingsKeyedById)
    as (_ & Hins & _ & _).
  split; [exact sample_settingsKeyedById|].
  split; [reflexivity|].
  split; [exact Hget|].
  split; [exact (proj1 (proj2 (proj2 (Hupd Sample.setting1 eq_refl))))|].
  split; [reflexivity|].
  split; [reflexivity|].
  exact (Hins eq_refl eq_refl).
Defined.

(* ================================================================== *)
(** ** Ids *)

Lemma keyedById_get {T} (idOf : T -> string) (m : JsMap.t T) (k : string)
  (e : T) :
  keyedById idOf m -> JsMap.get k m = Some e -> idOf e = k.
Proof. intros H Hg. apply H. now apply JsMapFacts.get_In. Qed.

Lemma keyedById_set {T} (idOf : T -> string) (m : JsMap.t T) (k : string)
  (e : T) :
  keyedById idOf m -> idOf e = k -> keyedById idOf (JsMap.set k e m).
Proof.
  intros H He k0 e0 Hin. apply JsMapFacts.In_set in Hin.
  destruct Hin as [Heq|Hin].
  - inversion Heq; subst. reflexivity.
  - now apply H.
Qed.

Lemma has_set {V} (k k' : string) (v : V) (m : JsMap.t V) :
  JsMap.has k' m = true -> JsMap.has k' (JsMap.set k v m) = true.
Proof.
  unfold JsMap.has. destruct (String.eqb_spec k k') as [->|Hne].
  - now rewrite JsMapFacts.get_set_eq.
  - now rewrite JsMapFacts.get_set_ne.
Qed.

Lemma idsKept_refl (s : MemStorage) : idsKept s s.
Proof. unfold idsKept. repeat split; auto. Qed.

Lemma idsKept_trans (s1 s2 s3 : MemStorage) :
  idsKept s1 s2 -> idsKept s2 s3 -> idsKept s1 s3.
Proof.
  intros (A1 & A2 & A3 & A4 & A5 & A6) (B1 & B2 & B3 & B4 & B5 & B6).
  unfold idsKept. repeat split; auto.
Qed.

(** A creation writes an entity under the id it carries. *)
Ltac after_create Hs :=
  destruct Hs as (Hr & Hg & Hb & Hm & Hq & Hp);
  unfold idsAgree; simpl;
  repeat (apply conj); try assumption;
  apply keyedById_set; [assumption | reflexivity].

(** An update without an [id] key writes an entity with the id of the one it
    found, which was stored under that id. *)
Ltac after_update Hs Hc coll :=
  match goal with
  | |- context [JsMap.get ?id (coll ?s)] =>
      destruct (JsMap.get id (coll s)) eqn:Hfound; simpl; [|exact Hs];
      destruct Hs as (Hr & Hg & Hb & Hm & Hq & Hp);
      unfold idsAgree; simpl;
      repeat (apply conj); try assumption;
      apply keyedById_set; [assumption|];
      simpl; rewrite Hc; simpl;
      eapply keyedById_get; eassumption
  end.

Lemma perform_idsAgree (c : Call) (s : MemStorage) :
  keepsId c -> idsAgree s -> idsAgree (perform c s).
Proof.
  intros Hc Hs.
  destruct c; simpl in *.
  - after_create Hs.
  - unfold updateRoom. after_update Hs Hc rooms.
  - after_create Hs.
  - unfold updateGuest. after_update Hs Hc guests.
  - after_create Hs.
  - unfold updateBooking. after_update Hs Hc bookings.
  - after_create Hs.
  - unfold updateStaffMember. after_update Hs Hc staff.
  - after_create Hs.
  - unfold updateMaintenanceRequest. after_update Hs Hc maintenanceRequests.
  - after_create Hs.
  - unfold updatePayment. after_update Hs Hc payments.
Qed.

Ltac keeps coll :=
  match goal with
  | |- context [JsMap.get ?id (coll ?s)] =>
      destruct (JsMap.get id (coll s)); simpl
  | _ => simpl
  end;
  unfold idsKept; simpl; repeat (apply conj); intros k Hk;
  solve [assumption | apply has_set; assumption].

Lemma perform_idsKept (c : Call) (s : MemStorage) : idsKept s (perform c s).
Proof.
  destruct c; simpl.
  - keeps rooms.
  - unfold updateRoom. keeps rooms.
  - keeps guests.
  - unfold updateGuest. keeps guests.
  - keeps bookings.
  - unfold updateBooking. keeps bookings.
  - keeps staff.
  - unfold updateStaffMember. keeps staff.
  - keeps maintenanceRequests.
  - unfold updateMaintenanceRequest. keeps maintenanceRequests.
  - keeps payments.
  - unfold updatePayment. keeps payments.
Qed.

Lemma performAll_idsAgree (cs : list Call) (s : MemStorage) :
  Forall keepsId cs -> idsAgree s ->
  idsAgree (performAll cs s) /\ idsKept s (performAll cs s).
Proof.
  unfold performAll. intros Hcs. revert s.
  induction Hcs as [|c cs Hc Hcs IH]; intros s Hs; simpl.
  - split; [exact Hs | apply idsKept_refl].
  - destruct (IH (perform c s) (perform_idsAgree c s Hc Hs)) as [Ha Hk].
    split; [exact Ha|].
    eapply idsKept_trans; [apply perform_idsKept | exact Hk].
Qed.

(** The store of the constructor has every room under its own id. *)
Lemma idsAgree_initial (sample : list Room.t) : idsAgree (newMemStorage sample).
Proof.
  unfold newMemStorage, initializeData.
  assert (H : forall s, idsAgree s ->
     idsAgree (fold_left
                 (fun s room => with_rooms s (JsMap.set (Room.id room) room
                     (rooms s)))
                 sample s)).
  { induction sample as [|room rest IH]; simpl; intros s Hs; [exact Hs|].
    apply IH. after_create Hs. }
  apply H. unfold idsAgree; simpl. repeat (apply conj); intros k e [].
Qed.

Section IdShape.

Context {T P : Type}.
Variable coll : MemStorage -> JsMap.t T.
Variable withColl : MemStorage -> JsMap.t T -> MemStorage.
Variable spreadOf : T -> P -> T.
Variable message : string.
Variable idOf : T -> string.
Variable idKey : P -> option string.
Hypothesis coll_withColl : forall s m, coll (withColl s m) = m.
Hypothesis spread_id :
  forall e updates, idKey updates = None -> idOf (spreadOf e updates) = idOf e.

Lemma updateIn_keeps_id (s : MemStorage) :
  keyedById idOf (coll s) ->
  updateKeepsId (fun id s => JsMap.get id (coll s))
    (updateIn coll withColl spreadOf message) idOf idKey s.
Proof.
  intros Hs id updates e Hkey Hget.
  exists (spreadOf e updates). unfold updateIn. rewrite Hget; simpl.
  rewrite coll_withColl.
  split; [reflexivity|]. split; [apply JsMapFacts.get_set_eq|].
  rewrite (spread_id e updates Hkey). now apply (keyedById_get idOf (coll s)).
Qed.

End IdShape.

Lemma set_keeps_others {T} (m : JsMap.t T) (uuid k : string) (e e0 : T) :
  JsMap.get uuid m = None ->
  JsMap.get k m = Some e ->
  k <> uuid /\ JsMap.get k (JsMap.set uuid e0 m) = Some e.
Proof.
  intros Hfresh Hget. assert (k <> uuid) by congruence.
  split; [assumption|]. rewrite JsMapFacts.get_set_ne; congruence.
Qed.

Ltac keeps_others :=
  intros insert uuid k e Hfresh Hget; simpl;
  eapply set_keeps_others; eassumption.

Ltac id_of_spread := intros e updates Hkey; simpl; rewrite Hkey; reflexivity.

(** C7 (amended).  Through any sequence of creations and of updates whose
    partials have no [id] key, every entity stays stored under its own id
    and no id leaves its collection.  Such an update of a stored entity
    returns, and stores under the id, an entity whose [id] field is that
    id.  A creation under an id that is new to the collection leaves every
    entity that was stored where it was.  For rooms, guests, bookings,
    staff, maintenance requests and payments. *)
Theorem ids_stable_without_id_key :
  forall (cs : list Call) (s : MemStorage),
    Forall keepsId cs ->
    idsAgree s ->
    idsAgree (performAll cs s)
    /\ idsKept s (performAll cs s)
    /\ (updateKeepsId getRoom updateRoom Room.id PartialRoom.id s
        /\ updateKeepsId getGuest updateGuest Guest.id PartialGuest.id s
        /\ updateKeepsId getBooking updateBooking Booking.id PartialBooking.id s
        /\ updateKeepsId getStaffMember updateStaffMember Staff.id
             PartialStaff.id s
        /\ updateKeepsId getMaintenanceRequest updateMaintenanceRequest
             MaintenanceRequest.id PartialMaintenanceRequest.id s
        /\ updateKeepsId getPayment updatePayment Payment.id
            PartialPayment.id s)
    /\ (createKeepsOthers getRoom createRoom s
        /\ (forall now,
               createKeepsOthers getGuest
                 (fun insert uuid => createGuest insert uuid now) s)
        /\ (forall now,
               createKeepsOthers getBooking
                 (fun insert uuid => createBooking insert uuid now) s)
        /\ createKeepsOthers getStaffMember createStaffMember s
        /\ (forall now,
               createKeepsOthers getMaintenanceRequest
                 (fun insert uuid => createMaintenanceRequest insert uuid
                     now) s)
        /\ (forall now,
               createKeepsOthers getPayment
                 (fun insert uuid => createPayment insert uuid now) s)).
Proof.
  intros cs s Hcs Hs.
  destruct (performAll_idsAgree cs s Hcs Hs) as [Ha Hk].
  split; [exact Ha|]. split; [exact Hk|].
  destruct Hs as (Hr & Hg & Hb & Hm & Hq & Hp).
  split.
  - split; [|split; [|split; [|split; [|split]]]].
    + apply (updateIn_keeps_id rooms with_rooms spreadRoom "Room not found"
               Room.id PartialRoom.id (fun _ _ => eq_refl));
                   [id_of_spread|exact Hr].
    + apply (updateIn_keeps_id guests with_guests spreadGuest "Guest not found"
               Guest.id PartialGuest.id (fun _ _ => eq_refl));
                   [id_of_spread|exact Hg].
    + apply (updateIn_keeps_id bookings with_bookings spreadBooking
               "Booking not found" Booking.id PartialBooking.id
               (fun _ _ => eq_refl)); [id_of_spread|exact Hb].
    + apply (updateIn_keeps_id staff with_staff spreadStaff
               "Staff member not found" Staff.id PartialStaff.id
               (fun _ _ => eq_refl)); [id_of_spread|exact Hm].
    + apply (updateIn_keeps_id maintenanceRequests with_maintenanceRequests
               spreadMaintenanceRequest "Maintenance request not found"
               MaintenanceRequest.id PartialMaintenanceRequest.id
               (fun _ _ => eq_refl)); [id_of_spread|exact Hq].
    + apply (updateIn_keeps_id payments with_payments spreadPayment
               "Payment not found" Payment.id PartialPayment.id
               (fun _ _ => eq_refl)); [id_of_spread|exact Hp].
  - split; [|split; [|split; [|split; [|split]]]].
    + keeps_others.
    + intros now. keeps_others.
    + intros now. keeps_others.
    + keeps_others.
    + intros now. keeps_others.
    + intros now. keeps_others.
Qed.

Lemma sample_idsAgree : idsAgree Sample.store.
Proof.
  unfold idsAgree; simpl.
  split; [|split; [|split; [|split; [|split]]]].
  - intros k r [H|[H|[]]]; inversion H; reflexivity.
  - intros k e [].
  - intros k b [H|[H|[H|[H|[]]]]]; inversion H; reflexivity.
  - intros k e [].
  - intros k e [].
  - intros k e [].
Defined.

Lemma ids_stable_without_id_key_witness :
  Forall keepsId
    [CallUpdateRoom "r-101" (statusOnly "occupied");
     CallUpdateBooking "b-1" PartialBooking.none;
     CallUpdateRoom "r-999" (statusOnly "pending")]
  /\ idsAgree Sample.store
  /\ idsAgree
       (performAll
          [CallUpdateRoom "r-101" (statusOnly "occupied");
           CallUpdateBooking "b-1" PartialBooking.none;
           CallUpdateRoom "r-999" (statusOnly "pending")]
          Sample.store)
  /\ exists r',
      fst (updateRoom "r-101" (statusOnly "occupied") Sample.store) = Returned r'
      /\ getRoom "r-101"
           (snd (updateRoom "r-101" (statusOnly "occupied") Sample.store))
         = Some r'
      /\ Room.id r' = "r-101".
Proof.
  assert (Hk : Forall keepsId
                 [CallUpdateRoom "r-101" (statusOnly "occupied");
                  CallUpdateBooking "b-1" PartialBooking.none;
                  CallUpdateRoom "r-999" (statusOnly "pending")]).
  { repeat constructor. }
  pose proof (ids_stable_without_id_key _ Sample.store Hk sample_idsAgree)
    as (Ha & _ & (Hroom & _) & _).
  split; [exact Hk|]. split; [exact sample_idsAgree|]. split; [exact Ha|].
  exact (Hroom "r-101" (statusOnly "occupied") Sample.room101 eq_refl eq_refl).
Defined.

(** C7, as stated, fails: a partial with an [id] key overwrites the [id]
    field.  The room stored under "r-101", and returned, then carries the
    id "r-999". *)
Lemma update_with_id_key_changes_id :
  exists r',
    fst (updateRoom "r-101"
           (PartialRoom.mk (Some "r-999") None None None None None None None
              None None)
           Sample.store) = Returned r'
    /\ getRoom "r-101"
         (snd (updateRoom "r-101"
                 (PartialRoom.mk (Some "r-999") None None None None None None
                    None None None)
                 Sample.store)) = Some r'
    /\ Room.id r' = "r-999"
    /\ Room.id r' <> "r-101".
Proof.
  eexists. split; [reflexivity|]. split; [reflexivity|].
  split; [reflexivity|]. discriminate.
Qed.

(* ================================================================== *)
(** ** The dashboard *)

Lemma sameNumber_eq (x y : JsNumber.number) : sameNumber x y = true -> x = y.
Proof.
  destruct x as [a|a| |s m e], y as [b|b| |s' m' e']; simpl; try discriminate.
  - intros H. apply Bool.eqb_prop in H. now subst.
  - intros H. apply Bool.eqb_prop in H. now subst.
  - reflexivity.
  - rewrite !andb_true_iff. intros [[Hs Hm] He].
    apply Bool.eqb_prop in Hs. apply Pos.eqb_eq in Hm. apply Z.eqb_eq in He.
    now subst.
Qed.

Lemma occupancyRate_unfold (LocalTZA : Z -> bool -> Z) (now1 now : Date)
  (s : MemStorage) :
  occupancyRate (dashboardMetrics LocalTZA now1 now s)
  = rateOf (occupiedRooms (dashboardMetrics LocalTZA now1 now s))
      (totalRooms (dashboardMetrics LocalTZA now1 now s))
  /\ totalRooms (dashboardMetrics LocalTZA now1 now s) = count (getRooms s)
  /\ occupiedRooms (dashboardMetrics LocalTZA now1 now s)
     = count (roomsWithStatus "occupied" (getRooms s)).
Proof. repeat split. Qed.

(** With four rooms of which one is occupied the rate is 25. *)
Lemma occupancyRate_one_of_four (LocalTZA : Z -> bool -> Z) (now1 now : Date)
  (s : MemStorage) :
  count (getRooms s) = 4 ->
  count (roomsWithStatus "occupied" (getRooms s)) = 1 ->
  occupancyRate (dashboardMetrics LocalTZA now1 now s) = JsNumber.of_int 25.
Proof.
  intros Ht Ho.
  destruct (occupancyRate_unfold LocalTZA now1 now s) as (-> & -> & ->).
  rewrite Ht, Ho. reflexivity.
Qed.

(** Up to 39 rooms the handler's rate is [round(100 * occupied / total)]. *)
Lemma occupancyRate_exact_up_to_39 (LocalTZA : Z -> bool -> Z) (now1 now : Date)
  (s : MemStorage) :
  0 < count (getRooms s) <= 39 ->
  occupancyRate (dashboardMetrics LocalTZA now1 now s)
  = JsNumber.of_int
      (roundHalfUp (100 * count (roomsWithStatus "occupied" (getRooms s)))
         (count (getRooms s))).
Proof.
  intros Ht.
  destruct (occupancyRate_unfold LocalTZA now1 now s) as (-> & -> & ->).
  unfold count, roomsWithStatus in *.
  set (l := getRooms s) in *.
  set (o := List.length (filter _ l)).
  assert (Ho : (o <= List.length l)%nat) by apply filter_length_le.
  assert (Hall : rateExactUpTo 39 = true) by (vm_compute; reflexivity).
  unfold rateExactUpTo in Hall. rewrite forallb_forall in Hall.
  assert (Hin : In (List.length l) (seq 1 39)) by (apply in_seq; lia).
  specialize (Hall _ Hin). rewrite forallb_forall in Hall.
  apply sameNumber_eq. apply Hall. apply in_seq. lia.
Qed.

(** The binary64 arithmetic of the kernel computes the same product for 23
    occupied rooms of 40 as [rateOf] does before it rounds. *)
Lemma kernel_binary64_agrees :
  FloatOps.Prim2SF
    (PrimFloat.mul
       (PrimFloat.div (PrimFloat.of_uint63 (Uint63.of_Z 23))
          (PrimFloat.of_uint63 (Uint63.of_Z 40)))
       (PrimFloat.of_uint63 (Uint63.of_Z 100)))
  = JsNumber.mul (JsNumber.div (JsNumber.of_int 23) (JsNumber.of_int 40))
      (JsNumber.of_int 100).
Proof. vm_compute. reflexivity. Qed.

(** C1.  The occupancy rate of the dashboard is not the guarded, exactly
    rounded rate.  Without rooms it is NaN ([0 / 0]).  With the forty rooms
    of [fortyRooms], 23 of them occupied, it is 57: the quotient is rounded
    to a double before it is multiplied by 100, and the product lies below
    57.5, while [round(100 * 23 / 40)] is 58. *)
Theorem occupancyRate_unguarded_and_drifting :
  forall (LocalTZA : Z -> bool -> Z) (now1 now : Date),
    occupancyRate (dashboardMetrics LocalTZA now1 now emptyStorage) =
        JsNumber.NaN
    /\ totalRooms (dashboardMetrics LocalTZA now1 now fortyRooms) = 40
    /\ occupiedRooms (dashboardMetrics LocalTZA now1 now fortyRooms) = 23
    /\ occupancyRate (dashboardMetrics LocalTZA now1 now fortyRooms)
       = JsNumber.of_int 57
    /\ roundHalfUp (100 * 23) 40 = 58.
Proof.
  intros LocalTZA now1 now.
  split.
  - destruct (occupancyRate_unfold LocalTZA now1 now emptyStorage) as (-> &
      -> & ->).
    reflexivity.
  - destruct (occupancyRate_unfold LocalTZA now1 now fortyRooms) as (-> & ->
      & ->).
    assert (Ht : count (getRooms fortyRooms) = 40) by (vm_compute; reflexivity).
    assert (Ho : count (roomsWithStatus "occupied" (getRooms fortyRooms)) = 23)
      by (vm_compute; reflexivity).
    rewrite Ht, Ho.
    repeat split; vm_compute; reflexivity.
Qed.

(** The reduction over the bookings of today is the single pass. *)
Lemma sumRevenue_single_pass (LocalTZA : Z -> bool -> Z) (now : Date)
  (l : list Booking.t) :
  sumRevenue (todaysBookings LocalTZA now l)
  = floatSumToday LocalTZA now l JsNumber.pos_zero.
Proof.
  unfold sumRevenue, todaysBookings.
  generalize JsNumber.pos_zero as acc.
  induction l as [|b r IH]; intros acc; simpl.
  - reflexivity.
  - destruct (setHours0 LocalTZA (Booking.checkIn b) =? setHours0 LocalTZA now);
      simpl; apply IH.
Qed.

Lemma todaysBookings_In (LocalTZA : Z -> bool -> Z) (now : Date)
  (l : list Booking.t) (b : Booking.t) :
  In b (todaysBookings LocalTZA now l)
  <-> In b l /\ setHours0 LocalTZA (Booking.checkIn b) = setHours0 LocalTZA now.
Proof. unfold todaysBookings. now rewrite filter_In, Z.eqb_eq. Qed.

(** [parseFloat] skips every white space character in front of a string,
    the ones beyond ASCII too. *)
Lemma skip_white_StrWhiteSpaceChar (cp : Z) (s : string) :
  In cp JsNumber.StrWhiteSpaceChar ->
  JsNumber.skip_white (JsNumber.utf8 cp ++ s)%string = JsNumber.skip_white s.
Proof.
  unfold JsNumber.StrWhiteSpaceChar. intros Hin.
  repeat (destruct Hin as [<-|Hin]; [reflexivity|]).
  destruct Hin.
Qed.

Lemma parseFloat_StrWhiteSpaceChar (cp : Z) (s : string) :
  In cp JsNumber.StrWhiteSpaceChar ->
  JsNumber.parseFloat (JsNumber.utf8 cp ++ s)%string = JsNumber.parseFloat s.
Proof.
  intros Hin. unfold JsNumber.parseFloat.
  now rewrite skip_white_StrWhiteSpaceChar.
Qed.

(** An amount behind a no-break space is read: 12.5. *)
Lemma parseFloat_after_no_break_space :
  JsNumber.toFixed2
    (JsNumber.parseFloat (JsNumber.utf8 160 ++ "12.50")%string)
  = "12.50".
Proof. reflexivity. Qed.

(** C5 (amended).  The revenue of the dashboard is [toFixed(2)] of the sum,
    in double precision and in the order of the store, from 0, of
    [parseFloat(totalAmount)] over the bookings whose check-in has the same
    start of local day as the clock; on a host at a fixed offset from UTC
    those are the stored bookings that check in from today's local midnight
    up to, not including, the next.  When exactly two bookings check in
    today, with amounts "99.99" and "0.01" in either order, the revenue is
    "100.00". *)
Theorem todays_revenue_is_double_sum :
  forall (LocalTZA : Z -> bool -> Z) (now1 now : Date) (s : MemStorage),
    revenue (dashboardMetrics LocalTZA now1 now s)
    = JsNumber.toFixed2
        (floatSumToday LocalTZA now (getBookings s) JsNumber.pos_zero)
    /\ (forall offset,
           (forall t u, LocalTZA t u = offset) ->
           forall b,
             In b (todaysBookings LocalTZA now (getBookings s))
             <-> In b (getBookings s)
                 /\ setHours0 LocalTZA now <= Booking.checkIn b
                    < setHours0 LocalTZA now + msPerDay)
    /\ (forall b1 b2,
           todaysBookings LocalTZA now (getBookings s) = [b1; b2] ->
           (Booking.totalAmount b1 = "99.99" /\ Booking.totalAmount b2 = "0.01")
           \/ (Booking.totalAmount b1 = "0.01" /\ Booking.totalAmount b2 = "99.99") ->
           revenue (dashboardMetrics LocalTZA now1 now s) = "100.00").
Proof.
  intros LocalTZA now1 now s.
  assert (Hrev : revenue (dashboardMetrics LocalTZA now1 now s)
                 = JsNumber.toFixed2
                     (sumRevenue (todaysBookings LocalTZA now (getBookings s))))
    by reflexivity.
  split; [|split].
  - rewrite Hrev. now rewrite sumRevenue_single_pass.
  - intros offset Hfixed b. rewrite todaysBookings_In.
    now rewrite (same_day_iff offset LocalTZA Hfixed).
  - intros b1 b2 Htoday Hamounts. rewrite Hrev, Htoday.
    unfold sumRevenue; simpl.
    destruct Hamounts as [[-> ->]|[-> ->]]; vm_compute; reflexivity.
Qed.

Lemma todays_revenue_is_double_sum_witness :
  todaysBookings Sample.utc (Sample.midnight + 18000000)
      (getBookings Sample.store)
  = [Sample.booking1; Sample.booking2]
  /\ revenue
       (dashboardMetrics Sample.utc (Sample.midnight + 18000000)
          (Sample.midnight + 18000000) Sample.store)
     = "100.00".
Proof.
  assert (H : todaysBookings Sample.utc (Sample.midnight + 18000000)
                (getBookings Sample.store)
              = [Sample.booking1; Sample.booking2]) by reflexivity.
  split; [exact H|].
  apply (proj2 (proj2 (todays_revenue_is_double_sum Sample.utc
                         (Sample.midnight + 18000000)
                             (Sample.midnight + 18000000)
                         Sample.store))
           Sample.booking1 Sample.booking2 H).
  left. split; reflexivity.
Defined.

(** C5, as stated, fails: the two bookings of [largeStore] check in today,
    their amounts add up to 9007199254740993.00, and the revenue of the
    dashboard is "9007199254740992.00". *)
Lemma revenue_not_decimal_exact :
  todaysBookings Sample.utc (Sample.midnight + 18000000)
      (getBookings largeStore)
  = [largeBooking; smallBooking]
  /\ decimalExactRevenue [largeBooking; smallBooking]
     = Some "9007199254740993.00"
  /\ revenue
       (dashboardMetrics Sample.utc (Sample.midnight + 18000000)
          (Sample.midnight + 18000000) largeStore)
     = "9007199254740992.00".
Proof. repeat split; vm_compute; reflexivity. Qed.

(* ================================================================== *)
(** ** More facts about [Map<string, T>] *)

Module JsMapMore.
Import JsMap.

Lemma set_set {V} (k : string) (v1 v2 : V) (m : t V) :
  set k v2 (set k v1 m) = set k v2 m.
Proof.
  induction m as [|[k' v'] r IH]; simpl.
  - now rewrite String.eqb_refl.
  - destruct (String.eqb k k') eqn:E; simpl; rewrite E; [reflexivity|].
    now rewrite IH.
Qed.

Lemma set_same {V} (k : string) (v : V) (m : t V) :
  get k m = Some v -> set k v m = m.
Proof.
  induction m as [|[k' v'] r IH]; simpl; intros H.
  - discriminate.
  - destruct (String.eqb k k'); [congruence|]. now rewrite IH.
Qed.

Lemma set_comm {V} (k1 k2 : string) (v1 v2 : V) (m : t V) :
  k1 <> k2 ->
  get k1 m <> None ->
  get k2 m <> None ->
  set k1 v1 (set k2 v2 m) = set k2 v2 (set k1 v1 m).
Proof.
  intros Hne. induction m as [|[k v] r IH]; simpl; intros H1 H2.
  - congruence.
  - destruct (String.eqb_spec k1 k) as [E1|N1];
      destruct (String.eqb_spec k2 k) as [E2|N2]; simpl.
    + congruence.
    + subst k. rewrite String.eqb_refl.
      destruct (String.eqb_spec k2 k1); [congruence|reflexivity].
    + subst k. rewrite String.eqb_refl.
      destruct (String.eqb_spec k1 k2); [congruence|reflexivity].
    + destruct (String.eqb_spec k1 k); [congruence|].
      destruct (String.eqb_spec k2 k); [congruence|].
      now rewrite IH.
Qed.

Lemma values_set_absent {V} (k : string) (v : V) (m : t V) :
  get k m = None -> values (set k v m) = values m ++ [v].
Proof.
  intros H. rewrite (JsMapFacts.set_absent _ _ _ H).
  unfold values. now rewrite map_app.
Qed.

Lemma length_set_present {V} (k : string) (v : V) (m : t V) :
  get k m <> None -> List.length (set k v m) = List.length m.
Proof.
  induction m as [|[k' v'] r IH]; simpl; intros H.
  - congruence.
  - destruct (String.eqb k k'); simpl; [reflexivity|]. now rewrite IH.
Qed.

Lemma length_set_ge {V} (k : string) (v : V) (m : t V) :
  (List.length m <= List.length (set k v m))%nat.
Proof.
  induction m as [|[k' v'] r IH]; simpl.
  - auto.
  - destruct (String.eqb k k'); simpl; [reflexivity|]. now apply le_n_S.
Qed.

Lemma get_None_keys {V} (k : string) (m : t V) :
  get k m = None <-> ~ In k (keys m).
Proof.
  unfold keys. induction m as [|[k' v'] r IH]; simpl.
  - tauto.
  - destruct (String.eqb_spec k k') as [->|Hk].
    + split; [discriminate|]. intros H. exfalso. apply H. now left.
    + rewrite IH. split.
      * intros H [E|Hin]; [congruence|tauto].
      * tauto.
Qed.

Lemma keys_set_absent {V} (k : string) (v : V) (m : t V) :
  get k m = None -> keys (set k v m) = keys m ++ [k].
Proof.
  intros H. rewrite (JsMapFacts.set_absent _ _ _ H).
  unfold keys. now rewrite map_app.
Qed.

Lemma isMap_set {V} (k : string) (v : V) (m : t V) :
  isMap m -> isMap (set k v m).
Proof.
  unfold isMap. intros H.
  destruct (get k m) eqn:Hg.
  - rewrite JsMapFacts.keys_set_present; [assumption|congruence].
  - rewrite (keys_set_absent _ _ _ Hg).
    apply NoDup_app; [assumption | repeat constructor; tauto |].
    intros x Hx [<-|[]]. now apply get_None_keys in Hg.
Qed.

Lemma values_length {V} (m : t V) : List.length (values m) = List.length m.
Proof. unfold values. apply length_map. Qed.

End JsMapMore.

(* ================================================================== *)
(** ** Creation *)

Ltac round_trip :=
  unfold createRoundTrip; intros insert uuid s; eexists; simpl;
  split; [reflexivity|]; split; [reflexivity|];
  split; [apply JsMapFacts.get_set_eq|];
  eapply JsMapFacts.get_values; apply JsMapFacts.get_set_eq.

(** X1.  Each of the eight [create] methods returns the entity it stores:
    the entity carries the generated id, a lookup of that id afterwards
    returns it, and it is in the list of the collection.  The fields the
    store owns are set by the store: the stripe ids of a user, the
    [lastCleaned] of a room, the [cloudbedsSyncId] of a booking, the
    [completedAt] of a maintenance request and the [processedAt] and
    [stripePaymentId] of a payment are null, and every [createdAt] is the
    time of the call. *)
Theorem create_then_get :
  (createRoundTrip getUser (fun s => JsMap.values (users s)) createUser User.id
   /\ forall insert uuid s,
       exists e, fst (createUser insert uuid s) = Returned e
                 /\ User.stripeCustomerId e = None
                 /\ User.stripeSubscriptionId e = None)
  /\ (createRoundTrip getRoom getRooms createRoom Room.id
      /\ forall insert uuid s,
          exists e, fst (createRoom insert uuid s) = Returned e
                    /\ Room.lastCleaned e = None)
  /\ (forall now,
         createRoundTrip getGuest getGuests
           (fun insert uuid => createGuest insert uuid now) Guest.id
         /\ forall insert uuid s,
             exists e, fst (createGuest insert uuid now s) = Returned e
                       /\ Guest.createdAt e = Some now)
  /\ (forall now,
         createRoundTrip getBooking getBookings
           (fun insert uuid => createBooking insert uuid now) Booking.id
         /\ forall insert uuid s,
             exists e, fst (createBooking insert uuid now s) = Returned e
                       /\ Booking.createdAt e = Some now
                       /\ Booking.cloudbedsSyncId e = None)
  /\ createRoundTrip getStaffMember getStaff createStaffMember Staff.id
  /\ (forall now,
         createRoundTrip getMaintenanceRequest getMaintenanceRequests
           (fun insert uuid => createMaintenanceRequest insert uuid now)
           MaintenanceRequest.id
         /\ forall insert uuid s,
             exists e,
               fst (createMaintenanceRequest insert uuid now s) = Returned e
               /\ MaintenanceRequest.createdAt e = Some now
               /\ MaintenanceRequest.completedAt e = None)
  /\ (forall now,
         createRoundTrip getPayment getPayments
           (fun insert uuid => createPayment insert uuid now) Payment.id
         /\ forall insert uuid s,
             exists e, fst (createPayment insert uuid now s) = Returned e
                       /\ Payment.createdAt e = Some now
                       /\ Payment.processedAt e = None
                       /\ Payment.stripePaymentId e = None)
  /\ (forall now,
         createRoundTrip getGuestCommunication getGuestCommunications
           (fun insert uuid => createGuestCommunication insert uuid now)
           GuestCommunication.id
         /\ forall insert uuid s,
             exists e,
               fst (createGuestCommunication insert uuid now s) = Returned e
               /\ GuestCommunication.createdAt e = Some now).
Proof.
  split; [|split; [|split; [|split; [|split; [|split; [|split]]]]]].
  - split; [round_trip|]. intros; eexists; simpl; repeat split.
  - split; [round_trip|]. intros; eexists; simpl; repeat split.
  - intros now. split; [round_trip|]. intros; eexists; simpl; repeat split.
  - intros now. split; [round_trip|]. intros; eexists; simpl; repeat split.
  - round_trip.
  - intros now. split; [round_trip|]. intros; eexists; simpl; repeat split.
  - intros now. split; [round_trip|]. intros; eexists; simpl; repeat split.
  - intros now. split; [round_trip|]. intros; eexists; simpl; repeat split.
Qed.

Ltac appends :=
  unfold createAppends; intros insert uuid s e He;
  unfold getRooms, getGuests, getBookings, getStaff, getMaintenanceRequests,
    getPayments, getGuestCommunications in *;
  simpl in *; inversion He; subst e; clear He;
  split;
  [ intros Hnew; apply JsMapMore.values_set_absent; exact Hnew
  | intros Hused; split;
    [ unfold JsMap.values; rewrite !length_map;
      apply JsMapMore.length_set_present; exact Hused
    | apply JsMapFacts.get_set_eq ] ].

(** X2.  A creation under an id that is new to the collection puts the
    entity at the end of the list of the collection, which is otherwise as
    it was.  Under an id that is already in use nothing is rejected: the
    entity of that id is replaced and the list keeps its length.  For the
    eight [create] methods. *)
Theorem create_appends_or_replaces :
  createAppends getUser (fun s => JsMap.values (users s)) createUser
  /\ createAppends getRoom getRooms createRoom
  /\ (forall now,
         createAppends getGuest getGuests
           (fun insert uuid => createGuest insert uuid now))
  /\ (forall now,
         createAppends getBooking getBookings
           (fun insert uuid => createBooking insert uuid now))
  /\ createAppends getStaffMember getStaff createStaffMember
  /\ (forall now,
         createAppends getMaintenanceRequest getMaintenanceRequests
           (fun insert uuid => createMaintenanceRequest insert uuid now))
  /\ (forall now,
         createAppends getPayment getPayments
           (fun insert uuid => createPayment insert uuid now))
  /\ (forall now,
         createAppends getGuestCommunication getGuestCommunications
           (fun insert uuid => createGuestCommunication insert uuid now)).
Proof.
  split; [|split; [|split; [|split; [|split; [|split; [|split]]]]]].
  - appends.
  - appends.
  - intros now. appends.
  - intros now. appends.
  - appends.
  - intros now. appends.
  - intros now. appends.
  - intros now. appends.
Qed.

Lemma create_appends_or_replaces_witness :
  getRoom "r-103" Sample.store = None
  /\ getRooms
       (snd (createRoom
               (InsertRoom.mk "103" "Deluxe King" "pending" 1 2 "350.00" JNull None)
               "r-103" Sample.store))
     = [Sample.room101; Sample.room102;
        Room.mk "r-103" "103" "Deluxe King" "pending" 1 2 "350.00" JNull None
          None].
Proof.
  split; [reflexivity|].
  exact (proj1 (proj1 (proj2 create_appends_or_replaces)
                  (InsertRoom.mk "103" "Deluxe King" "pending" 1 2 "350.00" JNull
                     None)
                  "r-103" Sample.store _ eq_refl) eq_refl).
Defined.

(* ================================================================== *)
(** ** Queries *)



Lemma filter_snoc {A} (f : A -> bool) (l : list A) (x : A) :
  filter f (l ++ [x]) = filter f l ++ (if f x then [x] else []).
Proof. rewrite filter_app. simpl. now destruct (f x). Qed.

Lemma filter_none {A} (f : A -> bool) (l : list A) :
  (forall x, In x l -> f x = false) -> filter f l = [].
Proof.
  induction l as [|a r IH]; simpl; intros H; [reflexivity|].
  rewrite (H a) by now left. apply IH. intros x Hx. apply H. now right.
Qed.

(** X4.  The queries by a foreign key see a creation where it belongs.
    After a booking is created under a new id, the bookings of a guest, and
    of a room, are those from before, followed by the new booking when it
    names that guest, or room; likewise a new payment in the payments of a
    booking and a new communication in the communications of a guest.  A
    key that no stored entity names gives the empty list. *)
Theorem foreign_key_queries_follow_creation :
  (forall insert uuid now s e,
      getBooking uuid s = None ->
      fst (createBooking insert uuid now s) = Returned e ->
      (forall guestId,
          getBookingsByGuest guestId (snd (createBooking insert uuid now s))
          = getBookingsByGuest guestId s
            ++ (if String.eqb (InsertBooking.guestId insert) guestId
                then [e] else []))
      /\ (forall roomId,
             getBookingsByRoom roomId (snd (createBooking insert uuid now s))
             = getBookingsByRoom roomId s
               ++ (if String.eqb (InsertBooking.roomId insert) roomId
                   then [e] else [])))
  /\ (forall insert uuid now s e,
         getPayment uuid s = None ->
         fst (createPayment insert uuid now s) = Returned e ->
         forall bookingId,
           getPaymentsByBooking bookingId (snd (createPayment insert uuid now s))
           = getPaymentsByBooking bookingId s
             ++ (if String.eqb (InsertPayment.bookingId insert) bookingId
                 then [e] else []))
  /\ (forall insert uuid now s e,
         getGuestCommunication uuid s = None ->
         fst (createGuestCommunication insert uuid now s) = Returned e ->
         forall guestId,
           getCommunicationsByGuest guestId
             (snd (createGuestCommunication insert uuid now s))
           = getCommunicationsByGuest guestId s
             ++ (if String.eqb (InsertGuestCommunication.guestId insert) guestId
                 then [e] else []))
  /\ (forall s guestId,
         (forall b, In b (getBookings s) -> Booking.guestId b <> guestId) ->
         getBookingsByGuest guestId s = [])
  /\ (forall s roomId,
         (forall b, In b (getBookings s) -> Booking.roomId b <> roomId) ->
         getBookingsByRoom roomId s = [])
  /\ (forall s bookingId,
         (forall p, In p (getPayments s) -> Payment.bookingId p <> bookingId) ->
         getPaymentsByBooking bookingId s = [])
  /\ (forall s guestId,
         (forall c, In c (getGuestCommunications s) ->
                    GuestCommunication.guestId c <> guestId) ->
         getCommunicationsByGuest guestId s = []).
Proof.
  split; [|split; [|split; [|split; [|split; [|split]]]]].
  - intros insert uuid now s e Hnew He.
    assert (Hv : JsMap.values (bookings (snd (createBooking insert uuid now s)))
                 = JsMap.values (bookings s) ++ [e]).
    { inversion He; subst e. now apply JsMapMore.values_set_absent. }
    split; intros k; unfold getBookingsByGuest, getBookingsByRoom;
      rewrite Hv, filter_snoc; inversion He; reflexivity.
  - intros insert uuid now s e Hnew He k.
    assert (Hv : JsMap.values (payments (snd (createPayment insert uuid now s)))
                 = JsMap.values (payments s) ++ [e]).
    { inversion He; subst e. now apply JsMapMore.values_set_absent. }
    unfold getPaymentsByBooking.
    rewrite Hv, filter_snoc; inversion He; reflexivity.
  - intros insert uuid now s e Hnew He k.
    assert (Hv : JsMap.values
                   (guestCommunications
                      (snd (createGuestCommunication insert uuid now s)))
                 = JsMap.values (guestCommunications s) ++ [e]).
    { inversion He; subst e. now apply JsMapMore.values_set_absent. }
    unfold getCommunicationsByGuest.
    rewrite Hv, filter_snoc; inversion He; reflexivity.
  - intros s k H. apply filter_none. intros b Hb.
    apply String.eqb_neq. now apply H.
  - intros s k H. apply filter_none. intros b Hb.
    apply String.eqb_neq. now apply H.
  - intros s k H. apply filter_none. intros b Hb.
    apply String.eqb_neq. now apply H.
  - intros s k H. apply filter_none. intros b Hb.
    apply String.eqb_neq. now apply H.
Qed.

Lemma foreign_key_queries_follow_creation_witness :
  getBooking "b-5" Sample.store = None
  /\ getBookingsByGuest "g-1"
       (snd (createBooking
               (InsertBooking.mk "r-102" "g-1" Sample.midnight
                  (Sample.midnight + msPerDay) 1 None "120.00" "confirmed"
                  "direct" None)
               "b-5" 1709000000000 Sample.store))
     = [Sample.booking1; Sample.booking4;
        Booking.mk "b-5" "r-102" "g-1" Sample.midnight
          (Sample.midnight + msPerDay) 1 None "120.00" "confirmed" "direct"
          None (Some 1709000000000) None]
  /\ getBookingsByGuest "g-9" Sample.store = [].
Proof.
  split; [reflexivity|]. split.
  - exact (proj1 (proj1 foreign_key_queries_follow_creation
                    (InsertBooking.mk "r-102" "g-1" Sample.midnight
                       (Sample.midnight + msPerDay) 1 None "120.00" "confirmed"
                       "direct" None)
                    "b-5" 1709000000000 Sample.store _ eq_refl eq_refl) "g-1").
  - apply (proj1 (proj2 (proj2 (proj2 foreign_key_queries_follow_creation)))
             Sample.store "g-9").
    intros b [H|[H|[H|[H|[]]]]]; subst b; discriminate.
Defined.

Lemma find_first {A} (f : A -> bool) (l : list A) (x : A) :
  find f l = Some x ->
  f x = true
  /\ exists before after,
      l = before ++ x :: after /\ forall y, In y before -> f y = false.
Proof.
  induction l as [|a r IH]; simpl; intros H; [discriminate|].
  destruct (f a) eqn:Ha.
  - inversion H; subst a. split; [assumption|].
    exists [], r. split; [reflexivity|]. intros y [].
  - destruct (IH H) as (Hx & before & after & Hl & Hb).
    split; [assumption|]. exists (a :: before), after.
    split; [now rewrite Hl|].
    intros y [<-|Hy]; auto.
Qed.

Lemma find_none_iff {A} (f : A -> bool) (l : list A) :
  find f l = None <-> forall y, In y l -> f y = false.
Proof.
  split; [apply find_none|].
  induction l as [|a r IH]; simpl; intros H; [reflexivity|].
  rewrite (H a) by now left. apply IH. intros y Hy. apply H. now right.
Qed.

Lemma find_field_first {T} (field : T -> string) (l : list T) (value : string) :
  (find (fun e => String.eqb (field e) value) l = None
   <-> forall e, In e l -> field e <> value)
  /\ (forall e,
         find (fun e => String.eqb (field e) value) l = Some e ->
         field e = value
         /\ exists before after,
             l = before ++ e :: after
             /\ forall x, In x before -> field x <> value).
Proof.
  split.
  - rewrite find_none_iff. split; intros H e He.
    + apply String.eqb_neq. now apply H.
    + apply String.eqb_neq. now apply H.
  - intros e He. apply find_first in He.
    destruct He as (Hf & before & after & Hl & Hb).
    split; [now apply String.eqb_eq|].
    exists before, after. split; [assumption|].
    intros x Hx. apply String.eqb_neq. now apply Hb.
Qed.

Lemma find_app_first {A} (f : A -> bool) (l l' : list A) (x : A) :
  find f l = Some x -> find f (l ++ l') = Some x.
Proof.
  induction l as [|a r IH]; simpl; [discriminate|].
  destruct (f a); auto.
Qed.

Lemma find_app_none {A} (f : A -> bool) (l l' : list A) :
  find f l = None -> find f (l ++ l') = find f l'.
Proof.
  induction l as [|a r IH]; simpl; [reflexivity|].
  destruct (f a); [discriminate|auto].
Qed.

(** X5.  [getRoomByNumber], [getGuestByEmail], [getUserByUsername] and
    [getHotelSetting] return the first entity, in insertion order, that has
    the value, and nothing exactly when no entity has it.  Room numbers are
    not kept unique: a room created under a new id with a number that is
    taken is stored beside the older room, and the lookup of the number
    still returns the older one; with a number that is free, the lookup
    returns the new room. *)
Theorem lookups_return_first_match :
  firstMatch getRooms Room.number getRoomByNumber
  /\ firstMatch getGuests Guest.email getGuestByEmail
  /\ firstMatch (fun s => JsMap.values (users s)) User.username
       getUserByUsername
  /\ firstMatch getHotelSettings HotelSetting.key getHotelSetting
  /\ (forall insert uuid s older,
         getRoom uuid s = None ->
         getRoomByNumber (InsertRoom.number insert) s = Some older ->
         getRoomByNumber (InsertRoom.number insert)
           (snd (createRoom insert uuid s)) = Some older
         /\ exists new,
             getRoom uuid (snd (createRoom insert uuid s)) = Some new
             /\ Room.number new = Room.number older
             /\ In older (getRooms (snd (createRoom insert uuid s))))
  /\ (forall insert uuid s,
         getRoom uuid s = None ->
         getRoomByNumber (InsertRoom.number insert) s = None ->
         getRoomByNumber (InsertRoom.number insert)
           (snd (createRoom insert uuid s))
         = getRoom uuid (snd (createRoom insert uuid s))).
Proof.
  split; [|split; [|split; [|split; [|split]]]].
  - intros value s. apply (find_field_first Room.number).
  - intros value s. apply (find_field_first Guest.email).
  - intros value s. apply (find_field_first User.username).
  - intros value s. apply (find_field_first HotelSetting.key).
  - intros insert uuid s older Hnew Hold. unfold getRoom in Hnew.
    unfold getRoomByNumber, getRoom, getRooms in *; simpl.
    rewrite (JsMapMore.values_set_absent _ _ _ Hnew).
    split; [now apply find_app_first|].
    eexists. split; [apply JsMapFacts.get_set_eq|]. simpl.
    apply find_some in Hold. destruct Hold as [Hin Heq].
    apply String.eqb_eq in Heq. split; [now symmetry|].
    apply in_or_app. now left.
  - intros insert uuid s Hnew Hnone. unfold getRoom in Hnew.
    unfold getRoomByNumber, getRoom in *; simpl.
    rewrite (JsMapMore.values_set_absent _ _ _ Hnew).
    rewrite (find_app_none _ _ _ Hnone). simpl.
    rewrite String.eqb_refl. now rewrite JsMapFacts.get_set_eq.
Qed.

Lemma lookups_return_first_match_witness :
  getRoom "r-103" Sample.store = None
  /\ getRoomByNumber "101" Sample.store = Some Sample.room101
  /\ getRoomByNumber "101"
       (snd (createRoom
               (InsertRoom.mk "101" "Suite" "available" 5 4 "550.00" JNull None)
               "r-103" Sample.store))
     = Some Sample.room101.
Proof.
  split; [reflexivity|]. split; [reflexivity|].
  exact (proj1 (proj1 (proj2 (proj2 (proj2 (proj2 lookups_return_first_match))))
                  (InsertRoom.mk "101" "Suite" "available" 5 4 "550.00" JNull None)
                  "r-103" Sample.store Sample.room101 eq_refl eq_refl)).
Defined.

(* ================================================================== *)
(** ** Updates in sequence *)

Lemma with_users_frame (s : MemStorage) (m : JsMap.t User.t) :
  unchangedExcept Users s (with_users s m).
Proof. frame. Qed.

(** X6.  [updateUserStripeInfo] of a stored user returns, and stores under
    the user id, the user with the two stripe ids set and the other six
    fields as before; the other users and the other collections are as
    before.  For an id that is not stored it throws "User not found" and
    leaves the store as it was. *)
Theorem updateUserStripeInfo_sets_stripe_ids :
  (forall userId customerId subscriptionId s user,
      getUser userId s = Some user ->
      exists u',
        fst (updateUserStripeInfo userId customerId subscriptionId s)
        = Returned u'
        /\ User.stripeCustomerId u' = Some customerId
        /\ User.stripeSubscriptionId u' = Some subscriptionId
        /\ User.id u' = User.id user
        /\ User.username u' = User.username user
        /\ User.password u' = User.password user
        /\ User.email u' = User.email user
        /\ User.role u' = User.role user
        /\ User.name u' = User.name user
        /\ getUser userId
             (snd (updateUserStripeInfo userId customerId subscriptionId s))
           = Some u'
        /\ (forall other, other <> userId ->
              getUser other
                (snd (updateUserStripeInfo userId customerId subscriptionId s))
              = getUser other s)
        /\ unchangedExcept Users s
             (snd (updateUserStripeInfo userId customerId subscriptionId s)))
  /\ (forall userId customerId subscriptionId s,
         getUser userId s = None ->
         updateUserStripeInfo userId customerId subscriptionId s
         = (Thrown "User not found", s)).
Proof.
  split.
  - intros userId customerId subscriptionId s user Hget.
    unfold getUser in *. unfold updateUserStripeInfo. rewrite Hget; simpl.
    eexists. split; [reflexivity|]. simpl.
    repeat (split; [reflexivity|]).
    split; [apply JsMapFacts.get_set_eq|].
    split; [intros other Hne; apply JsMapFacts.get_set_ne; congruence|].
    apply with_users_frame.
  - intros userId customerId subscriptionId s Hget.
    unfold getUser in *. unfold updateUserStripeInfo. now rewrite Hget.
Qed.

Lemma updateUserStripeInfo_sets_stripe_ids_witness :
  getUser "u-1" storeWithUser = Some sampleUser
  /\ (exists u',
         fst (updateUserStripeInfo "u-1" "cus_1" "sub_1" storeWithUser)
         = Returned u'
         /\ User.stripeCustomerId u' = Some "cus_1"
         /\ User.stripeSubscriptionId u' = Some "sub_1"
         /\ User.id u' = "u-1")
  /\ getUser "u-2" storeWithUser = None
  /\ updateUserStripeInfo "u-2" "cus_1" "sub_1" storeWithUser
     = (Thrown "User not found", storeWithUser).
Proof.
  destruct (proj1 updateUserStripeInfo_sets_stripe_ids "u-1" "cus_1" "sub_1"
              storeWithUser sampleUser eq_refl)
    as (u' & H1 & H2 & H3 & H4 & _).
  split; [reflexivity|].
  split; [exists u'; repeat split; assumption|].
  split; [reflexivity|].
  exact (proj2 updateUserStripeInfo_sets_stripe_ids "u-2" "cus_1" "sub_1"
           storeWithUser eq_refl).
Defined.

Lemma overwrite_orElse {A} (prior : A) (first second : option A) :
  overwrite (overwrite prior first) second
  = overwrite prior (orElse second first).
Proof. destruct second, first; reflexivity. Qed.

Ltac fuse_fields :=
  intros e first second; destruct first, second; simpl;
  rewrite !overwrite_orElse; reflexivity.

Lemma spreadRoom_fuses (e : Room.t) (first second : PartialRoom.t) :
  spreadRoom (spreadRoom e first) second = spreadRoom e (thenRoom first second).
Proof. revert e first second. unfold spreadRoom, thenRoom. fuse_fields. Qed.

Lemma spreadGuest_fuses (e : Guest.t) (first second : PartialGuest.t) :
  spreadGuest (spreadGuest e first) second
  = spreadGuest e (thenGuest first second).
Proof. revert e first second. unfold spreadGuest, thenGuest. fuse_fields. Qed.

Lemma spreadBooking_fuses (e : Booking.t) (first second : PartialBooking.t) :
  spreadBooking (spreadBooking e first) second
  = spreadBooking e (thenBooking first second).
Proof. revert e first second. unfold spreadBooking, thenBooking. fuse_fields. Qed.

Lemma spreadStaff_fuses (e : Staff.t) (first second : PartialStaff.t) :
  spreadStaff (spreadStaff e first) second
  = spreadStaff e (thenStaff first second).
Proof. revert e first second. unfold spreadStaff, thenStaff. fuse_fields. Qed.

Lemma spreadMaintenanceRequest_fuses (e : MaintenanceRequest.t)
  (first second : PartialMaintenanceRequest.t) :
  spreadMaintenanceRequest (spreadMaintenanceRequest e first) second
  = spreadMaintenanceRequest e (thenMaintenanceRequest first second).
Proof.
  revert e first second.
  unfold spreadMaintenanceRequest, thenMaintenanceRequest. fuse_fields.
Qed.

Lemma spreadPayment_fuses (e : Payment.t) (first second : PartialPayment.t) :
  spreadPayment (spreadPayment e first) second
  = spreadPayment e (thenPayment first second).
Proof. revert e first second. unfold spreadPayment, thenPayment. fuse_fields. Qed.

Section UpdateAlgebra.

Context {T P : Type}.
Variable coll : MemStorage -> JsMap.t T.
Variable withColl : MemStorage -> JsMap.t T -> MemStorage.
Variable spreadOf : T -> P -> T.
Variable message : string.
Hypothesis coll_withColl : forall s m, coll (withColl s m) = m.
Hypothesis withColl_twice :
  forall s m1 m2, withColl (withColl s m1) m2 = withColl s m2.
Hypothesis withColl_same : forall s, withColl s (coll s) = s.

Lemma updateIn_fuses (combine : P -> P -> P) :
  (forall e first second,
      spreadOf (spreadOf e first) second = spreadOf e (combine first second)) ->
  updatesFuse (updateIn coll withColl spreadOf message) combine.
Proof.
  intros Hfuse id first second s. unfold updateIn.
  destruct (JsMap.get id (coll s)) as [e|] eqn:Hget; simpl.
  - rewrite coll_withColl, JsMapFacts.get_set_eq, withColl_twice.
    now rewrite JsMapMore.set_set, Hfuse.
  - now rewrite Hget.
Qed.

Lemma updateIn_empty (none : P) :
  (forall e, spreadOf e none = e) ->
  emptyPartialIsNoOp (fun id s => JsMap.get id (coll s))
    (updateIn coll withColl spreadOf message) none.
Proof.
  intros Hnone id s e Hget. unfold updateIn. rewrite Hget, Hnone.
  now rewrite (JsMapMore.set_same _ _ _ Hget), withColl_same.
Qed.

Lemma updateIn_commutes :
  updatesCommute (updateIn coll withColl spreadOf message).
Proof.
  intros id1 id2 p1 p2 s Hne. unfold updateIn.
  destruct (JsMap.get id1 (coll s)) as [e1|] eqn:H1;
    destruct (JsMap.get id2 (coll s)) as [e2|] eqn:H2; simpl;
    rewrite ?coll_withColl, ?H1, ?H2;
    rewrite ?(JsMapFacts.get_set_ne id2 id1), ?(JsMapFacts.get_set_ne id1 id2)
      by congruence;
    rewrite ?H1, ?H2; simpl; rewrite ?withColl_twice;
    try (split; reflexivity).
  split; [|reflexivity].
  f_equal. apply JsMapMore.set_comm; congruence.
Qed.

End UpdateAlgebra.

Ltac record_law := let s := fresh "s" in intros s; destruct s; reflexivity.
Ltac spread_none := let e := fresh "e" in intros e; destruct e; reflexivity.

(** X7.  Two updates of the same id in a row are one update with the
    partial [{ ...first, ...second }]: the second returns the same entity
    and leaves the same store, and when the id is not stored both throw.
    For the six [update] methods. *)
Theorem updates_in_a_row_fuse :
  updatesFuse updateRoom thenRoom
  /\ updatesFuse updateGuest thenGuest
  /\ updatesFuse updateBooking thenBooking
  /\ updatesFuse updateStaffMember thenStaff
  /\ updatesFuse updateMaintenanceRequest thenMaintenanceRequest
  /\ updatesFuse updatePayment thenPayment.
Proof.
  split; [|split; [|split; [|split; [|split]]]].
  - apply (updateIn_fuses rooms with_rooms spreadRoom "Room not found");
      [reflexivity | reflexivity | exact spreadRoom_fuses].
  - apply (updateIn_fuses guests with_guests spreadGuest "Guest not found");
      [reflexivity | reflexivity | exact spreadGuest_fuses].
  - apply (updateIn_fuses bookings with_bookings spreadBooking
             "Booking not found");
      [reflexivity | reflexivity | exact spreadBooking_fuses].
  - apply (updateIn_fuses staff with_staff spreadStaff "Staff member not found");
      [reflexivity | reflexivity | exact spreadStaff_fuses].
  - apply (updateIn_fuses maintenanceRequests with_maintenanceRequests
             spreadMaintenanceRequest "Maintenance request not found");
      [reflexivity | reflexivity | exact spreadMaintenanceRequest_fuses].
  - apply (updateIn_fuses payments with_payments spreadPayment
             "Payment not found");
      [reflexivity | reflexivity | exact spreadPayment_fuses].
Qed.

(** X8.  An update of a stored entity with the partial [{}] returns the
    entity and leaves the whole store as it is.  For the six [update]
    methods. *)
Theorem update_with_empty_partial_is_no_op :
  emptyPartialIsNoOp getRoom updateRoom PartialRoom.none
  /\ emptyPartialIsNoOp getGuest updateGuest PartialGuest.none
  /\ emptyPartialIsNoOp getBooking updateBooking PartialBooking.none
  /\ emptyPartialIsNoOp getStaffMember updateStaffMember PartialStaff.none
  /\ emptyPartialIsNoOp getMaintenanceRequest updateMaintenanceRequest
       PartialMaintenanceRequest.none
  /\ emptyPartialIsNoOp getPayment updatePayment PartialPayment.none.
Proof.
  split; [|split; [|split; [|split; [|split]]]].
  - apply (updateIn_empty rooms with_rooms spreadRoom "Room not found");
      [record_law | spread_none].
  - apply (updateIn_empty guests with_guests spreadGuest "Guest not found");
      [record_law | spread_none].
  - apply (updateIn_empty bookings with_bookings spreadBooking
             "Booking not found"); [record_law | spread_none].
  - apply (updateIn_empty staff with_staff spreadStaff "Staff member not found");
      [record_law | spread_none].
  - apply (updateIn_empty maintenanceRequests with_maintenanceRequests
             spreadMaintenanceRequest "Maintenance request not found");
      [record_law | spread_none].
  - apply (updateIn_empty payments with_payments spreadPayment
             "Payment not found"); [record_law | spread_none].
Qed.

Lemma update_with_empty_partial_is_no_op_witness :
  getBooking "b-2" Sample.store = Some Sample.booking2
  /\ updateBooking "b-2" PartialBooking.none Sample.store
     = (Returned Sample.booking2, Sample.store).
Proof.
  split; [reflexivity|].
  exact (proj1 (proj2 (proj2 update_with_empty_partial_is_no_op)) "b-2"
           Sample.store Sample.booking2 eq_refl).
Defined.

(** X9.  Updates under two different ids of one collection commute: the
    store is the same in either order, and the outcome of each update is
    what it is without the other.  For the six [update] methods. *)
Theorem updates_of_different_ids_commute :
  updatesCommute updateRoom
  /\ updatesCommute updateGuest
  /\ updatesCommute updateBooking
  /\ updatesCommute updateStaffMember
  /\ updatesCommute updateMaintenanceRequest
  /\ updatesCommute updatePayment.
Proof.
  split; [|split; [|split; [|split; [|split]]]].
  - apply (updateIn_commutes rooms with_rooms spreadRoom "Room not found");
      reflexivity.
  - apply (updateIn_commutes guests with_guests spreadGuest "Guest not found");
      reflexivity.
  - apply (updateIn_commutes bookings with_bookings spreadBooking
             "Booking not found"); reflexivity.
  - apply (updateIn_commutes staff with_staff spreadStaff
             "Staff member not found"); reflexivity.
  - apply (updateIn_commutes maintenanceRequests with_maintenanceRequests
             spreadMaintenanceRequest "Maintenance request not found");
      reflexivity.
  - apply (updateIn_commutes payments with_payments spreadPayment
             "Payment not found"); reflexivity.
Qed.

Lemma updates_of_different_ids_commute_witness :
  "r-101" <> "r-102"
  /\ snd (updateRoom "r-101" (statusOnly "pending")
            (snd (updateRoom "r-102" (statusOnly "available") Sample.store)))
     = snd (updateRoom "r-102" (statusOnly "available")
              (snd (updateRoom "r-101" (statusOnly "pending") Sample.store))).
Proof.
  assert (H : "r-101" <> "r-102") by discriminate.
  split; [exact H|].
  exact (proj1 (proj1 updates_of_different_ids_commute "r-101" "r-102"
                  (statusOnly "pending") (statusOnly "available") Sample.store
                  H)).
Defined.

(* ================================================================== *)
(** ** Requests *)

Lemma snd_respond {A} (caught : Z) (result : Outcome A * MemStorage) :
  snd (respond caught result) = snd result.
Proof. destruct result as [[a|m] s]; reflexivity. Qed.

Lemma fst_respond {A} (caught : Z) (r1 r2 : Outcome A * MemStorage) :
  fst r1 = fst r2 -> fst (respond caught r1) = fst (respond caught r2).
Proof.
  destruct r1 as [[a1|m1] s1], r2 as [[a2|m2] s2]; simpl; congruence.
Qed.

Lemma updateRoom_updateBooking_commute (roomId bookingId : string)
  (q : PartialRoom.t) (p : PartialBooking.t) (s : MemStorage) :
  snd (updateRoom roomId q (snd (updateBooking bookingId p s)))
  = snd (updateBooking bookingId p (snd (updateRoom roomId q s)))
  /\ fst (updateRoom roomId q (snd (updateBooking bookingId p s)))
     = fst (updateRoom roomId q s)
  /\ fst (updateBooking bookingId p (snd (updateRoom roomId q s)))
     = fst (updateBooking bookingId p s).
Proof.
  unfold updateRoom, updateBooking.
  destruct (JsMap.get roomId (rooms s)) as [room|] eqn:Hr;
    destruct (JsMap.get bookingId (bookings s)) as [booking|] eqn:Hb;
    simpl; rewrite ?Hr, ?Hb; simpl; repeat split.
Qed.

(** X10.  The two requests of a check-in, the patch of the booking and the
    patch of the status of its room, leave the same store in either order
    of arrival, and each gets the reply it would get alone.  After both,
    a booking and a room that were stored have the new statuses.  The pair
    is not atomic: when the room is not stored, the room request is
    answered 500 "Room not found" and the booking has the new status all
    the same, with the rooms as they were. *)
Theorem check_in_requests_commute :
  forall (bookingId roomId bookingStatus roomStatus : string) (s : MemStorage),
    snd (routePatchRoomStatus roomId roomStatus
           (snd (routePatchBooking bookingId (bookingStatusOnly bookingStatus) s)))
    = snd (routePatchBooking bookingId (bookingStatusOnly bookingStatus)
             (snd (routePatchRoomStatus roomId roomStatus s)))
    /\ fst (routePatchRoomStatus roomId roomStatus
              (snd (routePatchBooking bookingId
                      (bookingStatusOnly bookingStatus) s)))
       = fst (routePatchRoomStatus roomId roomStatus s)
    /\ fst (routePatchBooking bookingId (bookingStatusOnly bookingStatus)
              (snd (routePatchRoomStatus roomId roomStatus s)))
       = fst (routePatchBooking bookingId (bookingStatusOnly bookingStatus) s)
    /\ (forall booking,
           getBooking bookingId s = Some booking ->
           exists b',
             getBooking bookingId
               (snd (routePatchRoomStatus roomId roomStatus
                       (snd (routePatchBooking bookingId
                               (bookingStatusOnly bookingStatus) s))))
             = Some b'
             /\ Booking.status b' = bookingStatus
             /\ Booking.roomId b' = Booking.roomId booking)
    /\ (forall room,
           getRoom roomId s = Some room ->
           exists r',
             getRoom roomId
               (snd (routePatchRoomStatus roomId roomStatus
                       (snd (routePatchBooking bookingId
                               (bookingStatusOnly bookingStatus) s))))
             = Some r'
             /\ Room.status r' = roomStatus)
    /\ (getRoom roomId s = None ->
        fst (routePatchRoomStatus roomId roomStatus
               (snd (routePatchBooking bookingId
                       (bookingStatusOnly bookingStatus) s)))
        = Message 500 "Room not found"
        /\ getRooms
             (snd (routePatchRoomStatus roomId roomStatus
                     (snd (routePatchBooking bookingId
                             (bookingStatusOnly bookingStatus) s))))
           = getRooms s).
Proof.
  intros bookingId roomId bookingStatus roomStatus s.
  unfold routePatchRoomStatus, routePatchBooking, updateRoomStatus.
  rewrite !snd_respond.
  destruct (updateRoom_updateBooking_commute roomId bookingId
              (statusOnly roomStatus) (bookingStatusOnly bookingStatus) s)
    as (Hs & Hr & Hb).
  split; [exact Hs|].
  split; [now apply fst_respond|].
  split; [now apply fst_respond|].
  split; [|split].
  - intros booking Hget. rewrite Hs.
    unfold getBooking in *. unfold updateBooking at 1.
    assert (Hsame : bookings (snd (updateRoom roomId (statusOnly roomStatus) s))
                    = bookings s).
    { unfold updateRoom. now destruct (JsMap.get roomId (rooms s)). }
    rewrite Hsame, Hget. simpl.
    eexists. split; [apply JsMapFacts.get_set_eq|]. split; reflexivity.
  - intros room Hget. unfold getRoom in *. unfold updateRoom at 1.
    assert (Hsame : rooms (snd (updateBooking bookingId
                                  (bookingStatusOnly bookingStatus) s))
                    = rooms s).
    { unfold updateBooking. now destruct (JsMap.get bookingId (bookings s)). }
    rewrite Hsame, Hget. simpl.
    eexists. split; [apply JsMapFacts.get_set_eq|]. reflexivity.
  - intros Hnone. unfold getRoom, getRooms in *.
    assert (Hsame : rooms (snd (updateBooking bookingId
                                  (bookingStatusOnly bookingStatus) s))
                    = rooms s).
    { unfold updateBooking. now destruct (JsMap.get bookingId (bookings s)). }
    unfold updateRoom. rewrite Hsame, Hnone. simpl. now rewrite Hsame.
Qed.

Lemma check_in_requests_commute_witness :
  getBooking "b-1" Sample.store = Some Sample.booking1
  /\ (exists b',
         getBooking "b-1"
           (snd (routePatchRoomStatus "r-404" "occupied"
                   (snd (routePatchBooking "b-1"
                           (bookingStatusOnly "checked_in") Sample.store))))
         = Some b'
         /\ Booking.status b' = "checked_in"
         /\ Booking.roomId b' = "r-101")
  /\ getRoom "r-404" Sample.store = None
  /\ fst (routePatchRoomStatus "r-404" "occupied"
            (snd (routePatchBooking "b-1" (bookingStatusOnly "checked_in")
                    Sample.store)))
     = Message 500 "Room not found".
Proof.
  pose proof (check_in_requests_commute "b-1" "r-404" "checked_in" "occupied"
                Sample.store) as (_ & _ & _ & Hb & _ & Hn).
  split; [reflexivity|].
  split; [exact (Hb Sample.booking1 eq_refl)|].
  split; [reflexivity|].
  exact (proj1 (Hn eq_refl)).
Defined.

(** X11.  For an id that is not stored, [GET /api/rooms/:id] answers 404
    and [PATCH /api/rooms/:id] answers 500, both with the message "Room not
    found", and the patch leaves the store as it was.  For a stored id both
    answer 200, and a [GET] after the patch answers with the room the patch
    sent.  The same holds for guests and bookings with their messages, and
    the patches of staff and of maintenance requests answer 500 with their
    messages for an id that is not stored. *)
Theorem routes_answer_404_on_get_and_500_on_patch :
  (forall id body s,
      (getRoom id s = None ->
       routeGetRoom id s = Message 404 "Room not found"
       /\ routePatchRoom id body s = (Message 500 "Room not found", s))
      /\ (forall room,
             getRoom id s = Some room ->
             routeGetRoom id s = Body 200 room
             /\ exists r',
                 fst (routePatchRoom id body s) = Body 200 r'
                 /\ routeGetRoom id (snd (routePatchRoom id body s))
                    = Body 200 r'))
  /\ (forall id body s,
         (getGuest id s = None ->
          routeGetGuest id s = Message 404 "Guest not found"
          /\ routePatchGuest id body s = (Message 500 "Guest not found", s))
         /\ (forall guest,
                getGuest id s = Some guest ->
                routeGetGuest id s = Body 200 guest
                /\ exists g',
                    fst (routePatchGuest id body s) = Body 200 g'
                    /\ routeGetGuest id (snd (routePatchGuest id body s))
                       = Body 200 g'))
  /\ (forall id body s,
         (getBooking id s = None ->
          routeGetBooking id s = Message 404 "Booking not found"
          /\ routePatchBooking id body s
             = (Message 500 "Booking not found", s))
         /\ (forall booking,
                getBooking id s = Some booking ->
                routeGetBooking id s = Body 200 booking
                /\ exists b',
                    fst (routePatchBooking id body s) = Body 200 b'
                    /\ routeGetBooking id (snd (routePatchBooking id body s))
                       = Body 200 b'))
  /\ (forall id body s,
         getStaffMember id s = None ->
         routePatchStaff id body s = (Message 500 "Staff member not found", s))
  /\ (forall id body s,
         getMaintenanceRequest id s = None ->
         routePatchMaintenance id body s
         = (Message 500 "Maintenance request not found", s)).
Proof.
  split; [|split; [|split; [|split]]].
  - intros id body s. unfold routeGetRoom, routePatchRoom, updateRoom, getRoom.
    split.
    + intros Hnone. now rewrite Hnone.
    + intros room Hget. rewrite Hget; simpl. split; [reflexivity|].
      eexists. split; [reflexivity|]. now rewrite JsMapFacts.get_set_eq.
  - intros id body s.
    unfold routeGetGuest, routePatchGuest, updateGuest, getGuest.
    split.
    + intros Hnone. now rewrite Hnone.
    + intros guest Hget. rewrite Hget; simpl. split; [reflexivity|].
      eexists. split; [reflexivity|]. now rewrite JsMapFacts.get_set_eq.
  - intros id body s.
    unfold routeGetBooking, routePatchBooking, updateBooking, getBooking.
    split.
    + intros Hnone. now rewrite Hnone.
    + intros booking Hget. rewrite Hget; simpl. split; [reflexivity|].
      eexists. split; [reflexivity|]. now rewrite JsMapFacts.get_set_eq.
  - intros id body s Hnone.
    unfold routePatchStaff, updateStaffMember, getStaffMember in *.
    now rewrite Hnone.
  - intros id body s Hnone.
    unfold routePatchMaintenance, updateMaintenanceRequest,
      getMaintenanceRequest in *.
    now rewrite Hnone.
Qed.

Lemma routes_answer_404_on_get_and_500_on_patch_witness :
  getRoom "r-404" Sample.store = None
  /\ routeGetRoom "r-404" Sample.store = Message 404 "Room not found"
  /\ routePatchRoom "r-404" (statusOnly "occupied") Sample.store
     = (Message 500 "Room not found", Sample.store).
Proof.
  split; [reflexivity|].
  exact (proj1 (proj1 routes_answer_404_on_get_and_500_on_patch "r-404"
                  (statusOnly "occupied") Sample.store) eq_refl).
Defined.

(* ================================================================== *)
(** ** Settings again *)

(** X12.  In a store whose settings are each under their own id,
    [PUT /api/settings/:key] answers 200 with a setting of that key and the
    value sent, and a [GET /api/settings/:key] after it answers 200 with the
    same setting.  [GET] answers 404 "Setting not found" exactly when no
    setting has the key, as in the store of the constructor. *)
Theorem settings_put_then_get :
  forall (key : string) (value : Json) (id : string) (now : Date)
         (s : MemStorage),
    (settingsKeyedById s ->
     exists setting,
       fst (routePutSetting key value id now s) = Body 200 setting
       /\ HotelSetting.key setting = key
       /\ HotelSetting.value setting = value
       /\ routeGetSetting key (snd (routePutSetting key value id now s))
          = Body 200 setting)
    /\ (routeGetSetting key s = Message 404 "Setting not found"
        <-> forall e, In e (getHotelSettings s) -> HotelSetting.key e <> key)
    /\ (forall sample,
           routeGetSetting key (newMemStorage sample)
           = Message 404 "Setting not found").
Proof.
  intros key value id now s. split; [|split].
  - intros Hwf. unfold routePutSetting, routeGetSetting, updateHotelSetting.
    destruct (getHotelSetting key s) as [existing|] eqn:Hget; simpl.
    + assert (Hkey : HotelSetting.key existing = key).
      { rewrite getHotelSetting_find in Hget. apply find_some in Hget.
        destruct Hget as [_ Hk]. now apply String.eqb_eq in Hk. }
      eexists. split; [reflexivity|]. simpl.
      split; [assumption|]. split; [reflexivity|].
      rewrite getHotelSetting_find; simpl.
      rewrite (find_after_update key (hotelSettings s) existing); auto.
      unfold hasKey; simpl. now apply String.eqb_eq.
    + eexists. split; [reflexivity|]. simpl.
      split; [reflexivity|]. split; [reflexivity|].
      rewrite getHotelSetting_find; simpl.
      rewrite (find_after_insert key id (hotelSettings s)); auto.
      unfold hasKey; simpl. apply String.eqb_refl.
  - unfold routeGetSetting.
    assert (Hnone : getHotelSetting key s = None
                    <-> forall e, In e (getHotelSettings s) ->
                                  HotelSetting.key e <> key)
      by exact (proj1 (find_field_first HotelSetting.key (getHotelSettings s)
                         key)).
    destruct (getHotelSetting key s) as [e|].
    + split; [discriminate|]. intros H. apply Hnone in H. discriminate.
    + split; [intros _; now apply Hnone | reflexivity].
  - intros sample. unfold routeGetSetting, getHotelSetting.
    assert (Hs : forall l s0,
               hotelSettings (initializeData l s0) = hotelSettings s0).
    { unfold initializeData. induction l as [|r l IH]; intros s0; simpl;
        [reflexivity|]. now rewrite IH. }
    unfold newMemStorage. rewrite Hs. reflexivity.
Qed.

Lemma settings_put_then_get_witness :
  settingsKeyedById Sample.store
  /\ exists setting,
      fst (routePutSetting "currency" (JStr "NZD") "s-7" 1709251200000
             Sample.store) = Body 200 setting
      /\ HotelSetting.key setting = "currency"
      /\ HotelSetting.value setting = JStr "NZD"
      /\ routeGetSetting "currency"
           (snd (routePutSetting "currency" (JStr "NZD") "s-7" 1709251200000
                   Sample.store))
         = Body 200 setting.
Proof.
  split; [exact sample_settingsKeyedById|].
  exact (proj1 (settings_put_then_get "currency" (JStr "NZD") "s-7"
                  1709251200000 Sample.store) sample_settingsKeyedById).
Defined.

Lemma values_In_set {V} (k : string) (v y : V) (m : JsMap.t V) :
  In y (JsMap.values (JsMap.set k v m)) -> y = v \/ In y (JsMap.values m).
Proof.
  intros H. apply values_In in H. destruct H as [k0 H].
  apply JsMapFacts.In_set in H. destruct H as [E|H].
  - left. congruence.
  - right. unfold JsMap.values. change y with (snd (k0, y)). now apply in_map.
Qed.

(** In a map, the entry written over is the one stored under the key. *)
Lemma map_values_set_present {V B} (f : V -> B) (k : string) (v e : V)
  (m : JsMap.t V) :
  isMap m -> In (k, e) m -> f v = f e ->
  map f (JsMap.values (JsMap.set k v m)) = map f (JsMap.values m).
Proof.
  unfold isMap, JsMap.keys.
  induction m as [|[k0 x0] r IH]; simpl; intros Hnd Hin Hf; [tauto|].
  inversion Hnd as [|? ? Hnotin Hnd']; subst.
  destruct (String.eqb_spec k k0) as [->|Hk]; simpl.
  - destruct Hin as [E|Hin].
    + inversion E; subst. now rewrite Hf.
    + exfalso. apply Hnotin. change k0 with (fst (k0, e)). now apply in_map.
  - destruct Hin as [E|Hin]; [congruence|].
    f_equal. now apply IH.
Qed.

Lemma find_values_set_present {V} (g : V -> bool) (k : string) (v e : V)
  (m : JsMap.t V) :
  isMap m -> In (k, e) m -> g e = false -> g v = false ->
  find g (JsMap.values (JsMap.set k v m)) = find g (JsMap.values m).
Proof.
  unfold isMap, JsMap.keys.
  induction m as [|[k0 x0] r IH]; simpl; intros Hnd Hin He Hv; [tauto|].
  inversion Hnd as [|? ? Hnotin Hnd']; subst.
  destruct (String.eqb_spec k k0) as [->|Hk]; simpl.
  - destruct Hin as [E|Hin].
    + inversion E; subst. now rewrite He, Hv.
    + exfalso. apply Hnotin. change k0 with (fst (k0, e)). now apply in_map.
  - destruct Hin as [E|Hin]; [congruence|].
    destruct (g x0); [reflexivity|]. now apply IH.
Qed.

Lemma NoDup_map_values_set {V B} (f : V -> B) (k : string) (v : V)
  (m : JsMap.t V) :
  NoDup (map f (JsMap.values m)) ->
  (forall e, In e (JsMap.values m) -> f e <> f v) ->
  NoDup (map f (JsMap.values (JsMap.set k v m))).
Proof.
  induction m as [|[k0 x0] r IH]; simpl; intros Hnd Hne.
  - repeat constructor. tauto.
  - inversion Hnd as [|? ? Hnotin Hnd']; subst.
    destruct (String.eqb k k0); simpl; constructor.
    + intros Hin. apply in_map_iff in Hin. destruct Hin as (y & Hy & Hin).
      apply (Hne y); [now right | assumption].
    + assumption.
    + intros Hin. apply in_map_iff in Hin. destruct Hin as (y & Hy & Hin).
      apply values_In_set in Hin. destruct Hin as [->|Hin].
      * apply (Hne x0); [now left | now symmetry].
      * apply Hnotin. rewrite <- Hy. now apply in_map.
    + apply IH; [assumption|]. intros e He. apply Hne. now right.
Qed.

Lemma find_snoc_miss {A} (g : A -> bool) (l : list A) (x : A) :
  g x = false -> find g (l ++ [x]) = find g l.
Proof.
  intros Hx. induction l as [|a r IH]; simpl.
  - now rewrite Hx.
  - now destruct (g a).
Qed.

(** X13.  [updateHotelSetting] keeps the settings well formed: a map, each
    setting under its own id, and no two settings with the same key.  The
    store of the constructor, which has no settings, is well formed.  When
    the key exists, or the generated id is new, the setting of every other
    key is what it was. *)
Theorem settings_keys_stay_unique :
  forall (key : string) (value : Json) (id : string) (now : Date)
         (s : MemStorage),
    (forall sample, settingsWellFormed (newMemStorage sample))
    /\ (settingsWellFormed s ->
        settingsWellFormed (snd (updateHotelSetting key value id now s))
        /\ (getHotelSetting key s <> None
            \/ JsMap.get id (hotelSettings s) = None ->
            forall other,
              other <> key ->
              getHotelSetting other (snd (updateHotelSetting key value id now s))
              = getHotelSetting other s)).
Proof.
  intros key value id now s. split.
  - intros sample.
    assert (Hs : forall l s0,
               hotelSettings (initializeData l s0) = hotelSettings s0).
    { unfold initializeData. induction l as [|r l IH]; intros s0; simpl;
        [reflexivity|]. now rewrite IH. }
    unfold settingsWellFormed, getHotelSettings, newMemStorage.
    rewrite Hs. simpl. repeat split; try constructor. intros k e [].
  - intros (Hmap & Hkeyed & Hkeys).
    unfold updateHotelSetting.
    destruct (getHotelSetting key s) as [existing|] eqn:Hget; simpl.
    + rewrite getHotelSetting_find in Hget.
      pose proof (find_some _ _ Hget) as [Hin Hk].
      apply values_In in Hin. destruct Hin as [k0 Hin].
      pose proof (Hkeyed _ _ Hin) as Hid. subst k0.
      split.
      * unfold settingsWellFormed, getHotelSettings; simpl.
        split; [now apply JsMapMore.isMap_set|].
        split; [now apply keyedById_set|].
        now rewrite (map_values_set_present HotelSetting.key _ _ existing).
      * intros _ other Hother. rewrite !getHotelSetting_find; simpl.
        apply (find_values_set_present _ _ _ existing); auto.
        -- unfold hasKey. apply String.eqb_eq in Hk. rewrite Hk.
           now apply String.eqb_neq.
        -- unfold hasKey; simpl. apply String.eqb_eq in Hk. rewrite Hk.
           now apply String.eqb_neq.
    + rewrite getHotelSetting_find in Hget.
      split.
      * unfold settingsWellFormed, getHotelSettings; simpl.
        split; [now apply JsMapMore.isMap_set|].
        split; [now apply keyedById_set|].
        apply NoDup_map_values_set; [assumption|].
        intros e He. simpl.
        pose proof (find_none _ _ Hget e He) as Hne.
        now apply String.eqb_neq in Hne.
      * intros [Habs|Hfresh] other Hother; [congruence|].
        rewrite !getHotelSetting_find; simpl.
        rewrite (JsMapMore.values_set_absent _ _ _ Hfresh).
        apply find_snoc_miss. unfold hasKey; simpl.
        apply String.eqb_neq. congruence.
Qed.

Lemma sample_settingsWellFormed : settingsWellFormed Sample.store.
Proof.
  split; [|split].
  - repeat constructor. simpl. tauto.
  - exact sample_settingsKeyedById.
  - repeat constructor. simpl. tauto.
Defined.

Lemma settings_keys_stay_unique_witness :
  settingsWellFormed Sample.store
  /\ settingsWellFormed
       (snd (updateHotelSetting "timezone" (JStr "Australia/Sydney") "s-2"
               1709251200000 Sample.store))
  /\ getHotelSetting "currency"
       (snd (updateHotelSetting "timezone" (JStr "Australia/Sydney") "s-2"
               1709251200000 Sample.store))
     = Some Sample.setting1.
Proof.
  destruct (proj2 (settings_keys_stay_unique "timezone"
                     (JStr "Australia/Sydney") "s-2" 1709251200000 Sample.store)
              sample_settingsWellFormed) as [Hwf Hframe].
  split; [exact sample_settingsWellFormed|]. split; [exact Hwf|].
  rewrite (Hframe (or_intror eq_refl) "currency"); [reflexivity|discriminate].
Defined.

(* ================================================================== *)
(** ** Binary64 results that are numbers *)

Lemma shr_1_nonneg (mrs : shr_record) : 0 <= shr_m mrs -> 0 <= shr_m (shr_1 mrs).
Proof.
  destruct mrs as [m r s]; simpl. destruct m as [|p|p]; simpl; try lia.
  - destruct p; simpl; lia.
Qed.

Lemma iter_pos_keeps {A} (P : A -> Prop) (f : A -> A) :
  (forall x, P x -> P (f x)) -> forall p x, P x -> P (iter_pos f p x).
Proof.
  intros Hf. induction p as [p IH|p IH|]; intros x Hx; simpl; auto.
Qed.

Lemma shr_nonneg (mrs : shr_record) (e n : Z) :
  0 <= shr_m mrs -> 0 <= shr_m (fst (shr mrs e n)).
Proof.
  intros H. unfold shr. destruct n; simpl; auto.
  apply (iter_pos_keeps (fun x => 0 <= shr_m x)); auto using shr_1_nonneg.
Qed.

Lemma shr_fexp_nonneg (m e : Z) (l : location) :
  0 <= m -> 0 <= shr_m (fst (shr_fexp JsNumber.prec JsNumber.emax m e l)).
Proof.
  intros H. unfold shr_fexp. apply shr_nonneg.
  destruct l as [|[| |]]; simpl; assumption.
Qed.

Lemma round_nearest_even_nonneg (m : Z) (l : location) :
  0 <= m -> 0 <= round_nearest_even m l.
Proof.
  intros H. unfold round_nearest_even. destruct l as [|[| |]]; try lia.
  destruct (Z.even m); lia.
Qed.

Lemma binary_round_aux_not_nan (s : bool) (mx ex : Z) (lx : location) :
  0 <= mx -> binary_round_aux JsNumber.prec JsNumber.emax s mx ex lx <> S754_nan.
Proof.
  intros H. unfold binary_round_aux.
  pose proof (shr_fexp_nonneg mx ex lx H) as H1.
  destruct (shr_fexp JsNumber.prec JsNumber.emax mx ex lx) as [mrs' e'].
  simpl in H1.
  pose proof (shr_fexp_nonneg (round_nearest_even (shr_m mrs') (loc_of_shr_record mrs')) e' loc_Exact
                (round_nearest_even_nonneg _ _ H1)) as H2.
  destruct (shr_fexp JsNumber.prec JsNumber.emax _ e' loc_Exact) as [mrs'' e''].
  simpl in H2.
  destruct (shr_m mrs'') as [|p|p]; try discriminate.
  - destruct (e'' <=? JsNumber.emax - JsNumber.prec); discriminate.
  - lia.
Qed.

Lemma digits2_lower (p : positive) : 2 ^ (Z.pos (digits2_pos p) - 1) <= Z.pos p.
Proof.
  induction p as [p IH|p IH|]; simpl digits2_pos.
  - rewrite Pos2Z.inj_succ. replace (Z.succ (Z.pos (digits2_pos p)) - 1) with (Z.succ (Z.pos (digits2_pos p) - 1)) by lia.
    rewrite Z.pow_succ_r by lia. lia.
  - rewrite Pos2Z.inj_succ. replace (Z.succ (Z.pos (digits2_pos p)) - 1) with (Z.succ (Z.pos (digits2_pos p) - 1)) by lia.
    rewrite Z.pow_succ_r by lia. lia.
  - simpl. lia.
Qed.

Lemma digits2_iter_xO (p k : positive) :
  digits2_pos (Pos.iter xO p k) = (digits2_pos p + k)%positive.
Proof.
  induction k as [|k IH] using Pos.peano_ind.
  - simpl. lia.
  - rewrite Pos.iter_succ. simpl. rewrite IH. lia.
Qed.

Lemma of_int_finite (n : Z) :
  0 < n < 2 ^ 53 -> exists m e, JsNumber.of_int n = S754_finite false m e.
Proof.
  intros [Hpos Hlt]. destruct n as [|p|p]; try lia.
  unfold JsNumber.of_int, binary_normalize, binary_round.
  pose proof (digits2_lower p) as Hd.
  assert (Hd1 : 1 <= Z.pos (digits2_pos p)) by lia.
  remember (Z.pos (digits2_pos p)) as d eqn:Ed.
  assert (Hd53 : d <= 53).
  { destruct (Z_le_gt_dec d 53); [assumption|].
    assert (2 ^ 53 <= 2 ^ (d - 1)) by (apply Z.pow_le_mono_r; lia). lia. }
  assert (Hfexp : fexp JsNumber.prec JsNumber.emax (d + 0) = d - 53).
  { unfold fexp, emin, JsNumber.prec, JsNumber.emax. lia. }
  rewrite Hfexp.
  assert (Hal : exists mz, shl_align p 0 (d - 53) = (mz, d - 53)
                           /\ Z.pos (digits2_pos mz) = 53).
  { unfold shl_align. destruct (d - 53 - 0) as [|q|q] eqn:Hq; try lia.
    - exists p. split; [f_equal; lia | lia].
    - exists (Pos.iter xO p q). split; [reflexivity|].
      rewrite digits2_iter_xO. rewrite Pos2Z.inj_add. lia. }
  destruct Hal as (mz & -> & Hmz).
  unfold binary_round_aux.
  assert (Hshr : shr_fexp JsNumber.prec JsNumber.emax (Z.pos mz) (d - 53) loc_Exact
                 = (Build_shr_record (Z.pos mz) false false, d - 53)).
  { unfold shr_fexp. cbn [Zdigits2]. rewrite Hmz.
    replace (fexp JsNumber.prec JsNumber.emax (53 + (d - 53)) - (d - 53)) with 0
      by (unfold fexp, emin, JsNumber.prec, JsNumber.emax; lia).
    reflexivity. }
  rewrite Hshr.
  cbn [shr_m loc_of_shr_record round_nearest_even].
  rewrite Hshr. cbn [shr_m].
  replace (d - 53 <=? JsNumber.emax - JsNumber.prec) with true
    by (symmetry; apply Z.leb_le; unfold JsNumber.emax, JsNumber.prec; lia).
  do 2 eexists; reflexivity.
Qed.


Lemma binary_normalize_not_nan (n e : Z) (s : bool) :
  binary_normalize JsNumber.prec JsNumber.emax n e s <> S754_nan.
Proof.
  unfold binary_normalize, binary_round. destruct n as [|p|p].
  - discriminate.
  - destruct (shl_align p e _) as [mz ez]. now apply binary_round_aux_not_nan.
  - destruct (shl_align p e _) as [mz ez]. now apply binary_round_aux_not_nan.
Qed.

Lemma div_by_finite_not_nan (x : JsNumber.number) (m : positive) (e : Z) :
  x <> S754_nan -> JsNumber.div x (S754_finite false m e) <> S754_nan.
Proof.
  intros Hx. unfold JsNumber.div, SFdiv.
  destruct x as [sx|sx| |sx mx ex]; try discriminate; [congruence|].
  unfold SFdiv_core_binary.
  set (m' := match _ with Z.pos _ => _ | _ => _ end).
  assert (Hm' : 0 <= m').
  { unfold m'. destruct (_ - _ - _) as [|q|q]; try lia.
    apply Z.shiftl_nonneg. lia. }
  pose proof (Z.div_pos m' (Z.pos m) Hm' eq_refl) as Hq.
  unfold Z.div in Hq.
  destruct (Z.div_eucl m' (Z.pos m)) as [q r].
  now apply binary_round_aux_not_nan.
Qed.

Lemma mul_by_finite_not_nan (x : JsNumber.number) (m : positive) (e : Z) :
  x <> S754_nan -> JsNumber.mul x (S754_finite false m e) <> S754_nan.
Proof.
  intros Hx. unfold JsNumber.mul, SFmul.
  destruct x as [sx|sx| |sx mx ex]; try discriminate; [congruence|].
  apply binary_round_aux_not_nan. lia.
Qed.

Lemma Math_round_not_nan (x : JsNumber.number) :
  x <> S754_nan -> JsNumber.Math_round x <> S754_nan.
Proof.
  intros Hx. unfold JsNumber.Math_round.
  destruct x as [sx|sx| |sx mx ex]; try assumption.
  destruct (0 <=? ex); [assumption|]. apply binary_normalize_not_nan.
Qed.

(** With a total that is positive and below 2^53 the rate is a number. *)
Lemma rateOf_not_nan (occupied total : Z) :
  0 < total < 2 ^ 53 -> rateOf occupied total <> S754_nan.
Proof.
  intros Ht. unfold rateOf.
  destruct (of_int_finite total Ht) as (mt & et & ->).
  destruct (of_int_finite 100 ltac:(lia)) as (mh & eh & ->).
  apply Math_round_not_nan, mul_by_finite_not_nan, div_by_finite_not_nan.
  apply binary_normalize_not_nan.
Qed.

(* ================================================================== *)
(** ** The dashboard again *)

(** X14.  The occupancy rate of the dashboard is NaN exactly when the store
    has no rooms, for every store with fewer than 2^53 rooms. *)
Theorem occupancyRate_nan_iff_no_rooms :
  forall (LocalTZA : Z -> bool -> Z) (now1 now : Date) (s : MemStorage),
    count (getRooms s) < 2 ^ 53 ->
    (occupancyRate (dashboardMetrics LocalTZA now1 now s) = JsNumber.NaN
     <-> getRooms s = []).
Proof.
  intros LocalTZA now1 now s Hlt.
  destruct (occupancyRate_unfold LocalTZA now1 now s) as (-> & -> & ->).
  split.
  - intros Hnan. destruct (getRooms s) as [|r l] eqn:Hl; [reflexivity|].
    exfalso. revert Hnan. apply rateOf_not_nan.
    split; [|exact Hlt]. unfold count. simpl List.length. lia.
  - intros ->. reflexivity.
Qed.

Lemma occupancyRate_nan_iff_no_rooms_witness :
  count (getRooms Sample.store) < 2 ^ 53
  /\ (occupancyRate
        (dashboardMetrics Sample.utc Sample.midnight Sample.midnight Sample.store)
      = JsNumber.NaN
      <-> getRooms Sample.store = []).
Proof.
  assert (H : count (getRooms Sample.store) < 2 ^ 53) by reflexivity.
  split; [exact H|].
  exact (occupancyRate_nan_iff_no_rooms Sample.utc Sample.midnight
           Sample.midnight Sample.store H).
Defined.

Lemma count_set_ge {V} (k : string) (v : V) (m : JsMap.t V) :
  count (JsMap.values m) <= count (JsMap.values (JsMap.set k v m)).
Proof.
  unfold count. rewrite !JsMapMore.values_length.
  apply Nat2Z.inj_le, JsMapMore.length_set_ge.
Qed.

Lemma noneRemoved_refl (s : MemStorage) : noneRemoved s s.
Proof. unfold noneRemoved. repeat split; lia. Qed.

Lemma noneRemoved_trans (s1 s2 s3 : MemStorage) :
  noneRemoved s1 s2 -> noneRemoved s2 s3 -> noneRemoved s1 s3.
Proof. unfold noneRemoved. intros H1 H2. repeat split; lia. Qed.

Ltac none_removed coll :=
  match goal with
  | |- context [JsMap.get ?id (coll ?s)] =>
      destruct (JsMap.get id (coll s)); simpl
  | _ => simpl
  end;
  unfold noneRemoved, getRooms, getGuests, getBookings, getStaff,
    getMaintenanceRequests, getPayments; simpl;
  repeat (apply conj); solve [lia | apply count_set_ge].

Lemma perform_noneRemoved (c : Call) (s : MemStorage) :
  noneRemoved s (perform c s).
Proof.
  destruct c; simpl.
  - none_removed rooms.
  - unfold updateRoom. none_removed rooms.
  - none_removed guests.
  - unfold updateGuest. none_removed guests.
  - none_removed bookings.
  - unfold updateBooking. none_removed bookings.
  - none_removed staff.
  - unfold updateStaffMember. none_removed staff.
  - none_removed maintenanceRequests.
  - unfold updateMaintenanceRequest. none_removed maintenanceRequests.
  - none_removed payments.
  - unfold updatePayment. none_removed payments.
Qed.

Lemma performAll_noneRemoved (cs : list Call) (s : MemStorage) :
  noneRemoved s (performAll cs s).
Proof.
  unfold performAll. revert s.
  induction cs as [|c cs IH]; intros s; simpl.
  - apply noneRemoved_refl.
  - eapply noneRemoved_trans; [apply perform_noneRemoved | apply IH].
Qed.

Lemma initializeData_rooms (sample : list Room.t) (s : MemStorage) :
  count (getRooms s) <= count (getRooms (initializeData sample s))
  /\ (sample <> [] -> 1 <= count (getRooms (initializeData sample s))).
Proof.
  unfold initializeData. revert s.
  induction sample as [|room rest IH]; intros s; simpl.
  - split; [lia|congruence].
  - destruct (IH (with_rooms s (JsMap.set (Room.id room) room (rooms s))))
      as [Hle _].
    assert (Hset : count (getRooms s)
                   <= count (getRooms
                               (with_rooms s
                                  (JsMap.set (Room.id room) room (rooms s)))))
      by apply count_set_ge.
    assert (Hone : 1 <= count (getRooms
                                 (with_rooms s
                                    (JsMap.set (Room.id room) room (rooms s))))).
    { unfold count, getRooms; simpl. rewrite JsMapMore.values_length.
      destruct (rooms s) as [|[k v] r]; simpl.
      - lia.
      - destruct (String.eqb (Room.id room) k); simpl; lia. }
    split; [lia|]. intros _. lia.
Qed.

(** X15.  No creation and no update removes an entity: through any sequence
    of calls none of the six lists gets shorter.  So every store that the
    calls reach from the store of the constructor has a room, and its
    occupancy rate is a number as long as it has fewer than 2^53 rooms. *)
Theorem rooms_are_never_removed :
  forall (cs : list Call) (s : MemStorage),
    noneRemoved s (performAll cs s)
    /\ forall (u1 u2 u3 u4 u5 : string) (d1 d2 d3 d4 d5 : Date)
              (LocalTZA : Z -> bool -> Z) (now1 now : Date),
        1 <= totalRooms
               (dashboardMetrics LocalTZA now1 now
                  (performAll cs
                     (newMemStorage
                        (sampleRooms u1 u2 u3 u4 u5 d1 d2 d3 d4 d5))))
        /\ (totalRooms
              (dashboardMetrics LocalTZA now1 now
                 (performAll cs
                    (newMemStorage
                       (sampleRooms u1 u2 u3 u4 u5 d1 d2 d3 d4 d5))))
            < 2 ^ 53 ->
            occupancyRate
              (dashboardMetrics LocalTZA now1 now
                 (performAll cs
                    (newMemStorage
                       (sampleRooms u1 u2 u3 u4 u5 d1 d2 d3 d4 d5))))
            <> JsNumber.NaN).
Proof.
  intros cs s. split; [apply performAll_noneRemoved|].
  intros u1 u2 u3 u4 u5 d1 d2 d3 d4 d5 LocalTZA now1 now.
  set (s0 := newMemStorage (sampleRooms u1 u2 u3 u4 u5 d1 d2 d3 d4 d5)).
  assert (H0 : 1 <= count (getRooms s0)).
  { apply (initializeData_rooms (sampleRooms u1 u2 u3 u4 u5 d1 d2 d3 d4 d5)
             emptyStorage). discriminate. }
  destruct (performAll_noneRemoved cs s0) as (Hr & _).
  destruct (occupancyRate_unfold LocalTZA now1 now (performAll cs s0))
    as (-> & -> & ->).
  split; [lia|]. intros Hlt. apply rateOf_not_nan. lia.
Qed.

Lemma rooms_are_never_removed_witness :
  totalRooms
    (dashboardMetrics Sample.utc Sample.midnight Sample.midnight
       (performAll [CallUpdateRoom "uuid-2" (statusOnly "available")]
          (newMemStorage
             (sampleRooms "uuid-1" "uuid-2" "uuid-3" "uuid-4" "uuid-5"
                0 0 0 0 0))))
  < 2 ^ 53
  /\ occupancyRate
       (dashboardMetrics Sample.utc Sample.midnight Sample.midnight
          (performAll [CallUpdateRoom "uuid-2" (statusOnly "available")]
             (newMemStorage
                (sampleRooms "uuid-1" "uuid-2" "uuid-3" "uuid-4" "uuid-5"
                   0 0 0 0 0))))
     <> JsNumber.NaN.
Proof.
  assert (H : totalRooms
                (dashboardMetrics Sample.utc Sample.midnight Sample.midnight
                   (performAll [CallUpdateRoom "uuid-2" (statusOnly "available")]
                      (newMemStorage
                         (sampleRooms "uuid-1" "uuid-2" "uuid-3" "uuid-4"
                            "uuid-5" 0 0 0 0 0))))
              < 2 ^ 53) by reflexivity.
  split; [exact H|].
  exact (proj2 (proj2 (rooms_are_never_removed
                         [CallUpdateRoom "uuid-2" (statusOnly "available")]
                         emptyStorage)
                  "uuid-1" "uuid-2" "uuid-3" "uuid-4" "uuid-5" 0 0 0 0 0
                  Sample.utc Sample.midnight Sample.midnight) H).
Defined.


Lemma room_counts_bound (l : list Room.t) :
  count (roomsWithStatus "occupied" l) + count (roomsWithStatus "available" l)
  + count (roomsWithStatus "maintenance" l) <= count l
  /\ (count (roomsWithStatus "occupied" l)
      + count (roomsWithStatus "available" l)
      + count (roomsWithStatus "maintenance" l) = count l
      <-> forall room, In room l -> countedRoomStatus (Room.status room)).
Proof.
  unfold roomsWithStatus, count.
  induction l as [|r l [IHle IHeq]].
  - split; [reflexivity|]. split; [intros _ room []|reflexivity].
  - simpl filter.
    destruct (String.eqb_spec (Room.status r) "occupied") as [E1|N1];
      destruct (String.eqb_spec (Room.status r) "available") as [E2|N2];
      destruct (String.eqb_spec (Room.status r) "maintenance") as [E3|N3];
      try (rewrite E1 in *; discriminate);
      try (rewrite E2 in *; discriminate);
      simpl List.length; rewrite ?Nat2Z.inj_succ.
    + split; [lia|]. split.
      * intros Heq room [<-|Hin]; [now left|]. apply IHeq; [lia|assumption].
      * intros H.
        assert (Hl : forall room, In room l ->
                       countedRoomStatus (Room.status room))
          by (intros room Hin; apply H; now right).
        apply IHeq in Hl. lia.
    + split; [lia|]. split.
      * intros Heq room [<-|Hin]; [right; now left|].
        apply IHeq; [lia|assumption].
      * intros H.
        assert (Hl : forall room, In room l ->
                       countedRoomStatus (Room.status room))
          by (intros room Hin; apply H; now right).
        apply IHeq in Hl. lia.
    + split; [lia|]. split.
      * intros Heq room [<-|Hin]; [right; now right|].
        apply IHeq; [lia|assumption].
      * intros H.
        assert (Hl : forall room, In room l ->
                       countedRoomStatus (Room.status room))
          by (intros room Hin; apply H; now right).
        apply IHeq in Hl. lia.
    + split; [lia|]. split.
      * intros Heq. lia.
      * intros H. destruct (H r (or_introl eq_refl)) as [E|[E|E]];
          contradiction.
Qed.

(** X16.  On the dashboard the occupied, available and maintenance rooms
    together are at most the total, and they add up to the total exactly
    when every room has one of these three statuses. *)
Theorem dashboard_room_counts_partition :
  forall (LocalTZA : Z -> bool -> Z) (now1 now : Date) (s : MemStorage),
    occupiedRooms (dashboardMetrics LocalTZA now1 now s)
    + availableRooms (dashboardMetrics LocalTZA now1 now s)
    + maintenanceRooms (dashboardMetrics LocalTZA now1 now s)
    <= totalRooms (dashboardMetrics LocalTZA now1 now s)
    /\ (occupiedRooms (dashboardMetrics LocalTZA now1 now s)
        + availableRooms (dashboardMetrics LocalTZA now1 now s)
        + maintenanceRooms (dashboardMetrics LocalTZA now1 now s)
        = totalRooms (dashboardMetrics LocalTZA now1 now s)
        <-> forall room, In room (getRooms s) ->
              countedRoomStatus (Room.status room)).
Proof. intros LocalTZA now1 now s. exact (room_counts_bound (getRooms s)). Qed.

Lemma add_nan_r (x : JsNumber.number) :
  JsNumber.add x JsNumber.NaN = JsNumber.NaN.
Proof. now destruct x. Qed.

Lemma sum_from_nan (l : list Booking.t) :
  fold_left
    (fun sum booking =>
       JsNumber.add sum (JsNumber.parseFloat (Booking.totalAmount booking)))
    l JsNumber.NaN = JsNumber.NaN.
Proof. induction l as [|b r IH]; simpl; [reflexivity|exact IH]. Qed.

(** One amount that is no number makes the whole sum NaN. *)
Lemma sum_absorbs_nan (l : list Booking.t) (b : Booking.t)
  (acc : JsNumber.number) :
  In b l ->
  JsNumber.parseFloat (Booking.totalAmount b) = JsNumber.NaN ->
  fold_left
    (fun sum booking =>
       JsNumber.add sum (JsNumber.parseFloat (Booking.totalAmount booking)))
    l acc = JsNumber.NaN.
Proof.
  intros Hin Hnan. revert acc.
  induction l as [|a r IH]; intros acc; [destruct Hin|].
  destruct Hin as [->|Hin]; simpl.
  - rewrite Hnan, add_nan_r. apply sum_from_nan.
  - now apply IH.
Qed.

(** X17.  When a booking that checks in today has a [totalAmount] that
    [parseFloat] cannot read, the revenue of the dashboard is the string
    NaN, whatever the other bookings are. *)
Theorem revenue_is_NaN_on_unreadable_amount :
  forall (LocalTZA : Z -> bool -> Z) (now1 now : Date) (s : MemStorage)
         (b : Booking.t),
    In b (getBookings s) ->
    setHours0 LocalTZA (Booking.checkIn b) = setHours0 LocalTZA now ->
    JsNumber.parseFloat (Booking.totalAmount b) = JsNumber.NaN ->
    revenue (dashboardMetrics LocalTZA now1 now s) = "NaN".
Proof.
  intros LocalTZA now1 now s b Hin Hday Hnan.
  unfold dashboardMetrics; simpl. unfold sumRevenue.
  rewrite (sum_absorbs_nan _ b); [reflexivity| |exact Hnan].
  apply todaysBookings_In. now split.
Qed.

Lemma revenue_is_NaN_on_unreadable_amount_witness :
  revenue
    (dashboardMetrics Sample.utc Sample.midnight Sample.midnight unpricedStore)
  = "NaN".
Proof.
  apply (revenue_is_NaN_on_unreadable_amount Sample.utc Sample.midnight
           Sample.midnight unpricedStore unpricedBooking).
  - right; left; reflexivity.
  - reflexivity.
  - reflexivity.
Defined.

(** X18.  When no stored booking checks in on the local day of the clock,
    the revenue of the dashboard is 0.00. *)
Theorem revenue_is_zero_without_arrivals :
  forall (LocalTZA : Z -> bool -> Z) (now1 now : Date) (s : MemStorage),
    (forall b, In b (getBookings s) ->
       setHours0 LocalTZA (Booking.checkIn b) <> setHours0 LocalTZA now) ->
    revenue (dashboardMetrics LocalTZA now1 now s) = "0.00".
Proof.
  intros LocalTZA now1 now s Hnone.
  unfold dashboardMetrics; simpl. unfold todaysBookings.
  rewrite filter_none; [reflexivity|].
  intros b Hb. apply Z.eqb_neq. now apply Hnone.
Qed.

Lemma revenue_is_zero_without_arrivals_witness :
  revenue
    (dashboardMetrics Sample.utc Sample.midnight
       (Sample.midnight + 30 * msPerDay) unpricedStore)
  = "0.00".
Proof.
  apply (revenue_is_zero_without_arrivals Sample.utc Sample.midnight
           (Sample.midnight + 30 * msPerDay) unpricedStore).
  intros b [<-|[<-|[]]]; vm_compute; discriminate.
Defined.

(** X19.  On a host at a fixed offset from UTC, when the two clock reads of
    the handler fall on the same local day, the bookings that
    [pendingCheckins] counts are the bookings whose amounts the revenue
    sums. *)
Theorem pendingCheckins_counts_the_bookings_summed :
  forall (offset : Z) (LocalTZA : Z -> bool -> Z) (now1 now : Date)
         (s : MemStorage),
    (forall t u, LocalTZA t u = offset) ->
    setHours0 LocalTZA now1 = setHours0 LocalTZA now ->
    getTodaysArrivals LocalTZA now1 s
    = todaysBookings LocalTZA now (getBookings s)
    /\ pendingCheckins (dashboardMetrics LocalTZA now1 now s)
       = count (todaysBookings LocalTZA now (getBookings s)).
Proof.
  intros offset LocalTZA now1 now s fixed Hday.
  assert (Heq : getTodaysArrivals LocalTZA now1 s
                = todaysBookings LocalTZA now (getBookings s)).
  { unfold getTodaysArrivals, todaysBookings, getBookings.
    rewrite Hday, (setDateNext_fixed offset LocalTZA fixed).
    apply filter_ext. intros b. apply eq_true_iff_eq.
    rewrite andb_true_iff, Z.leb_le, Z.ltb_lt, Z.eqb_eq.
    rewrite (same_day_iff offset LocalTZA fixed). tauto. }
  split; [exact Heq|].
  unfold dashboardMetrics; simpl. now rewrite Heq.
Qed.

Lemma pendingCheckins_counts_the_bookings_summed_witness :
  getTodaysArrivals Sample.utc Sample.midnight Sample.store
  = todaysBookings Sample.utc (Sample.midnight + 3600000)
      (getBookings Sample.store)
  /\ pendingCheckins
       (dashboardMetrics Sample.utc Sample.midnight
          (Sample.midnight + 3600000) Sample.store)
     = count (todaysBookings Sample.utc (Sample.midnight + 3600000)
                (getBookings Sample.store)).
Proof.
  apply (pendingCheckins_counts_the_bookings_summed 0 Sample.utc
           Sample.midnight (Sample.midnight + 3600000) Sample.store).
  - reflexivity.
  - reflexivity.
Defined.

(* ================================================================== *)
(** ** The analytics of the client *)

Lemma counts_of_fold (l : list Room.t) (c : RoomStatusCounts) :
  (forall room, In room l -> Room.status room <> "total") ->
  fold_left
    (fun counts room => bumpTotal (bumpStatus (Room.status room) counts))
    l c
  = mkCounts
      (countAvailable c + count (roomsWithStatus "available" l))
      (countOccupied c + count (roomsWithStatus "occupied" l))
      (countPending c + count (roomsWithStatus "pending" l))
      (countMaintenance c + count (roomsWithStatus "maintenance" l))
      (countTotal c + count l).
Proof.
  unfold roomsWithStatus, count. revert c.
  induction l as [|r l IH]; intros c Hno.
  - destruct c; simpl. f_equal; lia.
  - simpl fold_left. rewrite IH by (intros room Hin; apply Hno; now right).
    assert (Hr : Room.status r <> "total") by (apply Hno; now left).
    unfold bumpStatus, bumpTotal. simpl filter.
    destruct (String.eqb_spec (Room.status r) "available") as [E1|N1];
      destruct (String.eqb_spec (Room.status r) "occupied") as [E2|N2];
      destruct (String.eqb_spec (Room.status r) "pending") as [E3|N3];
      destruct (String.eqb_spec (Room.status r) "maintenance") as [E4|N4];
      destruct (String.eqb_spec (Room.status r) "total") as [E5|N5];
      try contradiction;
      try (rewrite E1 in *; discriminate);
      try (rewrite E2 in *; discriminate);
      try (rewrite E3 in *; discriminate);
      simpl; rewrite ?Zpos_P_of_succ_nat; f_equal; lia.
Qed.

(** X20.  Fed with the rooms of the store, none of which has the status
    total, the client counts what the dashboard counts, and its occupancy
    rate is the one of the dashboard, except that it is 0 when there is no
    room. *)
Theorem client_counts_agree_with_dashboard :
  forall (LocalTZA : Z -> bool -> Z) (now1 now : Date) (s : MemStorage),
    (forall room, In room (getRooms s) -> Room.status room <> "total") ->
    countTotal (getRoomStatusCounts (Some (getRooms s)))
    = totalRooms (dashboardMetrics LocalTZA now1 now s)
    /\ countOccupied (getRoomStatusCounts (Some (getRooms s)))
       = occupiedRooms (dashboardMetrics LocalTZA now1 now s)
    /\ countAvailable (getRoomStatusCounts (Some (getRooms s)))
       = availableRooms (dashboardMetrics LocalTZA now1 now s)
    /\ countMaintenance (getRoomStatusCounts (Some (getRooms s)))
       = maintenanceRooms (dashboardMetrics LocalTZA now1 now s)
    /\ calculateOccupancyRate (Some (getRooms s))
       = if totalRooms (dashboardMetrics LocalTZA now1 now s) =? 0
         then JsNumber.of_int 0
         else occupancyRate (dashboardMetrics LocalTZA now1 now s).
Proof.
  intros LocalTZA now1 now s Hno.
  unfold calculateOccupancyRate, getRoomStatusCounts.
  rewrite (counts_of_fold (getRooms s) _ Hno).
  unfold dashboardMetrics; simpl.
  repeat (apply conj); reflexivity.
Qed.

Lemma client_counts_agree_with_dashboard_witness :
  calculateOccupancyRate (Some (getRooms Sample.store))
  = if totalRooms
         (dashboardMetrics Sample.utc Sample.midnight Sample.midnight
            Sample.store) =? 0
    then JsNumber.of_int 0
    else occupancyRate
           (dashboardMetrics Sample.utc Sample.midnight Sample.midnight
              Sample.store).
Proof.
  apply (client_counts_agree_with_dashboard Sample.utc Sample.midnight
           Sample.midnight Sample.store).
  intros room [<-|[<-|[]]]; discriminate.
Defined.

Lemma total_of_fold (l : list Room.t) (c : RoomStatusCounts) :
  countTotal c + count l
  <= countTotal
       (fold_left
          (fun counts room => bumpTotal (bumpStatus (Room.status room) counts))
          l c)
  <= countTotal c + 2 * count l.
Proof.
  unfold count. revert c.
  induction l as [|r l IH]; intros c.
  - simpl. lia.
  - simpl fold_left.
    specialize (IH (bumpTotal (bumpStatus (Room.status r) c))).
    assert (Hc : countTotal c + 1
                 <= countTotal (bumpTotal (bumpStatus (Room.status r) c))
                 <= countTotal c + 2).
    { unfold bumpTotal, bumpStatus.
      repeat (destruct (String.eqb (Room.status r) _)); simpl; lia. }
    simpl List.length. rewrite Nat2Z.inj_succ. lia.
Qed.

(** X21.  The occupancy rate of the client is never NaN: it is 0 while the
    rooms are not loaded or when there is none, and a number for every list
    of fewer than 2^52 rooms, whatever their statuses. *)
Theorem calculateOccupancyRate_is_a_number :
  calculateOccupancyRate None = JsNumber.of_int 0
  /\ calculateOccupancyRate (Some []) = JsNumber.of_int 0
  /\ forall l : list Room.t,
       count l < 2 ^ 52 ->
       calculateOccupancyRate (Some l) <> JsNumber.NaN.
Proof.
  split; [reflexivity|]. split; [reflexivity|].
  intros l Hlt. unfold calculateOccupancyRate, getRoomStatusCounts.
  pose proof (total_of_fold l (mkCounts 0 0 0 0 0)) as Hb.
  change (countTotal (mkCounts 0 0 0 0 0)) with 0 in Hb.
  assert (Hpos : 0 <= count l) by (unfold count; lia).
  set (counts := fold_left _ l _) in *.
  destruct (Z.eqb_spec (countTotal counts) 0) as [E|N].
  - discriminate.
  - apply rateOf_not_nan.
    assert (H53 : 2 ^ 53 = 2 * 2 ^ 52) by reflexivity. lia.
Qed.

Lemma calculateOccupancyRate_is_a_number_witness :
  count [Sample.room101; Sample.room102] < 2 ^ 52
  /\ calculateOccupancyRate (Some [Sample.room101; Sample.room102])
     <> JsNumber.NaN.
Proof.
  assert (H : count [Sample.room101; Sample.room102] < 2 ^ 52) by reflexivity.
  split; [exact H|].
  exact (proj2 (proj2 calculateOccupancyRate_is_a_number)
           [Sample.room101; Sample.room102] H).
Defined.

Lemma listed_not_completed (status : string) :
  listedBookingStatus status -> String.eqb status "completed" = false.
Proof. intros [-> | [-> | [-> | ->]]]; reflexivity. Qed.

(** X22.  The average daily rate of the client is 0 for every list of
    bookings whose statuses are among the four that the schema lists:
    only bookings with the status completed enter it. *)
Theorem calculateADR_zero_on_listed_statuses :
  forall l : list Booking.t,
    (forall b, In b l -> listedBookingStatus (Booking.status b)) ->
    calculateADR (Some l) = JsNumber.of_int 0.
Proof.
  intros l Hl. unfold calculateADR.
  destruct (count l =? 0); [reflexivity|].
  rewrite filter_none; [reflexivity|].
  intros b Hb. apply listed_not_completed. now apply Hl.
Qed.

Lemma calculateADR_zero_on_listed_statuses_witness :
  calculateADR (Some (getBookings Sample.store)) = JsNumber.of_int 0.
Proof.
  apply (calculateADR_zero_on_listed_statuses (getBookings Sample.store)).
  intros b Hb. unfold listedBookingStatus.
  repeat (destruct Hb as [<-|Hb]; [simpl; tauto|]). destruct Hb.
Defined.


(** Replacing the value under a present key moves one unit of every count
    from the old value to the new one. *)
Lemma count_filter_set {V} (f : V -> bool) (k : string) (v old : V)
  (m : JsMap.t V) :
  JsMap.get k m = Some old ->
  count (filter f (JsMap.values (JsMap.set k v m))) + Z.b2z (f old)
  = count (filter f (JsMap.values m)) + Z.b2z (f v).
Proof.
  unfold count, JsMap.values.
  induction m as [|[k' v'] r IH]; simpl; [discriminate|].
  destruct (String.eqb k k'); simpl.
  - intros [= ->]. destruct (f v), (f old); simpl List.length;
      rewrite ?Nat2Z.inj_succ; simpl Z.b2z; lia.
  - intros Hget. specialize (IH Hget).
    destruct (f v'); simpl List.length; rewrite ?Nat2Z.inj_succ; lia.
Qed.

(** X23.  Setting the status of a stored room keeps the total of the
    dashboard and moves one room between its counters: each of the three
    counters loses one if the room had its status and gains one if the room
    gets it. *)
Theorem status_change_moves_one_room :
  forall (LocalTZA : Z -> bool -> Z) (now1 now : Date) (id status : string)
         (s : MemStorage) (room : Room.t),
    getRoom id s = Some room ->
    totalRooms
      (dashboardMetrics LocalTZA now1 now (snd (updateRoomStatus id status s)))
    = totalRooms (dashboardMetrics LocalTZA now1 now s)
    /\ occupiedRooms
         (dashboardMetrics LocalTZA now1 now
            (snd (updateRoomStatus id status s)))
       + Z.b2z (String.eqb (Room.status room) "occupied")
       = occupiedRooms (dashboardMetrics LocalTZA now1 now s)
         + Z.b2z (String.eqb status "occupied")
    /\ availableRooms
         (dashboardMetrics LocalTZA now1 now
            (snd (updateRoomStatus id status s)))
       + Z.b2z (String.eqb (Room.status room) "available")
       = availableRooms (dashboardMetrics LocalTZA now1 now s)
         + Z.b2z (String.eqb status "available")
    /\ maintenanceRooms
         (dashboardMetrics LocalTZA now1 now
            (snd (updateRoomStatus id status s)))
       + Z.b2z (String.eqb (Room.status room) "maintenance")
       = maintenanceRooms (dashboardMetrics LocalTZA now1 now s)
         + Z.b2z (String.eqb status "maintenance").
Proof.
  intros LocalTZA now1 now id status s room Hget.
  unfold getRoom in Hget.
  unfold updateRoomStatus, updateRoom. rewrite Hget.
  unfold dashboardMetrics, getRooms, roomsWithStatus; simpl.
  repeat (apply conj).
  - unfold count. rewrite !JsMapMore.values_length.
    rewrite JsMapMore.length_set_present; [reflexivity|].
    unfold JsMap.has. now rewrite Hget.
  - exact (count_filter_set
             (fun room => String.eqb (Room.status room) "occupied")
             id (spreadRoom room (statusOnly status)) room (rooms s) Hget).
  - exact (count_filter_set
             (fun room => String.eqb (Room.status room) "available")
             id (spreadRoom room (statusOnly status)) room (rooms s) Hget).
  - exact (count_filter_set
             (fun room => String.eqb (Room.status room) "maintenance")
             id (spreadRoom room (statusOnly status)) room (rooms s) Hget).
Qed.

Lemma status_change_moves_one_room_witness :
  occupiedRooms
    (dashboardMetrics Sample.utc Sample.midnight Sample.midnight
       (snd (updateRoomStatus (Room.id Sample.room101) "occupied"
               Sample.store)))
  + Z.b2z (String.eqb (Room.status Sample.room101) "occupied")
  = occupiedRooms
      (dashboardMetrics Sample.utc Sample.midnight Sample.midnight
         Sample.store)
    + Z.b2z (String.eqb "occupied" "occupied").
Proof.
  apply (status_change_moves_one_room Sample.utc Sample.midnight
           Sample.midnight (Room.id Sample.room101) "occupied" Sample.store
           Sample.room101).
  reflexivity.
Defined.


(** X24.  An update of a stored maintenance request moves at most one
    request in or out of the pending ones, on the list and on the
    dashboard: the count loses one if the request was pending and gains one
    if it is pending afterwards.  Likewise an update of a stored staff
    member and the active staff. *)
Theorem filtered_views_follow_updates :
  (forall (LocalTZA : Z -> bool -> Z) (now1 now : Date) (id : string)
          (updates : PartialMaintenanceRequest.t) (s : MemStorage)
          (request : MaintenanceRequest.t),
      getMaintenanceRequest id s = Some request ->
      count (getPendingMaintenanceRequests
               (snd (updateMaintenanceRequest id updates s)))
      + Z.b2z (String.eqb (MaintenanceRequest.status request) "pending")
      = count (getPendingMaintenanceRequests s)
        + Z.b2z (String.eqb
                   (overwrite (MaintenanceRequest.status request)
                      (PartialMaintenanceRequest.status updates))
                   "pending")
      /\ pendingMaintenance
           (dashboardMetrics LocalTZA now1 now
              (snd (updateMaintenanceRequest id updates s)))
         + Z.b2z (String.eqb (MaintenanceRequest.status request) "pending")
         = pendingMaintenance (dashboardMetrics LocalTZA now1 now s)
           + Z.b2z (String.eqb
                      (overwrite (MaintenanceRequest.status request)
                         (PartialMaintenanceRequest.status updates))
                      "pending"))
  /\ (forall (id : string) (updates : PartialStaff.t) (s : MemStorage)
             (member : Staff.t),
         getStaffMember id s = Some member ->
         count (getActiveStaff (snd (updateStaffMember id updates s)))
         + Z.b2z (match Staff.isActive member with
                  | Some true => true
                  | _ => false
                  end)
         = count (getActiveStaff s)
           + Z.b2z (match overwrite (Staff.isActive member)
                            (PartialStaff.isActive updates) with
                    | Some true => true
                    | _ => false
                    end)).
Proof.
  split.
  - intros LocalTZA now1 now id updates s request Hget.
    unfold getMaintenanceRequest in Hget.
    assert (H : count (getPendingMaintenanceRequests
                         (snd (updateMaintenanceRequest id updates s)))
                + Z.b2z (String.eqb (MaintenanceRequest.status request)
                           "pending")
                = count (getPendingMaintenanceRequests s)
                  + Z.b2z (String.eqb
                             (overwrite (MaintenanceRequest.status request)
                                (PartialMaintenanceRequest.status updates))
                             "pending")).
    { unfold updateMaintenanceRequest. rewrite Hget.
      unfold getPendingMaintenanceRequests; simpl.
      exact (count_filter_set
               (fun request =>
                  String.eqb (MaintenanceRequest.status request) "pending")
               id (spreadMaintenanceRequest request updates) request
               (maintenanceRequests s) Hget). }
    split; [exact H|].
    unfold updateMaintenanceRequest in *. rewrite Hget in *. exact H.
  - intros id updates s member Hget.
    unfold getStaffMember in Hget.
    unfold updateStaffMember. rewrite Hget.
    unfold getActiveStaff; simpl.
    exact (count_filter_set
             (fun member =>
                match Staff.isActive member with
                | Some true => true
                | _ => false
                end)
             id (spreadStaff member updates) member (staff s) Hget).
Qed.

Lemma filtered_views_follow_updates_witness :
  count (getPendingMaintenanceRequests
           (snd (updateMaintenanceRequest "m-1" completedOnly pendingStore)))
  + Z.b2z (String.eqb (MaintenanceRequest.status pendingRequest) "pending")
  = count (getPendingMaintenanceRequests pendingStore)
    + Z.b2z (String.eqb
               (overwrite (MaintenanceRequest.status pendingRequest)
                  (PartialMaintenanceRequest.status completedOnly))
               "pending").
Proof.
  apply (proj1 filtered_views_follow_updates Sample.utc Sample.midnight
           Sample.midnight "m-1" completedOnly pendingStore pendingRequest).
  reflexivity.
Defined.

Lemma initializeData_frame (sample : list Room.t) (s : MemStorage) :
  bookings (initializeData sample s) = bookings s
  /\ maintenanceRequests (initializeData sample s) = maintenanceRequests s.
Proof.
  unfold initializeData. revert s.
  induction sample as [|room rest IH]; intros s; simpl; [now split|].
  destruct (IH (with_rooms s (JsMap.set (Room.id room) room (rooms s))))
    as [Hb Hm].
  now rewrite Hb, Hm.
Qed.

Lemma set_fresh {V} (k : string) (v : V) (m : JsMap.t V) :
  ~ In k (JsMap.keys m) -> JsMap.set k v m = m ++ [(k, v)].
Proof.
  unfold JsMap.keys.
  induction m as [|[k' v'] r IH]; simpl; intros Hk; [reflexivity|].
  destruct (String.eqb_spec k k') as [->|Hne].
  - exfalso. apply Hk. now left.
  - rewrite IH; [reflexivity|]. intros Hin. apply Hk. now right.
Qed.

(** Rooms with ids that differ from each other and from the stored ones are
    stored in their order, after the stored ones. *)
Lemma initializeData_rooms_in_order (sample : list Room.t) (s : MemStorage) :
  NoDup (JsMap.keys (rooms s) ++ map Room.id sample) ->
  getRooms (initializeData sample s) = getRooms s ++ sample.
Proof.
  unfold initializeData, getRooms. revert s.
  induction sample as [|room rest IH]; intros s Hnd; simpl.
  - now rewrite app_nil_r.
  - assert (Hfresh : ~ In (Room.id room) (JsMap.keys (rooms s))).
    { intros Hin. apply NoDup_remove_2 in Hnd. apply Hnd.
      apply in_or_app. now left. }
    rewrite IH; simpl; rewrite (set_fresh _ _ _ Hfresh).
    + unfold JsMap.values. rewrite map_app, <- app_assoc. reflexivity.
    + unfold JsMap.keys in *. rewrite map_app; simpl.
      rewrite <- app_assoc. exact Hnd.
Qed.

(** X25.  When the five generated ids differ, the store of the constructor
    lists the five sample rooms in their order, and the dashboard of a
    server that has just started shows an occupancy rate of 20, revenue
    0.00, no pending check-in or maintenance request, and 5 rooms of which
    1 is occupied, 3 are available and none is in maintenance: the pending
    room 103 is in none of the three counters. *)
Theorem dashboard_of_a_fresh_server :
  forall (u1 u2 u3 u4 u5 : string) (d1 d2 d3 d4 d5 : Date)
         (LocalTZA : Z -> bool -> Z) (now1 now : Date),
    NoDup [u1; u2; u3; u4; u5] ->
    getRooms (newMemStorage (sampleRooms u1 u2 u3 u4 u5 d1 d2 d3 d4 d5))
    = sampleRooms u1 u2 u3 u4 u5 d1 d2 d3 d4 d5
    /\ dashboardMetrics LocalTZA now1 now
         (newMemStorage (sampleRooms u1 u2 u3 u4 u5 d1 d2 d3 d4 d5))
       = mkMetrics (JsNumber.of_int 20) "0.00" 0 0 5 1 3 0.
Proof.
  intros u1 u2 u3 u4 u5 d1 d2 d3 d4 d5 LocalTZA now1 now Hnd.
  assert (Hrooms :
            getRooms (newMemStorage (sampleRooms u1 u2 u3 u4 u5 d1 d2 d3 d4 d5))
            = sampleRooms u1 u2 u3 u4 u5 d1 d2 d3 d4 d5).
  { unfold newMemStorage.
    rewrite initializeData_rooms_in_order; [reflexivity|exact Hnd]. }
  split; [exact Hrooms|].
  unfold dashboardMetrics, getTodaysArrivals, getPendingMaintenanceRequests,
    getBookings.
  rewrite Hrooms. unfold newMemStorage.
  destruct (initializeData_frame
              (sampleRooms u1 u2 u3 u4 u5 d1 d2 d3 d4 d5) emptyStorage)
    as [-> ->].
  vm_compute. reflexivity.
Qed.

Lemma dashboard_of_a_fresh_server_witness :
  dashboardMetrics Sample.utc Sample.midnight Sample.midnight
    (newMemStorage
       (sampleRooms "uuid-1" "uuid-2" "uuid-3" "uuid-4" "uuid-5" 0 0 0 0 0))
  = mkMetrics (JsNumber.of_int 20) "0.00" 0 0 5 1 3 0.
Proof.
  apply (dashboard_of_a_fresh_server "uuid-1" "uuid-2" "uuid-3" "uuid-4"
           "uuid-5" 0 0 0 0 0 Sample.utc Sample.midnight Sample.midnight).
  repeat (apply NoDup_cons; [simpl; intuition discriminate|]).
  apply NoDup_nil.
Defined.
